(** * LatLonGrid: the tiling system of [latlongrid.py], embedded and verified

    The development follows [src/latlongrid/latlongrid.py]:

    - [Py] holds the Python built-ins the module relies on ([int], [float],
      [str], [round], slicing, [str.split], [str.rjust], string ordering)
      and numpy's [isclose].
    - [LatLonGrid] holds the sampling codec and the tile-size classification.
    - [TilingSystem] holds [LatLonTilingSystem]: the tile-name codec, the
      family-tile search, the land lookup and the tile construction.
    - [Subgrid] holds [LatLonSubgrid.search_tiles_in_geometry].

    Numbers.  The sampling is a binary64 value and is modelled by Rocq's
    primitive floats, so that products such as [0.0003 * 1e4] round exactly as
    they do in Python.  The coordinates of a point or of a corner are Python
    numbers, [Py.number]: an [int], with exact arithmetic, or a [float], with
    the arithmetic of binary64, so that the sums [lon + 180] and [lat + 90]
    round as they do in Python; the floor division of floats follows
    CPython's.  The corners of an envelope are modelled by exact rationals
    [Q].  Strings are sequences of code points below 256. *)

Set Warnings "-inexact-float".

From Stdlib Require Import ZArith QArith Qround Lia Bool List.
From Stdlib Require Import String Ascii DecimalString.
From Stdlib Require Import Floats.
Import ListNotations.

Local Open Scope string_scope.
Local Open Scope Z_scope.

(** ** Exceptions and results *)

(** The messages the module attaches to its exceptions. *)
Inductive message : Type :=
| msg1                    (* "tilename" is not properly defined! ... *)
| msg2                    (* East and North coordinates ... must be multiples ... *)
| msg3                    (* Tilecode must be one of T18, T6, T3, T1! *)
| badly_defined           (* Resolution is badly defined! *)
| sampling_not_supported  (* Sampling ... is not supported! *)
| resolution_not_supported (* Error: Given resolution ... is not supported! *)
| ancillary_data          (* cannot load LatLonGrid ancillary data! *)
| name_or_lonlat          (* "name" or "lon"&"lat" must be defined! *)
| check_unit              (* Please check unit of geometry before reprojection! *)
| invalid_literal         (* raised by int() and float() *)
| nan_to_integer.         (* raised by int() and round() on a NaN *)

Inductive exn : Type :=
| ValueError (m : message)
| AttributeError (m : message)
| UnboundLocalError (variable : string)
| OverflowError
| ZeroDivisionError
| KeyError (key : string)
| TypeError
| Warning (m : message).

Inductive result (A : Type) : Type :=
| Ok (a : A)
| Raise (e : exn).

Arguments Ok {A} a.
Arguments Raise {A} e.

Definition bind {A B : Type} (r : result A) (k : A -> result B) : result B :=
  match r with
  | Ok a => k a
  | Raise e => Raise e
  end.

Notation "'do' x <- r ;; k" := (bind r (fun x => k))
  (at level 10, x pattern, r at level 100, k at level 200).

Definition is_ok {A : Type} (r : result A) : bool :=
  match r with Ok _ => true | Raise _ => false end.

(** ** Python built-ins *)

Module Py.

(** *** Characters *)

Definition code (c : ascii) : nat := nat_of_ascii c.

(** White space as [int()] and [float()] skip it, among code points below 256. *)
Definition is_space (c : ascii) : bool :=
  let n := code c in
  ((9 <=? n) && (n <=? 13) || (n =? 32) || (n =? 133) || (n =? 160))%nat.

Definition is_digit (c : ascii) : bool :=
  let n := code c in ((48 <=? n) && (n <=? 57))%nat.

Definition digit_val (c : ascii) : Z := Z.of_nat (code c - 48).

Definition digit_char (d : Z) : ascii := ascii_of_nat (48 + Z.to_nat d).

Definition lower (c : ascii) : ascii :=
  let n := code c in
  if ((65 <=? n) && (n <=? 90))%nat then ascii_of_nat (n + 32) else c.

(** *** Slices and searches *)

Definition len (s : string) : nat := String.length s.

(** [s[a:b]] for [0 <= a <= b]; like Python it stops at the end of [s]. *)
Definition slice (a b : nat) (s : string) : string := substring a (b - a) s.

(** [s[a:]] *)
Fixpoint slice_from (a : nat) (s : string) : string :=
  match a, s with
  | O, _ => s
  | S a', String _ r => slice_from a' r
  | S _, EmptyString => EmptyString
  end.

(** [s[:-1]] *)
Fixpoint but_last (s : string) : string :=
  match s with
  | EmptyString => EmptyString
  | String _ EmptyString => EmptyString
  | String c r => String c (but_last r)
  end.

(** [c in s] for a one-character [c]. *)
Fixpoint contains (c : ascii) (s : string) : bool :=
  match s with
  | EmptyString => false
  | String d r => Ascii.eqb d c || contains c r
  end.

(** What follows the last [sep] in [s], when [sep] occurs. *)
Fixpoint after_last (sep : ascii) (s : string) : option string :=
  match s with
  | EmptyString => None
  | String c r =>
      match after_last sep r with
      | Some t => Some t
      | None => if Ascii.eqb c sep then Some r else None
      end
  end.

(** [s.split(sep)[-1]] *)
Definition split_last (sep : ascii) (s : string) : string :=
  match after_last sep s with
  | Some t => t
  | None => s
  end.

(** [a >= b] on strings: lexicographic, by code point. *)
Definition str_ge (a b : string) : bool := negb (String.ltb a b).

(** *** Printing integers *)

(** [str(z)] *)
Definition str (z : Z) : string := NilZero.string_of_int (Z.to_int z).

Fixpoint repeat_char (c : ascii) (n : nat) : string :=
  match n with
  | O => EmptyString
  | S n' => String c (repeat_char c n')
  end.

(** [s.rjust(width, fill)] *)
Definition rjust (width : nat) (fill : ascii) (s : string) : string :=
  (repeat_char fill (width - len s) ++ s)%string.

(** ["{:03d}".format(z)]: the zeros go between the sign and the digits. *)
Definition format_03d (z : Z) : string :=
  if z <? 0 then String "-" (rjust 2 "0" (str (- z))) else rjust 3 "0" (str z).

(** *** Reading integers: [int(s)] *)

Fixpoint lstrip (l : list ascii) : list ascii :=
  match l with
  | c :: r => if is_space c then lstrip r else l
  | [] => []
  end.

Definition strip (l : list ascii) : list ascii :=
  rev (lstrip (rev (lstrip l))).

(** A run [digit (["_"] digit)*] that fills the whole list; the digits read. *)
Fixpoint digits (after_digit : bool) (l : list ascii) : option (list Z) :=
  match l with
  | [] => if after_digit then Some [] else None
  | c :: r =>
      if is_digit c then option_map (cons (digit_val c)) (digits true r)
      else if Ascii.eqb c "_" && after_digit then digits false r
      else None
  end.

Definition decimal (ds : list Z) : Z :=
  fold_left (fun acc d => 10 * acc + d) ds 0.

(** An optional sign ([true] for minus) and what follows it. *)
Definition sign (l : list ascii) : bool * list ascii :=
  match l with
  | "+"%char :: r => (false, r)
  | "-"%char :: r => (true, r)
  | _ => (false, l)
  end.

Definition int (s : string) : result Z :=
  let (neg, body) := sign (strip (list_ascii_of_string s)) in
  match digits false body with
  | Some ds => Ok (if neg then - decimal ds else decimal ds)
  | None => Raise (ValueError invalid_literal)
  end.

(** *** Floats *)

Definition float_of_SF (x : spec_float) : float := SF2Prim x.

(** The binary64 value nearest to the integer [z] ([szero]: sign of a zero). *)
Definition float_of_Z (szero : bool) (z : Z) : float :=
  float_of_SF (binary_normalize prec emax z 0 szero).

(** The binary64 value nearest to [m * 10^e], for a natural [m]. *)
Definition float_of_decimal (neg : bool) (m e : Z) : float :=
  if 0 <=? e then float_of_Z neg ((if neg then - m else m) * 10 ^ e)
  else match m with
       | Zpos p =>
           float_of_SF (SFdiv prec emax (S754_finite neg p 0)
                          (S754_finite false (Z.to_pos (10 ^ (- e))) 0))
       | _ => float_of_Z neg 0
       end.

(** [l] cut at the first character satisfying [p]: what is before it and,
    when there is one, what is after it. *)
Fixpoint cut (p : ascii -> bool) (l : list ascii) : list ascii * option (list ascii) :=
  match l with
  | [] => ([], None)
  | c :: r =>
      if p c then ([], Some r)
      else let (before, after) := cut p r in (c :: before, after)
  end.

(** Digits that may be absent altogether. *)
Definition digits_opt (l : list ascii) : option (list Z) :=
  match l with
  | [] => Some []
  | _ => digits false l
  end.

(** [float(s)]: white space, a sign, then [inf], [infinity], [nan] in any
    case or a decimal literal with optional fraction and exponent. *)
Definition float (s : string) : result PrimFloat.float :=
  let (neg, body) := sign (strip (list_ascii_of_string s)) in
  let word := string_of_list_ascii (map lower body) in
  if String.eqb word "inf" || String.eqb word "infinity" then
    Ok (if neg then neg_infinity else infinity)
  else if String.eqb word "nan" then Ok nan
  else
    let (mant, expo) := cut (fun c => Ascii.eqb (lower c) "e") body in
    let (ipart, fpart) := cut (fun c => Ascii.eqb c ".") mant in
    let fpart := match fpart with Some f => f | None => [] end in
    let expo :=
      match expo with
      | None => Some 0
      | Some e => let (eneg, edigits) := sign e in
                  option_map (fun ds => if eneg then - decimal ds else decimal ds)
                             (digits false edigits)
      end in
    match digits_opt ipart, digits_opt fpart, expo with
    | Some ids, Some fds, Some e =>
        match (ids ++ fds)%list with
        | [] => Raise (ValueError invalid_literal)
        | ds => Ok (float_of_decimal neg (decimal ds) (e - Z.of_nat (List.length fds)))
        end
    | _, _, _ => Raise (ValueError invalid_literal)
    end.

(** The integer part of a finite float ([int(x)]), and [round(x)], which
    rounds halves to the even neighbour. *)
Definition trunc_SF (neg : bool) (m : positive) (e : Z) : Z :=
  let q := if 0 <=? e then Z.shiftl (Zpos m) e else Z.shiftr (Zpos m) (- e) in
  if neg then - q else q.

Definition round_SF (neg : bool) (m : positive) (e : Z) : Z :=
  let q :=
    if 0 <=? e then Z.shiftl (Zpos m) e
    else
      let q := Z.shiftr (Zpos m) (- e) in
      let r := Zpos m - Z.shiftl q (- e) in
      match 2 * r ?= Z.shiftl 1 (- e) with
      | Lt => q
      | Eq => if Z.even q then q else q + 1
      | Gt => q + 1
      end in
  if neg then - q else q.

Definition to_integer (f : bool -> positive -> Z -> Z) (x : PrimFloat.float) : result Z :=
  match Prim2SF x with
  | S754_zero _ => Ok 0
  | S754_finite neg m e => Ok (f neg m e)
  | S754_infinity _ => Raise OverflowError
  | S754_nan => Raise (ValueError nan_to_integer)
  end.

Definition int_of_float : PrimFloat.float -> result Z := to_integer trunc_SF.
Definition round : PrimFloat.float -> result Z := to_integer round_SF.

(** [numpy.isclose(a, b)] with its default tolerances, for a finite [b]. *)
Definition isclose (a b : PrimFloat.float) : bool :=
  PrimFloat.leb (abs (a - b)) (1e-8 + 1e-5 * abs b).

(** *** [float] arithmetic that C leaves to the library *)

(** [fmod(x, y)]: the remainder of [x / y] cut towards zero, which is exact
    and has the sign of [x]. *)
Definition fmod (x y : PrimFloat.float) : PrimFloat.float :=
  match Prim2SF x, Prim2SF y with
  | S754_nan, _ | _, S754_nan => nan
  | S754_infinity _, _ => nan
  | _, S754_zero _ => nan
  | _, S754_infinity _ => x
  | S754_zero _, _ => x
  | S754_finite sx mx ex, S754_finite _ my ey =>
      let e := Z.min ex ey in
      let r := Z.rem (Z.shiftl (Zpos mx) (ex - e)) (Z.shiftl (Zpos my) (ey - e)) in
      float_of_SF (binary_normalize prec emax (if sx then - r else r) e sx)
  end.

(** [floor(x)] *)
Definition floor (x : PrimFloat.float) : PrimFloat.float :=
  match Prim2SF x with
  | S754_finite s m e =>
      if 0 <=? e then x
      else
        let q := Z.shiftr (Zpos m) (- e) in
        let q := if s then (if Zpos m =? Z.shiftl q (- e) then - q else - q - 1) else q in
        float_of_Z false q
  | _ => x
  end.

(** [copysign(0.0, y)] *)
Definition zero_signed_as (y : PrimFloat.float) : PrimFloat.float :=
  match Prim2SF y with
  | S754_zero true | S754_infinity true | S754_finite true _ _ => (-0)%float
  | _ => 0%float
  end.

(** [x // y] on floats, as CPython computes it: from [fmod], by one
    subtraction and one division, then [floor] with a correction. *)
Definition float_floordiv (vx wx : PrimFloat.float) : PrimFloat.float :=
  let mod_ := fmod vx wx in
  let div := ((vx - mod_) / wx)%float in
  let div :=
    if negb (mod_ =? 0)%float && negb (Bool.eqb (wx <? 0)%float (mod_ <? 0)%float)
    then (div - 1)%float else div in
  if negb (div =? 0)%float then
    let floordiv := floor div in
    if (0.5 <? div - floordiv)%float then (floordiv + 1)%float else floordiv
  else zero_signed_as (vx / wx)%float.

(** *** Numbers: [int] and [float] *)

Inductive number : Type :=
| Int (z : Z)
| Float (x : PrimFloat.float).

(** [float(k)] for an [int]: the nearest float, or [OverflowError]. *)
Definition float_of_int (k : Z) : option PrimFloat.float :=
  let x := float_of_Z false k in
  match Prim2SF x with
  | S754_infinity _ => None
  | _ => Some x
  end.

Definition float_of_number (a : number) : result PrimFloat.float :=
  match a with
  | Float x => Ok x
  | Int z => match float_of_int z with
             | Some x => Ok x
             | None => Raise OverflowError
             end
  end.

(** [a + k], [a - k] and [a * k] for an [int] [k]: exact on an [int], in
    binary64 on a [float], to which [k] is converted first. *)
Definition arith (on_int : Z -> Z -> Z)
  (on_float : PrimFloat.float -> PrimFloat.float -> PrimFloat.float)
  (a : number) (k : Z) : result number :=
  match a with
  | Int z => Ok (Int (on_int z k))
  | Float x => do y <- float_of_number (Int k) ;; Ok (Float (on_float x y))
  end.

Definition add : number -> Z -> result number := arith Z.add PrimFloat.add.
Definition sub : number -> Z -> result number := arith Z.sub PrimFloat.sub.
Definition mul : number -> Z -> result number := arith Z.mul PrimFloat.mul.

(** [a // k]: the floor of the quotient, and [ZeroDivisionError] for [k = 0]. *)
Definition floordiv (a : number) (k : Z) : result number :=
  if k =? 0 then Raise ZeroDivisionError
  else match a with
       | Int z => Ok (Int (z / k))
       | Float x => do y <- float_of_number (Int k) ;; Ok (Float (float_floordiv x y))
       end.

(** [int(a)]: towards zero. *)
Definition int_of_number (a : number) : result Z :=
  match a with
  | Int z => Ok z
  | Float x => int_of_float x
  end.

(** *** The coordinates of an envelope: exact rationals *)

(** [int(x)]: towards zero. *)
Definition int_of_Q (x : Q) : Z := Z.quot (Qnum x) (Zpos (Qden x)).

End Py.

(** A [dict] with string keys; a missing key raises [KeyError]. *)
Fixpoint lookup {V : Type} (key : string) (d : list (string * V)) : result V :=
  match d with
  | [] => Raise (KeyError key)
  | (k, v) :: r => if String.eqb k key then Ok v else lookup key r
  end.

(** ** The data model *)

(** [pytileproj]'s [TPSCoreProperty], as far as the grid reads it. *)
Record TPSCoreProperty : Type := {
  tag : string;
  sampling : float;
  tiletype : string;
  tile_xsize_m : Z;
  tile_ysize_m : Z
}.

(** One entry of [latlongrid.dat]; [coverland] maps a tile code to the set of
    short tile names that cover land. *)
Record subgrid_data : Type := {
  zone_extent : string;
  projection : string;
  coverland : list (string * list string)
}.

Definition static_data : Type := list (string * subgrid_data).

Record LatLonTilingSystem : Type := {
  core : TPSCoreProperty
}.

(** [polygon_wkt]: the text from which [polygon_geog] is created. *)
Record LatLonSubgrid : Type := {
  subgrid_core : TPSCoreProperty;
  name : string;
  polygon_wkt : string;
  tilesys : LatLonTilingSystem
}.

Record LatLonGrid : Type := {
  grid_core : TPSCoreProperty;
  subgrids : list (string * LatLonSubgrid)
}.

Record LatLonTile : Type := {
  tile_core : TPSCoreProperty;
  tile_name : string;
  ll_lon : Py.number;
  ll_lat : Py.number;
  covers_land : option bool
}.

(** ** class LatLonGrid *)

Module Grid.

Definition _static_subgrid_ids : list string := ["GL"].

Definition _static_tilecodes : list string := ["T1"; "T3"; "T6"; "T18"].

Definition _static_sampling : list float :=
  [0.0001; 0.00016; 0.0002; 0.0003; 0.0004; 0.0005; 0.0006;
   0.0008; 0.001; 0.0016; 0.002; 0.003; 0.004; 0.005; 0.006;
   0.008; 0.01]%float.

Definition encode_sampling (sampling : float) : result string :=
  do (sampling_scaled, order_tag) <-
    (if (sampling <? 0.001)%float then
       do n <- Py.int_of_float (sampling * 1e6)%float ;; Ok (n, "U")
     else if (sampling <? 1)%float then
       do n <- Py.int_of_float (sampling * 1e3)%float ;; Ok (n, "M")
     else
       do n <- Py.int_of_float sampling ;; Ok (n, "D")) ;;
  let sampling_str := (Py.rjust 3 "0" (Py.str sampling_scaled) ++ order_tag)%string in
  if (4 <? Py.len sampling_str)%nat then Raise (ValueError badly_defined)
  else Ok sampling_str.

Definition decode_sampling (sampling_str : string) : result float :=
  if negb (Py.len sampling_str =? 4)%nat then Raise (ValueError badly_defined)
  else
    do scale_factor <-
      (if Py.contains "U" sampling_str then Ok 1e-6%float
       else if Py.contains "M" sampling_str then Ok 1e-3%float
       else if Py.contains "D" sampling_str then Ok 1%float
       else Raise (ValueError badly_defined)) ;;
    do x <- Py.float (Py.but_last sampling_str) ;;
    Ok (x * scale_factor)%float.

(** The sampling scaled by [1e4] to an integer: [int(round(sampling * 1e4))]. *)
Definition sampling_scaled (sampling : float) : result Z :=
  Py.round (sampling * 1e4)%float.

(** The chain of tests of [get_tiletype] on the scaled sampling.  The
    remainders [k*scale_factor % s] are taken of the integers 10000, 30000,
    60000 and 180000, which the floats involved represent exactly; each is
    evaluated only when [s] is in the range tested before it. *)
Definition tilecode (s : Z) : result string :=
  if (1 <=? s) && (s <? 3) && (1 * 10000 mod s =? 0) then Ok "T1"
  else if (3 <=? s) && (s <? 6) && (3 * 10000 mod s =? 0) then Ok "T3"
  else if (6 <=? s) && (s <? 20) && (6 * 10000 mod s =? 0) then Ok "T6"
  else if (20 <=? s) && (s <? 101) && (18 * 10000 mod s =? 0) then Ok "T18"
  else Raise (ValueError resolution_not_supported).

(** [get_tiletype(sampling)]; without a sampling it answers the tile code of
    the grid instance. *)
Definition get_tiletype (own : string) (sampling : option float) : result string :=
  match sampling with
  | None => Ok own
  | Some sampling => do s <- sampling_scaled sampling ;; tilecode s
  end.

Definition tilesizes : list (string * Z) :=
  [("T18", 18); ("T6", 6); ("T3", 3); ("T1", 1)].

Definition get_tilesize (own : string) (sampling : float) : result (Z * Z) :=
  do cx <- get_tiletype own (Some sampling) ;;
  do xsize <- lookup cx tilesizes ;;
  do cy <- get_tiletype own (Some sampling) ;;
  do ysize <- lookup cy tilesizes ;;
  Ok (xsize, ysize).

Section StaticData.

Variable _static_data : option static_data.

(** [LatLonSubgrid(core, region)] *)
Definition new_subgrid (c : TPSCoreProperty) (region : string) : result LatLonSubgrid :=
  match _static_data with
  | None => Raise TypeError
  | Some d =>
      do data <- lookup region d ;;
      let _core := {| tag := region; sampling := sampling c; tiletype := tiletype c;
                      tile_xsize_m := tile_xsize_m c; tile_ysize_m := tile_ysize_m c |} in
      do code <- encode_sampling (sampling c) ;;
      Ok {| subgrid_core := _core;
            name := ("LATLON_" ++ region ++ code)%string;
            polygon_wkt := zone_extent data;
            tilesys := {| core := _core |} |}
  end.

Fixpoint define_subgrids (c : TPSCoreProperty) (ids : list string)
  : result (list (string * LatLonSubgrid)) :=
  match ids with
  | [] => Ok []
  | sg :: r =>
      do s <- new_subgrid c sg ;;
      do rest <- define_subgrids c r ;;
      Ok ((sg, s) :: rest)
  end.

(** [LatLonGrid(sampling)]: the checks of [__init__], then the constructor of
    [TiledProjectionSystem], which asks [get_tiletype] and [get_tilesize] for
    the core and [define_subgrids] for the subgrids. *)
Definition new (sampling : float) : result LatLonGrid :=
  match _static_data with
  | None => Raise (ValueError ancillary_data)
  | Some _ =>
      if negb (existsb (PrimFloat.eqb sampling) _static_sampling)
      then Raise (ValueError sampling_not_supported)
      else
        do code <- get_tiletype "" (Some sampling) ;;
        do (xsize, ysize) <- get_tilesize "" sampling ;;
        let c := {| tag := "LatLon"; sampling := sampling; tiletype := code;
                    tile_xsize_m := xsize; tile_ysize_m := ysize |} in
        do sgs <- define_subgrids c _static_subgrid_ids ;;
        Ok {| grid_core := c; subgrids := sgs |}
  end.

End StaticData.

End Grid.

(** ** class LatLonTilingSystem *)

Module TilingSystem.

Section StaticData.

Variable _static_data : option static_data.

(** The tile sizes [core.tile_xsize_m] and [core.tile_ysize_m].  The
    constructor takes them from [get_tilesize], so they are 1, 3, 6 or 18;
    [//] and [%] by them are the floor division and its remainder, [Z.div]
    and [Z.modulo], and the properties below assume a size that is not zero
    wherever the source divides by it. *)
Definition xsize (self : LatLonTilingSystem) : Z := tile_xsize_m (core self).
Definition ysize (self : LatLonTilingSystem) : Z := tile_ysize_m (core self).

(** [(lon + 180) // xsize * xsize - 180], and the same for the latitude. *)
Definition round_lonlat2lowerleft (self : LatLonTilingSystem) (lon lat : Py.number)
  : result (Py.number * Py.number) :=
  do shifted <- Py.add lon 180 ;;
  do tiles <- Py.floordiv shifted (xsize self) ;;
  do east <- Py.mul tiles (xsize self) ;;
  do ll_lon <- Py.sub east 180 ;;
  do shifted <- Py.add lat 90 ;;
  do tiles <- Py.floordiv shifted (ysize self) ;;
  do north <- Py.mul tiles (ysize self) ;;
  do ll_lat <- Py.sub north 90 ;;
  Ok (ll_lon, ll_lat).

(** The decoded tile name:
    [(subgrid_id, sampling, tile_size_d, ll_lon, ll_lat, tilecode)]. *)
Definition decoded : Type := string * float * Z * Z * Z * string.

Definition decode_tilename (self : LatLonTilingSystem) (tilename : string)
  : result decoded :=
  let tf := ysize self in
  let own_sampling := sampling (core self) in
  if (Py.len tilename =? 10)%nat || (Py.len tilename =? 11)%nat then
    do tile_size_d <- Py.int (Py.split_last "T" tilename) ;;
    if negb (tile_size_d =? xsize self) then Raise (ValueError msg1) else
    do east <- Py.int (Py.slice 1 4 tilename) ;;
    let ll_lon := east - 180 in
    if negb (ll_lon mod tf =? 0) then Raise (ValueError msg2) else
    do north <- Py.int (Py.slice 5 8 tilename) ;;
    let ll_lat := north - 90 in
    if negb (ll_lat mod tf =? 0) then Raise (ValueError msg2) else
    let tilecode := String "T" (Py.split_last "T" tilename) in
    if negb (String.eqb tilecode (tiletype (core self))) then Raise (ValueError msg1) else
    let subgrid_id := tag (core self) in
    let sampling := own_sampling in
    Ok (subgrid_id, sampling, tile_size_d, ll_lon, ll_lat, tilecode)
  else if (Py.len tilename =? 17)%nat || (Py.len tilename =? 18)%nat then
    let subgrid_id := Py.slice 0 2 tilename in
    if negb (String.eqb subgrid_id (tag (core self))) then Raise (ValueError msg1) else
    do sampling <- Grid.decode_sampling (Py.slice 2 6 tilename) ;;
    if negb (Py.isclose sampling own_sampling) then Raise (ValueError msg1) else
    do tile_size_d <- Py.int (Py.split_last "T" tilename) ;;
    if negb (tile_size_d =? xsize self) then Raise (ValueError msg1) else
    do east <- Py.int (Py.slice 8 11 tilename) ;;
    let ll_lon := east - 180 in
    if negb (ll_lon mod tf =? 0) then Raise (ValueError msg2) else
    do north <- Py.int (Py.slice 12 15 tilename) ;;
    let ll_lat := north - 90 in
    if negb (ll_lat mod tf =? 0) then Raise (ValueError msg2) else
    let tilecode := String "T" (Py.split_last "T" tilename) in
    if negb (String.eqb tilecode (tiletype (core self))) then Raise (ValueError msg1) else
    Ok (subgrid_id, sampling, tile_size_d, ll_lon, ll_lat, tilecode)
  else Raise (ValueError msg1).

Definition check_tilename (self : LatLonTilingSystem) (tilename : string) : result bool :=
  do _ <- decode_tilename self tilename ;;
  Ok true.

(** [shortform] is assigned only for a name of 17 characters; for any other
    length the [return] finds it unbound. *)
Definition tilename2short (self : LatLonTilingSystem) (longform : string) : result string :=
  do _ <- check_tilename self longform ;;
  let shortform := if (Py.len longform =? 17)%nat then Some (Py.slice_from 7 longform)
                   else None in
  match shortform with
  | Some s => Ok s
  | None => Raise (UnboundLocalError "shortform")
  end.

Definition tilename2lowerleft (self : LatLonTilingSystem) (tilename : string)
  : result (Z * Z) :=
  do (_, _, _, ll_lon, ll_lat, _) <- decode_tilename self tilename ;;
  Ok (ll_lon, ll_lat).

Definition encode_tilename (self : LatLonTilingSystem) (ll_lon ll_lat : Py.number)
  (sampling : float) (tilecode : string) (shortform : bool) : result string :=
  do code <- Grid.encode_sampling sampling ;;
  do east <- Py.int_of_number ll_lon ;;
  do north <- Py.int_of_number ll_lat ;;
  let tilename :=
    (tag (core self) ++ code ++ "_E" ++ Py.format_03d (east + 180)
       ++ "N" ++ Py.format_03d (north + 90) ++ tilecode)%string in
  if shortform then tilename2short self tilename else Ok tilename.

Definition _encode_tilename (self : LatLonTilingSystem) (ll_lon ll_lat : Py.number)
  (shortform : bool) : result string :=
  encode_tilename self ll_lon ll_lat (sampling (core self)) (tiletype (core self)) shortform.

Definition point2tilename (self : LatLonTilingSystem) (lon lat : Py.number)
  (shortform : bool) : result string :=
  do (ll_lon, ll_lat) <- round_lonlat2lowerleft self lon lat ;;
  _encode_tilename self ll_lon ll_lat shortform.

(** [list(_static_data[tag]["coverland"][tiletype])] *)
Definition list_tiles_covering_land (self : LatLonTilingSystem) : result (list string) :=
  match _static_data with
  | None => Raise TypeError
  | Some d =>
      do data <- lookup (tag (core self)) d ;;
      lookup (tiletype (core self)) (coverland data)
  end.

(** [tilename in land_tiles] *)
Definition member (tilename : string) (land_tiles : list string) : bool :=
  existsb (String.eqb tilename) land_tiles.

(** The answer is [Some b] for a Python [bool] and [None] for the [None] of
    a function that runs off its end. *)
Definition check_tile_covers_land (self : LatLonTilingSystem) (tilename : string)
  : result (option bool) :=
  do land_tiles <- list_tiles_covering_land self ;;
  do ok <- check_tilename self tilename ;;
  if ok then
    do tilename <- tilename2short self tilename ;;
    Ok (Some (member tilename land_tiles))
  else Ok None.

(** [range(n)] *)
Definition range (n : Z) : list Z := map Z.of_nat (seq 0 (Z.to_nat n)).

(** [itertools.product(a, b)] *)
Definition product {A B : Type} (a : list A) (b : list B) : list (A * B) :=
  flat_map (fun x => map (fun y => (x, y)) b) a.

(** A loop body run over a list, stopping at the first exception. *)
Fixpoint for_each {A B : Type} (body : A -> result B) (l : list A) : result (list B) :=
  match l with
  | [] => Ok []
  | x :: r =>
      do y <- body x ;;
      do ys <- for_each body r ;;
      Ok (y :: ys)
  end.

(** The local variable [sampling] of [find_overlapping_tilenames] after the
    three tests on the arguments: [None] while nothing was assigned to it. *)
Definition check_search_input (target_sampling : option float)
  (target_tiletype : option string) : result (option float) :=
  let sampling : option float := None in
  let sampling :=
    match target_sampling, target_tiletype with
    | Some s, None => Some s
    | _, _ => sampling
    end in
  do sampling <-
    match target_sampling, target_tiletype with
    | None, Some t =>
        if String.eqb t "T1" then Ok (Some 0.0001%float)
        else if String.eqb t "T3" then Ok (Some 0.0003%float)
        else if String.eqb t "T6" then Ok (Some 0.0006%float)
        else if String.eqb t "T6" then Ok (Some 0.002%float)
        else Raise (ValueError msg3)
    | _, _ => Ok sampling
    end ;;
  let sampling :=
    match target_sampling, target_tiletype with
    | Some s, Some _ => Some s
    | _, _ => sampling
    end in
  Ok sampling.

Definition find_overlapping_tilenames (self : LatLonTilingSystem) (tilename : string)
  (target_sampling : option float) (target_tiletype : option string)
  : result (list string) :=
  let shortform := match target_sampling with None => true | Some _ => false end in
  do sampling <- check_search_input target_sampling target_tiletype ;;
  do sampling <- match sampling with
                 | Some s => Ok s
                 | None => Raise (UnboundLocalError "sampling")
                 end ;;
  do target_grid <- Grid.new _static_data sampling ;;
  let target_tiletype := tiletype (grid_core target_grid) in
  let target_tilesize := tile_xsize_m (grid_core target_grid) in
  do (_, src_sampling, src_tilesize_d, src_ll_lon, src_ll_lat, src_tiletype) <-
    decode_tilename self tilename ;;
  if Py.str_ge target_tiletype src_tiletype then
    let t_east := (src_ll_lon + 180) / target_tilesize * target_tilesize - 180 in
    let t_north := (src_ll_lat + 90) / target_tilesize * target_tilesize - 90 in
    do sg <- lookup (tag (core self)) (subgrids target_grid) ;;
    do name <- encode_tilename (tilesys sg) (Py.Int t_east) (Py.Int t_north)
                 sampling target_tiletype shortform ;;
    Ok [name]
  else
    let n := src_tilesize_d / target_tilesize in
    for_each
      (fun '(lon, lat) =>
         let s_east := src_ll_lon + lon * target_tilesize in
         let s_north := src_ll_lat + lat * target_tilesize in
         do sg <- lookup (tag (core self)) (subgrids target_grid) ;;
         encode_tilename (tilesys sg) (Py.Int s_east) (Py.Int s_north)
           sampling target_tiletype shortform)
      (product (range n) (range n)).

(** [create_tile(name=None, lon=None, lat=None)] *)
Definition create_tile (self : LatLonTilingSystem) (name : option string)
  (lon lat : option Py.number) : result LatLonTile :=
  do (ll_lon, ll_lat) <-
    match lon, lat, name with
    | Some lon, Some lat, None => round_lonlat2lowerleft self lon lat
    | None, None, Some name =>
        do (x, y) <- tilename2lowerleft self name ;; Ok (Py.Int x, Py.Int y)
    | _, _, _ => Raise (AttributeError name_or_lonlat)
    end ;;
  do name <- _encode_tilename self ll_lon ll_lat false ;;
  do covers_land <- check_tile_covers_land self name ;;
  Ok {| tile_core := core self; tile_name := name; ll_lon := ll_lon; ll_lat := ll_lat;
        covers_land := covers_land |}.

End StaticData.

End TilingSystem.

(** ** class LatLonSubgrid *)

(** The geometry service of [osgeo.ogr] and [pytileproj.geometry], as far as
    [search_tiles_in_geometry] calls it.  An envelope is
    [(min_x, max_x, min_y, max_y)]; an extent is [(x_min, y_min, x_max, y_max)]. *)
Class Geometry (G : Type) : Type := {
  create_geometry_from_wkt : string -> G;
  Intersects : G -> G -> bool;
  Intersection : G -> G -> G;
  IsProjected : G -> Z;
  transform_geometry : G -> Q -> G;
  GetEnvelope : G -> Q * Q * Q * Q;
  extent2polygon : Z * Z * Z * Z -> G
}.

Module Subgrid.

(** [numpy.arange(start, stop, step)] on integers with a positive step. *)
Definition arange (start stop step : Z) : list Z :=
  map (fun i => start + Z.of_nat i * step)
      (seq 0 (Z.to_nat ((stop - start + step - 1) / step))).

(** The corners of the bounding tiles computed from the envelope:
    [(lon_min, lon_max, lat_min, lat_max)]. *)
Definition bounding_tiles (self : LatLonSubgrid) (envelope : Q * Q * Q * Q)
  : Z * Z * Z * Z :=
  let '(e0, e1, e2, e3) := envelope in
  let xs := tile_xsize_m (subgrid_core self) in
  let ys := tile_ysize_m (subgrid_core self) in
  let lon_min := Py.int_of_Q e0 / xs * xs in
  let lon_max := (Py.int_of_Q e1 / xs + 1) * xs in
  let lat_min := Py.int_of_Q e2 / ys * ys in
  let lat_max := (Py.int_of_Q e3 / ys + 1) * ys in
  (lon_min, lon_max, lat_min, lat_max).

(** The lower-left corners the loop visits, in its order. *)
Definition candidates (self : LatLonSubgrid) (envelope : Q * Q * Q * Q) : list (Z * Z) :=
  let '(lon_min, lon_max, lat_min, lat_max) := bounding_tiles self envelope in
  let xs := tile_xsize_m (subgrid_core self) in
  let ys := tile_ysize_m (subgrid_core self) in
  let lonr := arange lon_min (lon_max + xs) xs in
  let latr := arange lat_min (lat_max + ys) ys in
  TilingSystem.product lonr latr.

Section Search.

Context {G : Type} `{Geometry G}.

Variable _static_data : option static_data.

Definition polygon_geog (self : LatLonSubgrid) : G :=
  create_geometry_from_wkt (polygon_wkt self).

(** The loop over the candidate tiles, appending to [overlapped_tiles]. *)
Fixpoint visit (self : LatLonSubgrid) (intersect : G) (coverland : bool)
  (todo : list (Z * Z)) (overlapped_tiles : list string) : result (list string) :=
  match todo with
  | [] => Ok overlapped_tiles
  | (lon, lat) :: rest =>
      let xs := tile_xsize_m (subgrid_core self) in
      let geom_tile := extent2polygon (lon, lat, lon + xs, lat + xs) in
      if Intersects geom_tile intersect then
        do ftile <- TilingSystem.point2tilename (tilesys self)
                      (Py.Int lon) (Py.Int lat) false ;;
        do keep <- (if negb coverland then Ok true
                    else do land <- TilingSystem.check_tile_covers_land
                                      _static_data (tilesys self) ftile ;;
                         Ok (match land with Some b => b | None => false end)) ;;
        visit self intersect coverland rest
          (if keep then overlapped_tiles ++ [ftile] else overlapped_tiles)%list
      else visit self intersect coverland rest overlapped_tiles
  end.

Definition search_tiles_in_geometry (self : LatLonSubgrid) (geom : G) (coverland : bool)
  : result (list string) :=
  let overlapped_tiles : list string := [] in
  if negb (Intersects geom (polygon_geog self)) then Ok overlapped_tiles
  else
    let intersect := Intersection geom (polygon_geog self) in
    let projected := IsProjected intersect in
    if negb (projected =? 0) then Raise (Warning check_unit)
    else
      let max_segment := (1 # 2)%Q in
      let intersect := transform_geometry intersect max_segment in
      let envelope := GetEnvelope intersect in
      visit self intersect coverland (candidates self envelope) overlapped_tiles.

End Search.

End Subgrid.

(** ** A geometry of closed rectangles

    The simplest instance of the geometry service: a geometry is a closed
    axis-parallel rectangle [(x_min, y_min, x_max, y_max)], already in the
    grid's spatial reference and unchanged by segmentising; every zone text
    denotes the whole globe. *)

Module Rectangle.

Definition t : Type := Q * Q * Q * Q.

Definition globe : t := (-180 # 1, -90 # 1, 180 # 1, 90 # 1)%Q.

Definition Qmax (a b : Q) : Q := if Qle_bool a b then b else a.
Definition Qmin (a b : Q) : Q := if Qle_bool a b then a else b.

Definition intersects (a b : t) : bool :=
  let '(ax0, ay0, ax1, ay1) := a in
  let '(bx0, by0, bx1, by1) := b in
  Qle_bool ax0 bx1 && Qle_bool bx0 ax1 && Qle_bool ay0 by1 && Qle_bool by0 ay1.

Definition intersection (a b : t) : t :=
  let '(ax0, ay0, ax1, ay1) := a in
  let '(bx0, by0, bx1, by1) := b in
  (Qmax ax0 bx0, Qmax ay0 by0, Qmin ax1 bx1, Qmin ay1 by1).

Definition envelope (a : t) : Q * Q * Q * Q :=
  let '(x0, y0, x1, y1) := a in (x0, x1, y0, y1).

Definition of_extent (e : Z * Z * Z * Z) : t :=
  let '(x0, y0, x1, y1) := e in (inject_Z x0, inject_Z y0, inject_Z x1, inject_Z y1).

(** Two rectangles share more than boundary points. *)
Definition overlaps (a b : t) : Prop :=
  let '(ax0, ay0, ax1, ay1) := a in
  let '(bx0, by0, bx1, by1) := b in
  (ax0 < bx1 /\ bx0 < ax1 /\ ay0 < by1 /\ by0 < ay1)%Q.

#[global] Instance geometry : Geometry t := {
  create_geometry_from_wkt := fun _ => globe;
  Intersects := intersects;
  Intersection := intersection;
  IsProjected := fun _ => 0;
  transform_geometry := fun g _ => g;
  GetEnvelope := envelope;
  extent2polygon := of_extent
}.

End Rectangle.

(** ** class LatLonTile, and tiles made through the grid *)

(** [LatLonTile.shortname]: the name without its first seven characters. *)
Definition shortname (tile : LatLonTile) : string := Py.slice_from 7 (tile_name tile).

(** [LatLonGrid.create_tile(name)]: the tiling system is looked up under the
    first two characters of the name. *)
Definition grid_create_tile (d : option static_data) (self : LatLonGrid) (name : string)
  : result LatLonTile :=
  do sg <- lookup (Py.slice 0 2 name) (subgrids self) ;;
  TilingSystem.create_tile d (tilesys sg) (Some name) None None.

(** ** Tiling systems as the tests obtain them *)

(** [LatLonGrid(sampling).GL.tilesys], together with its subgrid. *)
Definition GL (d : option static_data) (sampling : float) : result LatLonSubgrid :=
  do grid <- Grid.new d sampling ;;
  lookup "GL" (subgrids grid).

Definition GL_tilesys (d : option static_data) (sampling : float)
  : result LatLonTilingSystem :=
  do sg <- GL d sampling ;;
  Ok (tilesys sg).

(** A small stand-in for [latlongrid.dat]: one land tile per tile code. *)
Definition sample_GL : subgrid_data :=
  {| zone_extent := "POLYGON ((-180 -90,-180 90,180 90,180 -90,-180 -90))";
     projection := "EPSG:4326";
     coverland := [("T1", ["E194N135T1"]); ("T3", ["E012N042T3"]);
                   ("T6", ["E012N042T6"]); ("T18", ["E072N036T18"])] |}.

Definition sample_data : static_data := [("GL", sample_GL)].

(** ** The vocabulary of the properties *)

(** A rule of [get_tiletype]: the scaled sampling [s] lies in [lo .. hi - 1]
    and divides the scaled tile size. *)
Definition rule (lo hi size : Z) (s : Z) : Prop :=
  lo <= s < hi /\ (s | size * 10000).

(** [decode_sampling(encode_sampling(s))] *)
Definition recode (s : float) : result float :=
  do c <- Grid.encode_sampling s ;; Grid.decode_sampling c.

(** The supported samplings that the codec gives back bit for bit. *)
Definition exact_samplings : list float :=
  [0.0003; 0.0005; 0.0006; 0.001; 0.002; 0.003; 0.004; 0.005; 0.006; 0.008; 0.01]%float.

(** A result that is a value or a [ValueError]. *)
Definition only_ValueError {A : Type} (r : result A) : Prop :=
  match r with
  | Ok _ | Raise (ValueError _) => True
  | Raise _ => False
  end.

(** The two ways of naming a tile to [create_tile]. *)
Definition by_name (name : option string) (lon lat : option Py.number) : Prop :=
  name <> None /\ lon = None /\ lat = None.

Definition by_point (name : option string) (lon lat : option Py.number) : Prop :=
  name = None /\ lon <> None /\ lat <> None.

(** The core that the constructor builds for a region. *)
Definition built_core (region : string) (s : float) (code : string) (n : Z)
  : TPSCoreProperty :=
  {| tag := region; sampling := s; tiletype := code;
     tile_xsize_m := n; tile_ysize_m := n |}.

(** The three decimal digits of a number below 1000. *)
Definition three_digits (x : Z) : string :=
  String (Py.digit_char (x / 100))
    (String (Py.digit_char (x / 10 mod 10))
       (String (Py.digit_char (x mod 10)) EmptyString)).

Definition three_digits_ok (x : Z) : bool :=
  String.eqb (Py.format_03d x) (three_digits x) &&
  match Py.int (three_digits x) with
  | Ok y => y =? x
  | Raise _ => false
  end.

(** The names [encode_tilename] spells for the corner [(east, north)]: the
    short one from the size suffix [sfx], the long one from the two characters
    of the tag and the sampling code as well. *)
Definition short_name (sfx : string) (east north : Z) : string :=
  (String "E" (three_digits (east + 180)) ++ String "N" (three_digits (north + 90))
     ++ String "T" sfx)%string.

Definition long_name (a b : ascii) (code sfx : string) (east north : Z) : string :=
  String a (String b (code ++ String "_" (short_name sfx east north)))%string.

(** [decode_tilename(encode_tilename(east, north, sampling, tiletype))] on the
    system's own sampling and tile code. *)
Definition decode_of_encode (self : LatLonTilingSystem) (east north : Z)
  (shortform : bool) : result TilingSystem.decoded :=
  do tilename <- TilingSystem.encode_tilename self (Py.Int east) (Py.Int north)
                   (sampling (core self)) (tiletype (core self)) shortform ;;
  TilingSystem.decode_tilename self tilename.

(** What the round trip needs of a system, as a test: a tag of two
    characters, a sampling code that decodes to a float close to the sampling,
    and a tile code ["T"] followed by the tile size in one or two digits.
    The answer is the decoded sampling. *)
Definition well_named (self : LatLonTilingSystem) : option float :=
  match tag (core self), Grid.encode_sampling (sampling (core self)),
        tiletype (core self) with
  | String _ (String _ EmptyString),
    Ok (String _ (String _ (String _ (String _ EmptyString))) as code),
    String "T" sfx =>
      match Grid.decode_sampling code, Py.int sfx with
      | Ok s', Ok n =>
          if Py.isclose s' (sampling (core self)) && negb (Py.contains "T" sfx)
             && (TilingSystem.xsize self =? n) && (TilingSystem.ysize self =? n)
             && ((Py.len sfx =? 1)%nat || (Py.len sfx =? 2)%nat)
          then Some s' else None
      | _, _ => None
      end
  | _, _, _ => None
  end.

(** The order tag that [encode_sampling] appends. *)
Definition order_tag (sampling : float) : string :=
  if (sampling <? 0.001)%float then "U"
  else if (sampling <? 1)%float then "M" else "D".

(** A name that the search loop appends while it visits [todo]: the name
    [point2tilename] gives a visited corner whose tile meets the region and,
    when land is asked for, covers land. *)
Definition found {G : Type} `{Geometry G} (d : option static_data) (self : LatLonSubgrid)
  (intersect : G) (coverland : bool) (todo : list (Z * Z)) (n : string) : Prop :=
  exists lon lat,
    In (lon, lat) todo /\
    Intersects (extent2polygon (lon, lat, lon + tile_xsize_m (subgrid_core self),
                                lat + tile_xsize_m (subgrid_core self))) intersect = true /\
    TilingSystem.point2tilename (tilesys self) (Py.Int lon) (Py.Int lat) false = Ok n /\
    (coverland = true ->
     TilingSystem.check_tile_covers_land d (tilesys self) n = Ok (Some true)).

(** [x // y * y - off] on floats once [x - fmod(x, y)] is known to be [d]
    and [x / y] to be positive. *)
Definition corner_from (d y off : float) : float :=
  let div := (d / y)%float in
  let floordiv :=
    if negb (div =? 0)%float then
      let floordiv := Py.floor div in
      if (0.5 <? div - floordiv)%float then (floordiv + 1)%float else floordiv
    else 0%float in
  (floordiv * y - off)%float.

(** The exact value of a float. *)
Definition value_SF (s : bool) (m : positive) (e : Z) : Q :=
  if 0 <=? e then inject_Z (cond_Zopp s (Zpos m) * 2 ^ e)
  else cond_Zopp s (Zpos m) # Z.to_pos (2 ^ (- e)).

Definition value_of_float (x : float) : option Q :=
  match Prim2SF x with
  | S754_zero _ => Some 0%Q
  | S754_finite s m e => Some (value_SF s m e)
  | _ => None
  end.

(** The corners of all tiles of size [n] up to the shift 360, computed. *)
Definition corner_table (n off : Z) : bool :=
  forallb
    (fun i => let k := Z.of_nat i in
       PrimFloat.Leibniz.eqb
         (corner_from (Py.float_of_Z false (k * n)) (Py.float_of_Z false n)
            (Py.float_of_Z false off))
         (Py.float_of_Z false (k * n - off)))
    (seq 0 (Z.to_nat (360 / n) + 1)).

(** The integers from [-180] up to [360] as floats: [int] gives them back,
    and their value is the integer. *)
Definition integer_table : bool :=
  forallb
    (fun i => let z := Z.of_nat i - 180 in
       match Py.int_of_float (Py.float_of_Z false z),
             value_of_float (Py.float_of_Z false z) with
       | Ok z', Some v => (z' =? z) && Qeq_bool v (inject_Z z)
       | _, _ => false
       end)
    (seq 0 540).

(** The exact value of a number. *)
Definition value (a : Py.number) : option Q :=
  match a with
  | Py.Int z => Some (inject_Z z)
  | Py.Float x => value_of_float x
  end.

(** The value of [a + off] as the code computes it: exactly for an [int],
    rounded to binary64 for a [float]. *)
Definition shifted (a : Py.number) (off : Z) : option Q :=
  match Py.add a off with
  | Ok b => value b
  | Raise _ => None
  end.

(** The number [a] is the integer [z], as an [int] or as a [float]. *)
Definition is_integer (a : Py.number) (z : Z) : Prop :=
  Py.int_of_number a = Ok z /\
  match value a with
  | Some v => (v == inject_Z z)%Q
  | None => False
  end.

(** The integer nearest to a rational, the even one of two that are equally
    near: what [round] answers. *)
Definition nearest_even (q : Q) : Z :=
  let f := Qfloor q in
  match (q - inject_Z f ?= 1 # 2)%Q with
  | Lt => f
  | Eq => if Z.even f then f else f + 1
  | Gt => f + 1
  end.

(** * Properties *)

(** ** Binary64 values that need no rounding *)

Section Binary64.

Lemma digits2_pos_size (p : positive) : digits2_pos p = Pos.size p.
Proof. induction p as [p IH|p IH|]; cbn; congruence. Qed.

Lemma digits2_bounds (p : positive) :
  2 ^ (Zpos (digits2_pos p) - 1) <= Zpos p < 2 ^ Zpos (digits2_pos p).
Proof.
  rewrite digits2_pos_size.
  pose proof (Pos.size_gt p) as Hgt. pose proof (Pos.size_le p) as Hle.
  apply Pos2Z.pos_lt_pos in Hgt. apply Pos2Z.pos_le_pos in Hle.
  rewrite Pos2Z.inj_pow in Hgt, Hle. change (Zpos p~0) with (2 * Zpos p) in Hle.
  split; [|exact Hgt].
  replace (Zpos (Pos.size p)) with (Zpos (Pos.size p) - 1 + 1) in Hle by lia.
  rewrite Z.pow_add_r, Z.pow_1_r in Hle by lia.
  lia.
Qed.

Lemma iter_xO (p d : positive) : Zpos (Pos.iter xO p d) = Zpos p * 2 ^ Zpos d.
Proof.
  induction d as [|d IH] using Pos.peano_ind.
  - cbn. lia.
  - rewrite Pos.iter_succ, Pos2Z.inj_xO, IH, Pos2Z.inj_succ, Z.pow_succ_r by lia. ring.
Qed.

Lemma digits2_iter_xO (p d : positive) :
  Zpos (digits2_pos (Pos.iter xO p d)) = Zpos (digits2_pos p) + Zpos d.
Proof.
  induction d as [|d IH] using Pos.peano_ind.
  - cbn. lia.
  - rewrite Pos.iter_succ. cbn [digits2_pos]. rewrite Pos2Z.inj_succ, IH. lia.
Qed.

Lemma iter_pos_iter {A : Type} (f : A -> A) (n : positive) (x : A) :
  iter_pos f n x = Pos.iter f x n.
Proof.
  revert x. induction n as [n IH|n IH|]; intros x; cbn [iter_pos Pos.iter].
  - rewrite !IH, <- !Pos.iter_swap. reflexivity.
  - rewrite !IH. reflexivity.
  - reflexivity.
Qed.

(** Shifting out zeros loses nothing. *)
Lemma shr_zeros (d p : positive) :
  iter_pos shr_1 d {| shr_m := Zpos (Pos.iter xO p d); shr_r := false; shr_s := false |}
  = {| shr_m := Zpos p; shr_r := false; shr_s := false |}.
Proof.
  rewrite iter_pos_iter.
  induction d as [|d IH] using Pos.peano_ind.
  - reflexivity.
  - rewrite !Pos.iter_succ, <- Pos.iter_swap. cbn [shr_1 orb]. exact IH.
Qed.

Lemma bounded_spec (m : positive) (e : Z) :
  bounded prec emax m e = true <->
  fexp prec emax (Zpos (digits2_pos m) + e) = e /\ e <= emax - prec.
Proof.
  unfold bounded, canonical_mantissa. rewrite andb_true_iff, Z.eqb_eq, Z.leb_le. tauto.
Qed.

(** A canonical mantissa is left alone. *)
Lemma binary_round_aux_canonical (sx : bool) (m : positive) (e : Z) :
  bounded prec emax m e = true ->
  binary_round_aux prec emax sx (Zpos m) e loc_Exact = S754_finite sx m e.
Proof.
  intros Hb. apply bounded_spec in Hb as [Hc He].
  unfold binary_round_aux, shr_fexp. cbn [Zdigits2 shr_record_of_loc].
  rewrite Hc, Z.sub_diag. cbn [shr shr_m loc_of_shr_record round_nearest_even Zdigits2
                               shr_record_of_loc].
  rewrite Hc, Z.sub_diag. cbn [shr shr_m].
  apply Z.leb_le in He. rewrite He. reflexivity.
Qed.

(** Rounding a value that a canonical mantissa and exponent represent gives
    that mantissa and exponent, whatever mantissa and exponent it came in. *)
Lemma binary_round_exact (sx : bool) (M : positive) (E : Z) (m : positive) (e : Z) :
  bounded prec emax m e = true ->
  Zpos M * 2 ^ (E - Z.min E e) = Zpos m * 2 ^ (e - Z.min E e) ->
  binary_round prec emax sx M E = S754_finite sx m e.
Proof.
  intros Hb Hv. pose proof Hb as Hb'. apply bounded_spec in Hb' as [Hc He].
  unfold binary_round.
  destruct (Z.compare_spec E e) as [Heq|Hlt|Hgt].
  - subst E. rewrite Z.min_id, Z.sub_diag, Z.pow_0_r, !Z.mul_1_r in Hv.
    injection Hv as ->. rewrite Hc. unfold shl_align. rewrite Z.sub_diag.
    apply binary_round_aux_canonical, Hb.
  - rewrite Z.min_l, Z.sub_diag, Z.pow_0_r, Z.mul_1_r in Hv by lia.
    destruct (e - E) as [|d|d] eqn:Hd; try lia.
    assert (HM : M = Pos.iter xO m d).
    { apply Pos2Z.inj. rewrite iter_xO. exact Hv. }
    assert (Hdig : Zpos (digits2_pos M) + E = Zpos (digits2_pos m) + e).
    { rewrite HM, digits2_iter_xO. lia. }
    rewrite Hdig, Hc. unfold shl_align. rewrite Hd.
    unfold binary_round_aux, shr_fexp. cbn [Zdigits2 shr_record_of_loc].
    rewrite Hdig, Hc, Hd. cbn [shr]. rewrite HM, shr_zeros.
    cbn [shr_m loc_of_shr_record round_nearest_even Zdigits2 shr_record_of_loc].
    replace (E + Zpos d) with e by lia.
    rewrite Hc, Z.sub_diag. cbn [shr shr_m].
    apply Z.leb_le in He. rewrite He. reflexivity.
  - rewrite Z.min_r, Z.sub_diag, Z.pow_0_r, Z.mul_1_r in Hv by lia.
    destruct (e - E) as [|d|d] eqn:Hd; try lia.
    assert (Hd' : E - e = Zpos d) by lia. rewrite Hd' in Hv.
    assert (Hm : m = Pos.iter xO M d).
    { apply Pos2Z.inj. rewrite iter_xO. symmetry. exact Hv. }
    assert (Hdig : Zpos (digits2_pos M) + E = Zpos (digits2_pos m) + e).
    { rewrite Hm, digits2_iter_xO. lia. }
    rewrite Hdig, Hc. unfold shl_align. rewrite Hd. rewrite <- Hm.
    apply binary_round_aux_canonical, Hb.
Qed.

Lemma digits2_le (p : positive) (d : Z) : Zpos p < 2 ^ d -> Zpos (digits2_pos p) <= d.
Proof.
  intros Hp. destruct (digits2_bounds p) as [Hlo _].
  destruct (Z.le_gt_cases (Zpos (digits2_pos p)) d) as [|Hgt]; [assumption|].
  exfalso. assert (0 <= d) by (destruct d; cbn in Hp; lia).
  assert (2 ^ d <= 2 ^ (Zpos (digits2_pos p) - 1)) by (apply Z.pow_le_mono_r; lia).
  lia.
Qed.

(** A mantissa of at most 53 digits at an exponent in range is a float. *)
Lemma binary_round_small (sx : bool) (R : positive) (E : Z) :
  Zpos (digits2_pos R) <= prec -> emin <= E <= emax - prec ->
  exists m e,
    binary_round prec emax sx R E = S754_finite sx m e /\
    bounded prec emax m e = true /\ e <= E /\ Zpos m = Zpos R * 2 ^ (E - e).
Proof.
  intros Hd [Hlo Hhi].
  set (e := fexp prec emax (Zpos (digits2_pos R) + E)).
  assert (He : e <= E) by (unfold e, fexp; lia).
  assert (Hm : exists m, Zpos m = Zpos R * 2 ^ (E - e) /\
                         Zpos (digits2_pos m) + e = Zpos (digits2_pos R) + E).
  { destruct (E - e) as [|d|d] eqn:Hde; try lia.
    - exists R. split; [rewrite Z.pow_0_r; lia | lia].
    - exists (Pos.iter xO R d). split; [apply iter_xO | rewrite digits2_iter_xO; lia]. }
  destruct Hm as (m & Hm & Hdig).
  assert (Hb : bounded prec emax m e = true).
  { apply bounded_spec. rewrite Hdig. split; [reflexivity | lia]. }
  exists m, e. split; [|repeat split; assumption].
  apply binary_round_exact; [exact Hb|].
  rewrite Z.min_r, Z.sub_diag, Z.pow_0_r by lia. lia.
Qed.

(** An integer below [2^53] comes out the same from any mantissa and
    exponent that represent it. *)
Lemma binary_round_integer (sx : bool) (M : positive) (E : Z) (K : positive) :
  E <= 0 -> Zpos K < 2 ^ prec -> Zpos M = Zpos K * 2 ^ (- E) ->
  binary_round prec emax sx M E = binary_round prec emax sx K 0.
Proof.
  intros HE HK HM.
  destruct (binary_round_small sx K 0) as (m & e & Hr & Hb & He & Hm).
  { apply digits2_le, HK. }
  { vm_compute. split; discriminate. }
  rewrite Hr. apply binary_round_exact; [exact Hb|].
  rewrite Z.sub_0_l in Hm. rewrite HM, Hm.
  destruct (Z.le_gt_cases E e).
  - rewrite Z.min_l, Z.sub_diag, Z.pow_0_r, Z.mul_1_r by lia.
    rewrite <- Z.mul_assoc, <- Z.pow_add_r by lia. f_equal. f_equal. lia.
  - rewrite Z.min_r, Z.sub_diag, Z.pow_0_r, Z.mul_1_r by lia.
    rewrite <- Z.mul_assoc, <- Z.pow_add_r by lia. f_equal. f_equal. lia.
Qed.

Lemma shl_align_fst (m : positive) (e ez : Z) :
  ez <= e -> Zpos (fst (shl_align m e ez)) = Zpos m * 2 ^ (e - ez).
Proof.
  intros He. unfold shl_align.
  destruct (ez - e) as [|d|d] eqn:Hd; try lia; cbn [fst].
  - replace (e - ez) with 0 by lia. rewrite Z.pow_0_r. lia.
  - rewrite iter_xO. f_equal. f_equal. lia.
Qed.

End Binary64.

(** ** Floor division of a small positive float by a tile size *)

Section FloorDivision.

Variables (a n' : float) (m mn : positive) (e en n : Z).

Hypothesis a_finite : Prim2SF a = S754_finite false m e.
Hypothesis n_finite : Prim2SF n' = S754_finite false mn en.
Hypothesis n_digits : Zpos mn < 2 ^ prec.
Hypothesis n_exponent : emin <= en < 0.
Hypothesis n_value : Zpos mn = n * 2 ^ (- en).
Hypothesis n_positive : 0 < n.
Hypothesis a_exponent : e < 0.
Hypothesis a_small : Zpos m < 2 ^ prec * 2 ^ (- e).

Let k := Zpos m / (n * 2 ^ (- e)).

Lemma a_bounded : bounded prec emax m e = true.
Proof. pose proof (Prim2SF_valid a) as H. rewrite a_finite in H. exact H. Qed.

Lemma a_digits : Zpos (digits2_pos m) <= prec /\ emin <= e.
Proof.
  pose proof a_bounded as H. apply bounded_spec in H as [Hc _].
  unfold fexp in Hc. fold emin in Hc. lia.
Qed.

Lemma k_bounds : 0 <= k /\ k * (n * 2 ^ (- e)) <= Zpos m < (k + 1) * (n * 2 ^ (- e)).
Proof.
  assert (Hp : 0 < 2 ^ (- e)) by (apply Z.pow_pos_nonneg; lia).
  assert (Hd : 0 < n * 2 ^ (- e)) by nia.
  unfold k. split; [apply Z.div_pos; lia|].
  pose proof (Z.div_mod (Zpos m) (n * 2 ^ (- e)) ltac:(lia)) as Hdm.
  pose proof (Z.mod_pos_bound (Zpos m) _ Hd). nia.
Qed.

Lemma k_small : k * n < 2 ^ prec.
Proof.
  assert (Hp : 0 < 2 ^ (- e)) by (apply Z.pow_pos_nonneg; lia).
  destruct k_bounds as (_ & Hlo & _). nia.
Qed.

(** The two mantissas at the smaller of the two exponents. *)
Let e0 := Z.min e en.
Let X := Zpos m * 2 ^ (e - e0).
Let Y := Zpos mn * 2 ^ (en - e0).

Lemma X_Y : 0 < Y /\ X = k * Y + Z.rem X Y /\ 0 <= Z.rem X Y < Y /\ Z.rem X Y <= X /\
            Y = n * 2 ^ (- e0).
Proof.
  assert (H1 : 0 < 2 ^ (e - e0)) by (apply Z.pow_pos_nonneg; unfold e0; lia).
  assert (H2 : 0 < 2 ^ (en - e0)) by (apply Z.pow_pos_nonneg; unfold e0; lia).
  assert (HY : 0 < Y) by (unfold Y; nia).
  assert (HX : 0 < X) by (unfold X; nia).
  assert (HYn : Y = n * 2 ^ (- e0)).
  { unfold Y. rewrite n_value, <- Z.mul_assoc, <- Z.pow_add_r by (unfold e0; lia).
    f_equal. f_equal. lia. }
  assert (Hk : k = X / Y).
  { unfold k, X. rewrite HYn.
    replace (2 ^ (- e0)) with (2 ^ (- e) * 2 ^ (e - e0))
      by (rewrite <- Z.pow_add_r by (unfold e0; lia); f_equal; lia).
    rewrite Z.mul_assoc, Z.div_mul_cancel_r by nia. reflexivity. }
  rewrite Z.rem_mod_nonneg by lia.
  pose proof (Z.div_mod X Y ltac:(lia)) as Hdm.
  pose proof (Z.mod_pos_bound X Y HY) as Hb.
  split; [exact HY|]. split; [rewrite Hk; lia|]. split; [exact Hb|].
  split; [|exact HYn].
  assert (0 <= Y * (X / Y)) by (apply Z.mul_nonneg_nonneg; [lia | apply Z.div_pos; lia]).
  lia.
Qed.

Lemma fmod_value :
  Py.fmod a n' = Py.float_of_SF (binary_normalize prec emax (Z.rem X Y) e0 false).
Proof.
  unfold Py.fmod. rewrite a_finite, n_finite. cbv zeta.
  rewrite !Z.shiftl_mul_pow2 by (unfold e0; lia). reflexivity.
Qed.

Lemma zero_float : Py.float_of_SF (S754_zero false) = 0%float.
Proof. reflexivity. Qed.

(** What is left of [a] without the remainder is a multiple of [n], and the
    subtraction is exact. *)
Lemma sub_fmod :
  (a - Py.fmod a n')%float = Py.float_of_Z false (k * n) /\
  (Py.fmod a n' <? 0)%float = false.
Proof.
  rewrite fmod_value.
  destruct X_Y as (HY & HX & HR & HRX & HYn).
  destruct k_bounds as (Hk0 & _). pose proof k_small as Hks.
  destruct a_digits as [Hda Hea].
  assert (He0 : emin <= e0 <= emax - prec).
  { unfold e0. split; [lia|]. apply Z.le_trans with en; [lia|].
    apply Z.lt_le_incl, Z.lt_trans with 0; [lia | reflexivity]. }
  assert (HXm : 0 < X) by (unfold X; pose proof (Z.pow_pos_nonneg 2 (e - e0)); unfold e0 in *; nia).
  destruct (Z.rem X Y) as [|Rp|Rp] eqn:ER; [| |lia].
  - cbn [binary_normalize]. rewrite zero_float. split.
    + assert (Ha0 : (a - 0)%float = a).
      { apply Prim2SF_inj. rewrite sub_spec, a_finite. reflexivity. }
      rewrite Ha0, <- (SF2Prim_Prim2SF a), a_finite.
      unfold Py.float_of_Z, Py.float_of_SF. f_equal.
      assert (HK : 0 < k * n) by nia.
      destruct (k * n) as [|Kp|Kp] eqn:EK; try lia.
      cbn [binary_normalize].
      rewrite <- (binary_round_integer false m e Kp); [| lia | lia |].
      * symmetry. apply binary_round_exact; [apply a_bounded|]. reflexivity.
      * rewrite <- EK.
        assert (Hc : 0 < 2 ^ (e - e0)) by (apply Z.pow_pos_nonneg; unfold e0; lia).
        apply (Z.mul_reg_r _ _ (2 ^ (e - e0))); [lia|].
        fold X. rewrite HX, HYn, Z.add_0_r.
        replace (2 ^ (- e0)) with (2 ^ (- e) * 2 ^ (e - e0))
          by (rewrite <- Z.pow_add_r by (unfold e0; lia); f_equal; lia).
        ring.
    + rewrite ltb_spec. reflexivity.
  - destruct (binary_round_small false Rp e0) as (mr & er & Hr & Hb & Her & Hmr).
    { apply digits2_le. unfold X, Y, e0 in *.
      destruct (Z.le_gt_cases e en).
      - rewrite Z.min_l, Z.sub_diag, Z.pow_0_r, Z.mul_1_r in HRX by lia.
        apply Z.le_lt_trans with (Zpos m); [exact HRX|].
        destruct (digits2_bounds m) as [_ Hm]. apply Z.lt_le_trans with (1 := Hm).
        apply Z.pow_le_mono_r; lia.
      - rewrite Z.min_r, Z.sub_diag, Z.pow_0_r, Z.mul_1_r in HR by lia. lia. }
    { exact He0. }
    cbn [binary_normalize]. rewrite Hr.
    assert (Hmod : Prim2SF (Py.float_of_SF (S754_finite false mr er))
                   = S754_finite false mr er) by (apply Prim2SF_SF2Prim; exact Hb).
    split.
    + rewrite <- (SF2Prim_Prim2SF (a - _)), sub_spec, a_finite, Hmod.
      unfold Py.float_of_Z, Py.float_of_SF. f_equal.
      unfold SF64sub, SFsub. cbv zeta. cbn [cond_Zopp].
      assert (Hee : er <= e) by (unfold e0 in Her; lia).
      rewrite Z.min_r by lia. rewrite !shl_align_fst by lia.
      rewrite Z.sub_diag, Z.pow_0_r, Z.mul_1_r.
      assert (HD : Zpos m * 2 ^ (e - er) - Zpos mr = k * n * 2 ^ (- er)).
      { rewrite Hmr.
        replace (2 ^ (e - er)) with (2 ^ (e - e0) * 2 ^ (e0 - er))
          by (rewrite <- Z.pow_add_r by (unfold e0 in *; lia); f_equal; lia).
        rewrite Z.mul_assoc. fold X. rewrite HX, HYn.
        replace (2 ^ (- er)) with (2 ^ (- e0) * 2 ^ (e0 - er))
          by (rewrite <- Z.pow_add_r by (unfold e0 in *; lia); f_equal; lia).
        ring. }
      rewrite HD.
      assert (Hp : 0 < 2 ^ (- er)) by (apply Z.pow_pos_nonneg; unfold e0 in *; lia).
      assert (HK : 0 <= k * n) by (apply Z.mul_nonneg_nonneg; lia).
      destruct (k * n) as [|Kp|Kp] eqn:EK; [reflexivity | | lia].
      assert (HDp : 0 < Zpos Kp * 2 ^ (- er)) by (apply Z.mul_pos_pos; lia).
      destruct (Zpos Kp * 2 ^ (- er)) as [|Dp|Dp] eqn:ED; try lia.
      cbn [binary_normalize].
      apply binary_round_integer; [unfold e0 in *; lia | lia | symmetry; exact ED].
    + rewrite ltb_spec, Hmod. reflexivity.
Qed.

Lemma quotient_sign : Py.zero_signed_as (a / n') = 0%float.
Proof.
  unfold Py.zero_signed_as. rewrite div_spec, a_finite, n_finite.
  unfold SF64div, SFdiv. destruct (SFdiv_core_binary _ _ _ _ _ _) as [[mz ez] lz].
  cbn [xorb]. unfold binary_round_aux.
  destruct (shr_fexp _ _ _ _ _) as [mrs1 e1].
  destruct (shr_fexp _ _ _ _ _) as [mrs2 e2].
  destruct (shr_m mrs2); [reflexivity | | reflexivity].
  destruct (e2 <=? emax - prec); reflexivity.
Qed.

Lemma corner_of_float (off : float) :
  (Py.float_floordiv a n' * n' - off)%float
  = corner_from (Py.float_of_Z false (k * n)) n' off.
Proof.
  unfold Py.float_floordiv, corner_from. cbv zeta.
  destruct sub_fmod as [Hs Hl]. rewrite Hs, Hl.
  assert (Hn : (n' <? 0)%float = false) by (rewrite ltb_spec, n_finite; reflexivity).
  rewrite Hn. cbn [Bool.eqb negb]. rewrite andb_false_r.
  rewrite quotient_sign. reflexivity.
Qed.

End FloorDivision.

Section Corner.

Lemma corner_table_spec (n off k : Z) :
  corner_table n off = true -> 0 < n -> 0 <= k -> k * n < 360 ->
  corner_from (Py.float_of_Z false (k * n)) (Py.float_of_Z false n) (Py.float_of_Z false off)
  = Py.float_of_Z false (k * n - off).
Proof.
  unfold corner_table. rewrite forallb_forall. intros H Hn Hk Hlt.
  specialize (H (Z.to_nat k)). cbv zeta in H. rewrite Z2Nat.id in H by lia.
  apply FloatAxioms.Leibniz.eqb_spec, H. apply in_seq.
  assert (k <= 360 / n) by (apply Z.div_le_lower_bound; lia). lia.
Qed.

Lemma value_SF_sign (s : bool) (m : positive) (e : Z) :
  (0 <= value_SF s m e)%Q -> s = false.
Proof.
  destruct s; [|reflexivity]. unfold value_SF. intros H. exfalso.
  destruct (0 <=? e) eqn:He.
  - unfold Qle, inject_Z in H. cbn [Qnum Qden cond_Zopp] in H.
    apply Z.leb_le in He. pose proof (Z.pow_pos_nonneg 2 e). nia.
  - unfold Qle in H. cbn [Qnum Qden cond_Zopp] in H. lia.
Qed.

(** From a float below 360 that is not negative, [x // n * n - off] is
    the multiple of [n] at or below [x], less [off], without any rounding. *)
Lemma float_corner (x : float) (q : Q) (n off : Z) :
  In n [1; 3; 6; 18] -> In off [180; 90] ->
  value_of_float x = Some q -> (0 <= q)%Q -> (q < 360 # 1)%Q ->
  exists k,
    0 <= k /\ (inject_Z (k * n) <= q)%Q /\ (q < inject_Z (k * n + n))%Q /\
    (Py.float_floordiv x (Py.float_of_Z false n) * Py.float_of_Z false n
     - Py.float_of_Z false off)%float
    = Py.float_of_Z false (k * n - off).
Proof.
  intros Hn Hoff Hv Hq0 Hq.
  assert (Htab : corner_table n off = true).
  { cbn [In] in Hn, Hoff.
    destruct Hn as [<-|[<-|[<-|[<-|[]]]]]; destruct Hoff as [<-|[<-|[]]];
      vm_compute; reflexivity. }
  assert (Hnpos : 0 < n) by (cbn [In] in Hn; lia).
  unfold value_of_float in Hv.
  destruct (Prim2SF x) as [s| | |s m e] eqn:Ex; try discriminate Hv.
  - injection Hv as <-. exists 0.
    split; [lia|]. split; [apply Qle_refl|].
    split; [change (inject_Z 0 < inject_Z (0 * n + n))%Q; rewrite <- Zlt_Qlt; lia|].
    rewrite <- (SF2Prim_Prim2SF x), Ex.
    cbn [In] in Hn, Hoff.
    destruct s; destruct Hn as [<-|[<-|[<-|[<-|[]]]]]; destruct Hoff as [<-|[<-|[]]];
      vm_compute; reflexivity.
  - injection Hv as <-.
    pose proof (value_SF_sign s m e Hq0) as ->.
    pose proof (Prim2SF_valid x) as Hb. rewrite Ex in Hb. cbn [valid_binary] in Hb.
    apply bounded_spec in Hb as [Hc _].
    assert (He : e < 0).
    { destruct (Z.lt_ge_cases e 0) as [|Hge]; [assumption|]. exfalso.
      unfold fexp in Hc. fold emin in Hc.
      assert (Hd : Zpos (digits2_pos m) = prec).
      { assert (emin < 0) by reflexivity. lia. }
      destruct (digits2_bounds m) as [Hlo _]. rewrite Hd in Hlo.
      unfold value_SF in Hq. apply Z.leb_le in Hge. rewrite Hge in Hq.
      unfold Qlt, inject_Z in Hq. cbn [Qnum Qden cond_Zopp] in Hq.
      apply Z.leb_le in Hge. pose proof (Z.pow_pos_nonneg 2 e ltac:(lia) Hge).
      change (2 ^ (prec - 1)) with 4503599627370496 in Hlo. nia. }
    assert (Hp : 0 < 2 ^ (- e)) by (apply Z.pow_pos_nonneg; lia).
    unfold value_SF in *.
    replace (0 <=? e) with false in * by (symmetry; apply Z.leb_gt; exact He).
    cbn [cond_Zopp] in *.
    assert (Hm : Zpos m < 360 * 2 ^ (- e)).
    { unfold Qlt in Hq. cbn [Qnum Qden] in Hq. rewrite Z2Pos.id in Hq by lia. lia. }
    assert (Hfin : exists mn en,
               Prim2SF (Py.float_of_Z false n) = S754_finite false mn en /\
               Zpos mn < 2 ^ prec /\ emin <= en < 0 /\ Zpos mn = n * 2 ^ (- en)).
    { cbn [In] in Hn. destruct Hn as [<-|[<-|[<-|[<-|[]]]]].
      - exists 4503599627370496%positive, (-52). repeat split; vm_compute; congruence.
      - exists 6755399441055744%positive, (-51). repeat split; vm_compute; congruence.
      - exists 6755399441055744%positive, (-50). repeat split; vm_compute; congruence.
      - exists 5066549580791808%positive, (-48). repeat split; vm_compute; congruence. }
    destruct Hfin as (mn & en & Hfn & Hdn & Hen & Hvn).
    assert (Hsmall : Zpos m < 2 ^ prec * 2 ^ (- e)).
    { change (2 ^ prec) with 9007199254740992. nia. }
    destruct (k_bounds m mn e en n Hdn Hen Hvn Hnpos He Hsmall) as (Hk0 & Hlo & Hhi).
    set (k := Zpos m / (n * 2 ^ (- e))) in *.
    exists k. split; [exact Hk0|].
    split; [unfold Qle, inject_Z; cbn [Qnum Qden]; rewrite Z2Pos.id by lia; lia|].
    split; [unfold Qlt, inject_Z; cbn [Qnum Qden]; rewrite Z2Pos.id by lia; lia|].
    rewrite (corner_of_float x _ m mn e en n Ex Hfn Hdn Hen Hvn Hnpos He Hsmall).
    fold k. apply corner_table_spec; [exact Htab | exact Hnpos | exact Hk0 | nia].
Qed.

End Corner.

(** ** The lower-left corner of the tile around a point *)

Section LowerLeft.

(** A multiple of the tile size at or below an integer. *)
Lemma floor_to_size (z n : Z) : 0 < n -> z / n * n <= z < z / n * n + n.
Proof.
  intros Hn. pose proof (Z.div_mod z n ltac:(lia)) as Hd.
  pose proof (Z.mod_pos_bound z n Hn) as Hm. nia.
Qed.

Lemma integer_table_spec (z : Z) :
  -180 <= z < 360 -> is_integer (Py.Float (Py.float_of_Z false z)) z.
Proof.
  intros Hz.
  assert (Htab : integer_table = true) by (vm_compute; reflexivity).
  unfold integer_table in Htab. rewrite forallb_forall in Htab.
  specialize (Htab (Z.to_nat (z + 180))). cbv zeta in Htab.
  replace (Z.of_nat (Z.to_nat (z + 180)) - 180) with z in Htab by lia.
  unfold is_integer. cbn [Py.int_of_number value].
  destruct (Py.int_of_float (Py.float_of_Z false z)) as [z'|];
    destruct (value_of_float (Py.float_of_Z false z)) as [v|];
    try (discriminate Htab; apply in_seq; lia).
  assert (Hin : In (Z.to_nat (z + 180)) (seq 0 540)) by (apply in_seq; lia).
  apply Htab in Hin. apply andb_true_iff in Hin as [H1 H2].
  apply Z.eqb_eq in H1. apply Qeq_bool_iff in H2. subst z'. split; [reflexivity | exact H2].
Qed.

Lemma float_of_size (n : Z) :
  In n [1; 3; 6; 18; 180; 90] -> Py.float_of_number (Py.Int n) = Ok (Py.float_of_Z false n).
Proof.
  cbn [In]. intros [<-|[<-|[<-|[<-|[<-|[<-|[]]]]]]]; vm_compute; reflexivity.
Qed.

(** One coordinate: [(c + off) // n * n - off] for a number [c] whose shift
    by [off], as the code computes it, is [x]. *)
Lemma corner_coordinate (c : Py.number) (x : Q) (n off : Z) :
  In n [1; 3; 6; 18] -> In off [180; 90] ->
  shifted c off = Some x -> (0 <= x)%Q -> (x < 360 # 1)%Q ->
  exists ll k,
    (do a <- Py.add c off ;; do t <- Py.floordiv a n ;; do m <- Py.mul t n ;; Py.sub m off)
    = Ok ll /\
    0 <= k /\ is_integer ll (k * n - off) /\
    (inject_Z (k * n) <= x)%Q /\ (x < inject_Z (k * n + n))%Q.
Proof.
  intros Hn Hoff Hs Hx0 Hx.
  assert (Hnz : (n =? 0) = false) by (cbn [In] in Hn; apply Z.eqb_neq; lia).
  assert (Hnpos : 0 < n) by (cbn [In] in Hn; lia).
  assert (Hfn : Py.float_of_number (Py.Int n) = Ok (Py.float_of_Z false n)).
  { apply float_of_size. cbn [In] in *. tauto. }
  assert (Hfo : Py.float_of_number (Py.Int off) = Ok (Py.float_of_Z false off)).
  { apply float_of_size. cbn [In] in *. tauto. }
  unfold shifted in Hs.
  destruct c as [z|f]; unfold Py.add, Py.sub, Py.mul, Py.floordiv, Py.arith in *.
  - cbn [bind value] in *. rewrite Hnz. cbn [bind].
    injection Hs as <-.
    exists (Py.Int ((z + off) / n * n - off)), ((z + off) / n).
    change 0%Q with (inject_Z 0) in Hx0. rewrite <- Zle_Qle in Hx0.
    change (360 # 1)%Q with (inject_Z 360) in Hx.
    rewrite <- Zlt_Qlt in Hx.
    pose proof (floor_to_size (z + off) n Hnpos) as [Hlo Hhi].
    split; [reflexivity|]. split; [apply Z.div_pos; lia|].
    split; [split; [reflexivity | cbn [value]; apply Qeq_refl]|].
    rewrite <- Zle_Qle, <- Zlt_Qlt. split; assumption.
  - rewrite Hfo in *. cbn [bind value] in *. rewrite Hnz, Hfn. cbn [bind].
    destruct (float_corner _ x n off Hn Hoff Hs Hx0 Hx) as (k & Hk & Hlo & Hhi & Heq).
    exists (Py.Float (Py.float_of_Z false (k * n - off))), k.
    split; [rewrite Heq; reflexivity|]. split; [exact Hk|].
    split; [|split; assumption].
    apply integer_table_spec.
    change (360 # 1)%Q with (inject_Z 360) in Hx.
    assert (Hkn : k * n < 360).
    { rewrite Zlt_Qlt. eapply Qle_lt_trans; eassumption. }
    cbn [In] in Hoff. nia.
Qed.

(** Both coordinates. *)
Lemma corner_of_point (self : LatLonTilingSystem) (lon lat : Py.number) (x y : Q) :
  In (TilingSystem.xsize self) [1; 3; 6; 18] -> In (TilingSystem.ysize self) [1; 3; 6; 18] ->
  shifted lon 180 = Some x -> (0 <= x)%Q -> (x < 360 # 1)%Q ->
  shifted lat 90 = Some y -> (0 <= y)%Q -> (y < 180 # 1)%Q ->
  exists ll_lon ll_lat kx ky,
    TilingSystem.round_lonlat2lowerleft self lon lat = Ok (ll_lon, ll_lat) /\
    0 <= kx /\ is_integer ll_lon (kx * TilingSystem.xsize self - 180) /\
    0 <= ky /\ is_integer ll_lat (ky * TilingSystem.ysize self - 90) /\
    (inject_Z (kx * TilingSystem.xsize self) <= x)%Q /\
    (x < inject_Z (kx * TilingSystem.xsize self + TilingSystem.xsize self))%Q /\
    (inject_Z (ky * TilingSystem.ysize self) <= y)%Q /\
    (y < inject_Z (ky * TilingSystem.ysize self + TilingSystem.ysize self))%Q.
Proof.
  intros Hxs Hys Hsx Hx0 Hx Hsy Hy0 Hy.
  assert (Hy' : (y < 360 # 1)%Q) by (eapply Qlt_trans; [exact Hy | reflexivity]).
  destruct (corner_coordinate lon x _ 180 Hxs ltac:(cbn; tauto) Hsx Hx0 Hx)
    as (ll_lon & kx & Hrx & Hkx & Hix & Hlx & Hux).
  destruct (corner_coordinate lat y _ 90 Hys ltac:(cbn; tauto) Hsy Hy0 Hy')
    as (ll_lat & ky & Hry & Hky & Hiy & Hly & Huy).
  exists ll_lon, ll_lat, kx, ky.
  split; [|repeat (split; [assumption|]); assumption].
  unfold TilingSystem.round_lonlat2lowerleft.
  destruct (Py.add lon 180) as [a|]; [|discriminate Hrx]. cbn [bind] in *.
  destruct (Py.floordiv a _) as [t|]; [|discriminate Hrx]. cbn [bind] in *.
  destruct (Py.mul t _) as [m|]; [|discriminate Hrx]. cbn [bind] in *.
  rewrite Hrx. cbn [bind].
  destruct (Py.add lat 90) as [b|]; [|discriminate Hry]. cbn [bind] in *.
  destruct (Py.floordiv b _) as [u|]; [|discriminate Hry]. cbn [bind] in *.
  destruct (Py.mul u _) as [w|]; [|discriminate Hry]. cbn [bind] in *.
  rewrite Hry. reflexivity.
Qed.

End LowerLeft.




(** ** The tile-size class of a sampling *)

Section TileCode.

Lemma divides_mod (k s : Z) : 0 < s -> (s | k) -> (k mod s =? 0) = true.
Proof.
  intros Hs Hd. apply Z.eqb_eq. apply Z.mod_divide; [lia | exact Hd].
Qed.

Lemma mod_divides (k s : Z) : 0 < s -> (k mod s =? 0) = true -> (s | k).
Proof.
  intros Hs Hm. apply Z.mod_divide; [lia|]. apply Z.eqb_eq, Hm.
Qed.

Lemma tilecode_T1 (s : Z) : 1 <= s < 3 -> (s | 10000) -> Grid.tilecode s = Ok "T1".
Proof.
  intros Hr Hd. unfold Grid.tilecode.
  replace (1 <=? s) with true by (symmetry; apply Z.leb_le; lia).
  replace (s <? 3) with true by (symmetry; apply Z.ltb_lt; lia).
  rewrite (divides_mod (1 * 10000) s) by (lia || exact Hd). reflexivity.
Qed.

Lemma tilecode_T3 (s : Z) : 3 <= s < 6 -> (s | 30000) -> Grid.tilecode s = Ok "T3".
Proof.
  intros Hr Hd. unfold Grid.tilecode.
  replace (s <? 3) with false by (symmetry; apply Z.ltb_ge; lia).
  replace (3 <=? s) with true by (symmetry; apply Z.leb_le; lia).
  replace (s <? 6) with true by (symmetry; apply Z.ltb_lt; lia).
  rewrite (divides_mod (3 * 10000) s) by (lia || exact Hd).
  rewrite andb_false_r. reflexivity.
Qed.

Lemma tilecode_T6 (s : Z) : 6 <= s < 20 -> (s | 60000) -> Grid.tilecode s = Ok "T6".
Proof.
  intros Hr Hd. unfold Grid.tilecode.
  replace (s <? 3) with false by (symmetry; apply Z.ltb_ge; lia).
  replace (s <? 6) with false by (symmetry; apply Z.ltb_ge; lia).
  replace (6 <=? s) with true by (symmetry; apply Z.leb_le; lia).
  replace (s <? 20) with true by (symmetry; apply Z.ltb_lt; lia).
  rewrite (divides_mod (6 * 10000) s) by (lia || exact Hd).
  rewrite !andb_false_r. reflexivity.
Qed.

Lemma tilecode_T18 (s : Z) : 20 <= s < 101 -> (s | 180000) -> Grid.tilecode s = Ok "T18".
Proof.
  intros Hr Hd. unfold Grid.tilecode.
  replace (s <? 3) with false by (symmetry; apply Z.ltb_ge; lia).
  replace (s <? 6) with false by (symmetry; apply Z.ltb_ge; lia).
  replace (s <? 20) with false by (symmetry; apply Z.ltb_ge; lia).
  replace (20 <=? s) with true by (symmetry; apply Z.leb_le; lia).
  replace (s <? 101) with true by (symmetry; apply Z.ltb_lt; lia).
  rewrite (divides_mod (18 * 10000) s) by (lia || exact Hd).
  rewrite !andb_false_r. reflexivity.
Qed.

Lemma tilecode_otherwise (s : Z) :
  ~ rule 1 3 1 s -> ~ rule 3 6 3 s -> ~ rule 6 20 6 s -> ~ rule 20 101 18 s ->
  Grid.tilecode s = Raise (ValueError resolution_not_supported).
Proof.
  unfold rule, Grid.tilecode. intros H1 H2 H3 H4.
  repeat match goal with
  | |- context [?a <=? ?b] => destruct (Z.leb_spec a b)
  | |- context [?a <? ?b] => destruct (Z.ltb_spec a b)
  end; cbn [andb]; try reflexivity; try lia;
  repeat match goal with
  | |- context [?k mod s =? 0] =>
      let E := fresh "E" in
      destruct (k mod s =? 0) eqn:E;
      [ apply mod_divides in E; [| lia]; exfalso; tauto | ]
  end; reflexivity.
Qed.

End TileCode.

Section Rounding.

(** [nearest_even] of a fraction, in integers. *)
Lemma nearest_even_fraction (M : Z) (D : positive) :
  nearest_even (M # D)
  = match 2 * (M mod Zpos D) ?= Zpos D with
    | Lt => M / Zpos D
    | Eq => if Z.even (M / Zpos D) then M / Zpos D else M / Zpos D + 1
    | Gt => M / Zpos D + 1
    end.
Proof.
  unfold nearest_even. cbv zeta.
  change (Qfloor (M # D)) with (M / Zpos D).
  unfold Qcompare, Qminus, Qplus, Qopp, inject_Z. cbn [Qnum Qden].
  replace ((M * 1 + - (M / Zpos D) * Zpos D) * 2) with (2 * (M mod Zpos D))
    by (rewrite (Z.mod_eq M (Zpos D)) by lia; ring).
  replace (1 * Zpos (D * 1)) with (Zpos D) by lia.
  reflexivity.
Qed.

Lemma nearest_even_integer (z : Z) : nearest_even (inject_Z z) = z.
Proof.
  unfold inject_Z. rewrite nearest_even_fraction.
  rewrite Z.mod_1_r, Z.div_1_r. reflexivity.
Qed.

(** Rounding is odd: the halves go to the even neighbour on both sides. *)
Lemma nearest_even_opp (M : Z) (D : positive) :
  nearest_even (- M # D) = - nearest_even (M # D).
Proof.
  rewrite !nearest_even_fraction.
  pose proof (Z.div_mod M (Zpos D) ltac:(lia)) as Hdm.
  pose proof (Z.mod_pos_bound M (Zpos D) ltac:(lia)) as Hb.
  set (f := M / Zpos D) in *. set (r := M mod Zpos D) in *.
  destruct (Z.eq_dec r 0) as [Hr|Hr].
  - assert (Hq : - M / Zpos D = - f /\ - M mod Zpos D = 0).
    { split; [symmetry; apply (Z.div_unique_pos _ _ _ 0)
             | symmetry; apply (Z.mod_unique_pos _ _ (- f))]; lia. }
    destruct Hq as [-> ->]. rewrite Hr. cbn [Z.mul Z.compare]. reflexivity.
  - assert (Hq : - M / Zpos D = - f - 1 /\ - M mod Zpos D = Zpos D - r).
    { split; [symmetry; apply (Z.div_unique_pos _ _ _ (Zpos D - r))
             | symmetry; apply (Z.mod_unique_pos _ _ (- f - 1))]; lia. }
    destruct Hq as [-> ->].
    destruct (Z.compare_spec (2 * r) (Zpos D)) as [He|Hl|Hg];
      destruct (Z.compare_spec (2 * (Zpos D - r)) (Zpos D)); try lia.
    replace (- f - 1) with (- (f + 1)) by lia. rewrite Z.even_opp, Z.even_add.
    destruct (Z.even f); cbn; lia.
Qed.

(** [round(x)] is the nearest integer to the value of [x], ties to even. *)
Lemma round_nearest_even (x : float) (q : Q) :
  value_of_float x = Some q -> Py.round x = Ok (nearest_even q).
Proof.
  unfold value_of_float, Py.round, Py.to_integer.
  destruct (Prim2SF x) as [s| | |s m e]; try discriminate.
  - intros H. injection H as <-. reflexivity.
  - intros H. injection H as <-. f_equal.
    unfold Py.round_SF, value_SF.
    destruct (0 <=? e) eqn:He.
    + apply Z.leb_le in He. rewrite nearest_even_integer, Z.shiftl_mul_pow2 by lia.
      destruct s; cbn [cond_Zopp]; lia.
    + apply Z.leb_gt in He.
      assert (Hp : 0 < 2 ^ (- e)) by (apply Z.pow_pos_nonneg; lia).
      assert (Hpos : nearest_even (Zpos m # Z.to_pos (2 ^ (- e)))
                     = (let q := Z.shiftr (Zpos m) (- e) in
                        let r := Zpos m - Z.shiftl q (- e) in
                        match 2 * r ?= Z.shiftl 1 (- e) with
                        | Lt => q
                        | Eq => if Z.even q then q else q + 1
                        | Gt => q + 1
                        end)).
      { rewrite nearest_even_fraction. cbv zeta.
        rewrite Z2Pos.id by lia.
        rewrite Z.shiftr_div_pow2, !Z.shiftl_mul_pow2 by lia.
        rewrite (Z.mod_eq (Zpos m) (2 ^ (- e))) by lia.
        replace (Zpos m - 2 ^ (- e) * (Zpos m / 2 ^ (- e)))
          with (Zpos m - Zpos m / 2 ^ (- e) * 2 ^ (- e)) by ring.
        rewrite Z.mul_1_l. reflexivity. }
      destruct s; cbn [cond_Zopp].
      * change (Zneg m) with (- Zpos m). rewrite nearest_even_opp, Hpos. reflexivity.
      * rewrite Hpos. reflexivity.
Qed.

End Rounding.

(** C4.  With [s] the sampling scaled by [1e4] to an integer, that is the
    integer nearest to the binary64 product [sampling * 1e4], the even one of
    two equally near, [get_tiletype] answers T1 when [1 <= s < 3] and [s]
    divides 10000, T3 when [3 <= s < 6] and [s] divides 30000, T6 when
    [6 <= s < 20] and [s] divides 60000, T18 when [20 <= s < 101] and [s]
    divides 180000, and raises [ValueError] otherwise; for every supported
    sampling exactly one of the four rules applies, and it gives the code
    that [get_tiletype] answers. *)
Theorem get_tiletype_by_rule (own : string) (sampling : float) (q : Q) :
  value_of_float (sampling * 1e4)%float = Some q ->
  let s := nearest_even q in
  Grid.sampling_scaled sampling = Ok s /\
  (rule 1 3 1 s -> Grid.get_tiletype own (Some sampling) = Ok "T1") /\
  (rule 3 6 3 s -> Grid.get_tiletype own (Some sampling) = Ok "T3") /\
  (rule 6 20 6 s -> Grid.get_tiletype own (Some sampling) = Ok "T6") /\
  (rule 20 101 18 s -> Grid.get_tiletype own (Some sampling) = Ok "T18") /\
  (~ rule 1 3 1 s -> ~ rule 3 6 3 s -> ~ rule 6 20 6 s -> ~ rule 20 101 18 s ->
   exists m, Grid.get_tiletype own (Some sampling) = Raise (ValueError m)) /\
  Forall (fun x => exists s c,
            Grid.sampling_scaled x = Ok s /\
            Grid.get_tiletype own (Some x) = Ok c /\
            In c Grid._static_tilecodes /\
            (rule 1 3 1 s <-> c = "T1") /\ (rule 3 6 3 s <-> c = "T3") /\
            (rule 6 20 6 s <-> c = "T6") /\ (rule 20 101 18 s <-> c = "T18"))
         Grid._static_sampling.
Proof.
  intros Hq s.
  assert (Hs : Grid.sampling_scaled sampling = Ok s).
  { unfold Grid.sampling_scaled. apply round_nearest_even, Hq. }
  split; [exact Hs|].
  unfold Grid.get_tiletype. rewrite Hs. cbn [bind].
  split; [intros [Hr Hd]; apply tilecode_T1; assumption|].
  split; [intros [Hr Hd]; apply tilecode_T3; assumption|].
  split; [intros [Hr Hd]; apply tilecode_T6; assumption|].
  split; [intros [Hr Hd]; apply tilecode_T18; assumption|].
  split; [intros H1 H2 H3 H4; eexists; apply tilecode_otherwise; assumption|].
  unfold Grid._static_sampling.
  repeat (apply Forall_cons; [
    match goal with
    | |- exists s c, Grid.sampling_scaled ?x = Ok s /\ _ =>
        let vs := eval vm_compute in (Grid.sampling_scaled x) in
        match vs with
        | Ok ?k =>
            let vc := eval vm_compute in (Grid.tilecode k) in
            match vc with
            | Ok ?c =>
                exists k, c;
                split; [vm_compute; reflexivity|];
                split; [vm_compute; reflexivity|];
                split; [cbn; tauto|];
                repeat match goal with |- _ /\ _ => split end;
                  (split;
                   [ intros [Hr Hd]; first [reflexivity | exfalso; lia]
                   | intros E;
                     first [ discriminate E
                           | split;
                             [ lia
                             | match goal with
                               | |- (?a | ?b) => exists (b / a); reflexivity
                               end ] ] ])
            end
        end
    end|]).
  apply Forall_nil.
Qed.

Lemma get_tiletype_by_rule_witness :
  rule 6 20 6 6 /\ Grid.sampling_scaled 0.0006%float = Ok 6 /\
  Grid.get_tiletype "" (Some 0.0006%float) = Ok "T6".
Proof.
  assert (Hr : rule 6 20 6 6) by (split; [lia | exists 10000; reflexivity]).
  set (q := match value_of_float (0.0006 * 1e4)%float with Some v => v | None => 0%Q end).
  destruct (get_tiletype_by_rule "" 0.0006%float q) as (Hs & _ & _ & H6 & _).
  { vm_compute. reflexivity. }
  change (nearest_even q) with 6 in *.
  split; [exact Hr|]. split; [exact Hs | exact (H6 Hr)].
Defined.

(** ** The sampling codec *)

(** C6, as stated, fails twice over.  The code of [0.0001] is [100U], and
    [100 * 1e-6] is the float below [0.0001]: close, not equal.  The code of
    [0.0016] is [001M], cut from [1.6], and decodes to [0.001]: not even close. *)
Lemma recode_not_exact :
  (Grid.encode_sampling 0.0001%float = Ok "100U" /\
   exists x, recode 0.0001%float = Ok x /\
             (x =? 0.0001)%float = false /\ (x <? 0.0001)%float = true) /\
  (Grid.encode_sampling 0.0016%float = Ok "001M" /\
   recode 0.0016%float = Ok 0.001%float /\
   (0.001 =? 0.0016)%float = false /\ Py.isclose 0.001%float 0.0016%float = false).
Proof.
  split.
  - split; [vm_compute; reflexivity|].
    eexists. split; [vm_compute; reflexivity|]. split; vm_compute; reflexivity.
  - repeat split; vm_compute; reflexivity.
Qed.

(** C6, amended.  For every supported sampling [s] other than [0.0016],
    [decode_sampling(encode_sampling(s))] is a float that [numpy.isclose]
    accepts as [s]; it is equal to [s] exactly when [s] is one of 0.0003,
    0.0005, 0.0006, 0.001, 0.002, 0.003, 0.004, 0.005, 0.006, 0.008, 0.01. *)
Theorem recode_isclose (s : float) :
  In s Grid._static_sampling -> s <> 0.0016%float ->
  exists x, recode s = Ok x /\ Py.isclose x s = true /\
            (x =? s)%float = existsb (PrimFloat.eqb s) exact_samplings.
Proof.
  intros Hin Hs. unfold Grid._static_sampling in Hin. cbn [In] in Hin.
  repeat (destruct Hin as [<- | Hin];
          [ first [ contradiction Hs; reflexivity
                  | eexists; split; [vm_compute; reflexivity |];
                    split; vm_compute; reflexivity ] | ]).
  contradiction.
Qed.

Lemma recode_isclose_witness :
  exists x, recode 0.0002%float = Ok x /\ Py.isclose x 0.0002%float = true /\
            (x =? 0.0002)%float = existsb (PrimFloat.eqb 0.0002%float) exact_samplings.
Proof.
  apply (recode_isclose 0.0002%float).
  - cbn. tauto.
  - intros E.
    assert (F : (0.0002 =? 0.0016)%float = (0.0016 =? 0.0016)%float) by (rewrite E; reflexivity).
    vm_compute in F. discriminate F.
Defined.

(** ** Decoding rejects what it cannot place *)

Section DecodeErrors.

Lemma int_only_ValueError (s : string) : only_ValueError (Py.int s).
Proof.
  unfold Py.int. destruct (Py.sign _) as [neg body].
  destruct (Py.digits false body); exact I.
Qed.

Lemma float_only_ValueError (s : string) : only_ValueError (Py.float s).
Proof.
  unfold Py.float. destruct (Py.sign _) as [neg body].
  destruct (_ || _); [exact I|].
  destruct (String.eqb _ "nan"); [exact I|].
  destruct (Py.cut _ body) as [mant expo].
  destruct (Py.cut _ mant) as [ipart fpart].
  destruct (Py.digits_opt ipart); [|exact I].
  destruct (Py.digits_opt _); [|exact I].
  destruct expo as [e|].
  - destruct (Py.sign e) as [eneg edigits].
    destruct (Py.digits false edigits); cbn [option_map]; [|exact I].
    destruct (_ ++ _)%list; exact I.
  - destruct (_ ++ _)%list; exact I.
Qed.

Lemma decode_sampling_only_ValueError (s : string) :
  only_ValueError (Grid.decode_sampling s).
Proof.
  unfold Grid.decode_sampling.
  destruct (negb _); [exact I|].
  destruct (Py.contains "U" s); [|destruct (Py.contains "M" s);
    [|destruct (Py.contains "D" s); [|exact I]]]; cbn [bind];
  (pose proof (float_only_ValueError (Py.but_last s)) as H;
   destruct (Py.float (Py.but_last s)) as [x|e]; [exact I | destruct e; exact H]).
Qed.

(** One step through [decode_tilename]: a call that may raise, or a test. *)
Ltac decode_step :=
  match goal with
  | |- context [bind (Py.int ?s) _] =>
      let H := fresh "H" in
      pose proof (int_only_ValueError s) as H;
      destruct (Py.int s) as [?|[]]; cbn [only_ValueError] in H; try contradiction;
      clear H; cbn [bind]
  | |- context [bind (Grid.decode_sampling ?s) _] =>
      let H := fresh "H" in
      pose proof (decode_sampling_only_ValueError s) as H;
      destruct (Grid.decode_sampling s) as [?|[]]; cbn [only_ValueError] in H;
      try contradiction; clear H; cbn [bind]
  | |- context [if negb ?b then _ else _] =>
      let E := fresh "E" in destruct b eqn:E; cbn [negb]
  end.

Lemma decode_tilename_outcome (self : LatLonTilingSystem) (tilename : string) :
  match TilingSystem.decode_tilename self tilename with
  | Ok _ => In (Py.len tilename) [10; 11; 17; 18]%nat /\
            String "T" (Py.split_last "T" tilename) = tiletype (core self)
  | Raise (ValueError _) => True
  | Raise _ => False
  end.
Proof.
  unfold TilingSystem.decode_tilename.
  destruct ((Py.len tilename =? 10)%nat || (Py.len tilename =? 11)%nat) eqn:Eshort;
    [| destruct ((Py.len tilename =? 17)%nat || (Py.len tilename =? 18)%nat) eqn:Elong;
       [| exact I]];
    repeat decode_step; try exact I.
  - split; [| apply String.eqb_eq; assumption].
    apply orb_true_iff in Eshort as [L|L]; apply Nat.eqb_eq in L; rewrite L; cbn; tauto.
  - split; [| apply String.eqb_eq; assumption].
    apply orb_true_iff in Elong as [L|L]; apply Nat.eqb_eq in L; rewrite L; cbn; tauto.
Qed.

End DecodeErrors.

(** C7.  [decode_tilename] raises [ValueError] for every string whose length
    is not 10, 11, 17 or 18 and for every string whose size-class suffix
    (["T"] and what follows the last ["T"]) is not the tile code of the tiling
    system; so does [decode_tilename("E018N018T18")] on every system whose
    tile code is not T18. *)
Theorem decode_tilename_rejects (self : LatLonTilingSystem) :
  TilingSystem.ysize self <> 0 ->
  (forall tilename,
     ~ In (Py.len tilename) [10; 11; 17; 18]%nat \/
     String "T" (Py.split_last "T" tilename) <> tiletype (core self) ->
     exists m, TilingSystem.decode_tilename self tilename = Raise (ValueError m)) /\
  (tiletype (core self) <> "T18" ->
   exists m, TilingSystem.decode_tilename self "E018N018T18" = Raise (ValueError m)).
Proof.
  intros _.
  assert (Hall : forall tilename,
     ~ In (Py.len tilename) [10; 11; 17; 18]%nat \/
     String "T" (Py.split_last "T" tilename) <> tiletype (core self) ->
     exists m, TilingSystem.decode_tilename self tilename = Raise (ValueError m)).
  { intros tilename Hbad.
    pose proof (decode_tilename_outcome self tilename) as H.
    destruct (TilingSystem.decode_tilename self tilename) as [r|e].
    - destruct H as [Hlen Hcode]. destruct Hbad as [Hbad|Hbad]; contradiction.
    - destruct e; try contradiction. eexists. reflexivity. }
  split; [exact Hall|].
  intros Hcode. apply Hall. right. cbn. congruence.
Qed.

Lemma decode_tilename_rejects_witness :
  let fine := {| core := {| tag := "GL"; sampling := 0.0001; tiletype := "T1";
                            tile_xsize_m := 1; tile_ysize_m := 1 |} |} in
  (exists m, TilingSystem.decode_tilename fine "GL100U_E194N135" = Raise (ValueError m)) /\
  (exists m, TilingSystem.decode_tilename fine "E018N018T18" = Raise (ValueError m)).
Proof.
  intros fine.
  destruct (decode_tilename_rejects fine) as [Hall Hex]; [cbn; discriminate|].
  split.
  - apply Hall. left. cbn. intuition discriminate.
  - apply Hex. cbn. discriminate.
Defined.

(** ** The arguments of [find_overlapping_tilenames] and [create_tile] *)

(** A tile type alone that is not T1, T3 or T6 ends in [ValueError]; T18 is
    among them, since its branch repeats the test for T6. *)
Lemma find_overlapping_tilenames_bad_tiletype
  (d : option static_data) (self : LatLonTilingSystem) (tilename t : string) :
  ~ In t ["T1"; "T3"; "T6"] ->
  TilingSystem.find_overlapping_tilenames d self tilename None (Some t)
  = Raise (ValueError msg3).
Proof.
  intros Ht. unfold TilingSystem.find_overlapping_tilenames, TilingSystem.check_search_input.
  destruct (String.eqb_spec t "T1") as [->|_]; [exfalso; apply Ht; cbn; tauto|].
  destruct (String.eqb_spec t "T3") as [->|_]; [exfalso; apply Ht; cbn; tauto|].
  destruct (String.eqb_spec t "T6") as [->|_]; [exfalso; apply Ht; cbn; tauto|].
  reflexivity.
Qed.

(** A target sampling outside the supported set ends in the [ValueError] of
    the grid constructor. *)
Lemma find_overlapping_tilenames_bad_sampling
  (d : static_data) (self : LatLonTilingSystem) (tilename : string)
  (s : float) (t : option string) :
  existsb (PrimFloat.eqb s) Grid._static_sampling = false ->
  TilingSystem.find_overlapping_tilenames (Some d) self tilename (Some s) t
  = Raise (ValueError sampling_not_supported).
Proof.
  intros Hs. unfold TilingSystem.find_overlapping_tilenames, TilingSystem.check_search_input.
  destruct t; cbn [bind]; unfold Grid.new; rewrite Hs; reflexivity.
Qed.

(** C8, on the code.  With neither a target sampling nor a target tile type
    no branch assigns [sampling], and building the target grid from it raises
    [UnboundLocalError], not [ValueError].  The other calls that resolve to no
    usable sampling do raise [ValueError]: a tile type alone outside T1, T3,
    T6, and a target sampling outside the supported set. *)
Theorem find_overlapping_tilenames_argument_errors
  (d : static_data) (self : LatLonTilingSystem) (tilename : string) :
  TilingSystem.find_overlapping_tilenames (Some d) self tilename None None
  = Raise (UnboundLocalError "sampling") /\
  (forall t, ~ In t ["T1"; "T3"; "T6"] ->
     TilingSystem.find_overlapping_tilenames (Some d) self tilename None (Some t)
     = Raise (ValueError msg3)) /\
  (forall s t, existsb (PrimFloat.eqb s) Grid._static_sampling = false ->
     TilingSystem.find_overlapping_tilenames (Some d) self tilename (Some s) t
     = Raise (ValueError sampling_not_supported)).
Proof.
  split; [reflexivity|]. split.
  - intros t Ht. apply find_overlapping_tilenames_bad_tiletype, Ht.
  - intros s t Hs. apply find_overlapping_tilenames_bad_sampling, Hs.
Qed.

(** C9.  [create_tile] succeeds only when the name alone, or the longitude
    and the latitude without a name, are given; on every other combination it
    raises the [AttributeError] for badly given arguments. *)
Theorem create_tile_arguments (d : option static_data) (self : LatLonTilingSystem)
  (name : option string) (lon lat : option Py.number) :
  (is_ok (TilingSystem.create_tile d self name lon lat) = true ->
   by_name name lon lat \/ by_point name lon lat) /\
  (~ (by_name name lon lat \/ by_point name lon lat) ->
   TilingSystem.create_tile d self name lon lat = Raise (AttributeError name_or_lonlat)).
Proof.
  unfold by_name, by_point, TilingSystem.create_tile.
  destruct name as [n|], lon as [x|], lat as [y|]; cbn [bind is_ok]; split;
    try discriminate; try reflexivity; intros H;
    solve [ left; repeat split; discriminate
          | right; repeat split; discriminate
          | exfalso; apply H; left; repeat split; discriminate
          | exfalso; apply H; right; repeat split; discriminate ].
Qed.

Lemma create_tile_arguments_witness :
  let self := {| core := {| tag := "GL"; sampling := 0.0006; tiletype := "T6";
                            tile_xsize_m := 6; tile_ysize_m := 6 |} |} in
  (by_name (Some "E012N042T6") None None \/ by_point (Some "E012N042T6") None None) /\
  TilingSystem.create_tile (Some sample_data) self (Some "E012N042T6") (Some (Py.Int 12)) None
  = Raise (AttributeError name_or_lonlat).
Proof.
  intros self. split.
  - apply (create_tile_arguments (Some sample_data) self (Some "E012N042T6") None None).
    vm_compute. reflexivity.
  - apply (create_tile_arguments (Some sample_data) self).
    unfold by_name, by_point. intros [(_ & H & _) | (H & _)]; discriminate H.
Defined.

(** ** Grids over a loaded data set *)

Section Built.

Variable d : static_data.
Variable data : subgrid_data.
Hypothesis d_GL : lookup "GL" d = Ok data.

(** What [LatLonGrid(s)] builds once [s] has passed the checks. *)
Lemma new_built (s : float) (k : Z) (code : string) (n : Z) (c : string) :
  existsb (PrimFloat.eqb s) Grid._static_sampling = true ->
  Grid.sampling_scaled s = Ok k ->
  Grid.tilecode k = Ok code ->
  lookup code Grid.tilesizes = Ok n ->
  Grid.encode_sampling s = Ok c ->
  Grid.new (Some d) s =
  Ok {| grid_core := built_core "LatLon" s code n;
        subgrids := [("GL", {| subgrid_core := built_core "GL" s code n;
                               name := ("LATLON_GL" ++ c)%string;
                               polygon_wkt := zone_extent data;
                               tilesys := {| core := built_core "GL" s code n |} |})] |}.
Proof.
  intros Hin Hk Hcode Hn Hc.
  unfold Grid.new, Grid.get_tilesize, Grid.get_tiletype.
  rewrite Hin, Hk. cbn [negb bind]. rewrite Hcode. cbn [bind]. rewrite Hn. cbn [bind].
  unfold Grid._static_subgrid_ids, Grid.define_subgrids, Grid.new_subgrid.
  rewrite d_GL. cbn [bind sampling]. rewrite Hc. reflexivity.
Qed.

Lemma GL_tilesys_built (s : float) (k : Z) (code : string) (n : Z) (c : string) :
  existsb (PrimFloat.eqb s) Grid._static_sampling = true ->
  Grid.sampling_scaled s = Ok k ->
  Grid.tilecode k = Ok code ->
  lookup code Grid.tilesizes = Ok n ->
  Grid.encode_sampling s = Ok c ->
  GL_tilesys (Some d) s = Ok {| core := built_core "GL" s code n |}.
Proof.
  intros Hin Hk Hcode Hn Hc. unfold GL_tilesys, GL.
  rewrite (new_built s k code n c Hin Hk Hcode Hn Hc). reflexivity.
Qed.

End Built.

(** Closes the side conditions of [new_built] on a literal sampling. *)
Ltac literal_grid := vm_compute; reflexivity.

(** ** Family tiles *)

(** The tile codes in string order: ["T1" < "T18" < "T3" < "T6"]. *)
Lemma tilecodes_in_string_order :
  String.ltb "T1" "T18" = true /\ String.ltb "T18" "T3" = true /\
  String.ltb "T3" "T6" = true.
Proof. repeat split. Qed.

(** C1, on the code: the order test [target_tiletype >= src_tiletype]
    compares the tile codes as strings, and ["T18" < "T6"].  For the T6 tile
    [GL600U_E012N042T6] and the target sampling [0.002] (class T18) the search
    takes the branch for smaller tiles with [n = 6 // 18 = 0] and answers the
    empty list, not the one enclosing T18 tile. *)
Theorem find_overlapping_tilenames_T6_to_T18 (d : static_data) (data : subgrid_data) :
  lookup "GL" d = Ok data ->
  Py.str_ge "T18" "T6" = false /\
  exists self,
    GL_tilesys (Some d) 0.0006%float = Ok self /\
    Grid.get_tiletype "" (Some 0.002%float) = Ok "T18" /\
    TilingSystem.find_overlapping_tilenames (Some d) self "GL600U_E012N042T6"
      (Some 0.002%float) None = Ok [].
Proof.
  intros Hd. split; [reflexivity|].
  eexists. split; [| split].
  - apply (GL_tilesys_built d data Hd 0.0006%float 6 "T6" 6 "600U"); literal_grid.
  - literal_grid.
  - unfold TilingSystem.find_overlapping_tilenames, TilingSystem.check_search_input.
    cbn [bind].
    rewrite (new_built d data Hd 0.002%float 20 "T18" 18 "002M") by literal_grid.
    cbn [bind]. vm_compute. reflexivity.
Qed.

Lemma find_overlapping_tilenames_T6_to_T18_witness :
  Py.str_ge "T18" "T6" = false /\
  exists self,
    GL_tilesys (Some sample_data) 0.0006%float = Ok self /\
    Grid.get_tiletype "" (Some 0.002%float) = Ok "T18" /\
    TilingSystem.find_overlapping_tilenames (Some sample_data) self "GL600U_E012N042T6"
      (Some 0.002%float) None = Ok [].
Proof.
  apply (find_overlapping_tilenames_T6_to_T18 sample_data sample_GL).
  reflexivity.
Defined.

(** Where the string order agrees with the order of the sizes the search
    does find the one enclosing tile, here a T3 tile inside a T6 tile. *)
Example find_overlapping_tilenames_T3_to_T6 :
  exists self,
    GL_tilesys (Some sample_data) 0.0003%float = Ok self /\
    TilingSystem.find_overlapping_tilenames (Some sample_data) self "E015N042T3"
      (Some 0.0006%float) None = Ok ["GL600U_E012N042T6"] /\
    TilingSystem.find_overlapping_tilenames (Some sample_data) self "E015N045T3"
      None (Some "T6") = Ok ["E012N042T6"].
Proof.
  eexists. split; [vm_compute; reflexivity|]. split; vm_compute; reflexivity.
Qed.

(** ** Land tiles *)

(** C5, as stated, fails: the short name [E012N042T6] decodes on the grid of
    sampling [0.0006], yet [check_tile_covers_land] ends in
    [UnboundLocalError], because [tilename2short] assigns its result only for
    names of 17 characters. *)
Lemma check_tile_covers_land_short_name :
  exists self,
    GL_tilesys (Some sample_data) 0.0006%float = Ok self /\
    is_ok (TilingSystem.decode_tilename self "E012N042T6") = true /\
    TilingSystem.check_tile_covers_land (Some sample_data) self "E012N042T6"
    = Raise (UnboundLocalError "shortform").
Proof.
  eexists. split; [vm_compute; reflexivity|]. split; vm_compute; reflexivity.
Qed.

(** C5, amended.  For every long tile name of 17 characters that decodes on
    the tiling system, [check_tile_covers_land] answers a boolean that is
    [True] exactly when the short form of the name, the name without its first
    seven characters, is in the land-tile set of the system's tile code. *)
Theorem check_tile_covers_land_long_name (d : option static_data)
  (self : LatLonTilingSystem) (tilename : string) (land_tiles : list string) :
  Py.len tilename = 17%nat ->
  is_ok (TilingSystem.decode_tilename self tilename) = true ->
  TilingSystem.list_tiles_covering_land d self = Ok land_tiles ->
  exists b, TilingSystem.check_tile_covers_land d self tilename = Ok (Some b) /\
            (b = true <-> In (Py.slice_from 7 tilename) land_tiles).
Proof.
  intros Hlen Hdec Hland.
  exists (TilingSystem.member (Py.slice_from 7 tilename) land_tiles). split.
  - unfold TilingSystem.check_tile_covers_land, TilingSystem.tilename2short,
      TilingSystem.check_tilename.
    rewrite Hland. cbn [bind].
    destruct (TilingSystem.decode_tilename self tilename); [|discriminate Hdec].
    cbn [bind]. rewrite Hlen. reflexivity.
  - unfold TilingSystem.member. rewrite existsb_exists. split.
    + intros (x & Hx & E). apply String.eqb_eq in E. subst x. exact Hx.
    + intros Hx. exists (Py.slice_from 7 tilename). split; [exact Hx | apply String.eqb_refl].
Qed.

Lemma check_tile_covers_land_long_name_witness :
  let self := {| core := built_core "GL" 0.0006%float "T6" 6 |} in
  exists b, TilingSystem.check_tile_covers_land (Some sample_data) self "GL600U_E012N042T6"
            = Ok (Some b) /\
            (b = true <-> In "E012N042T6" ["E012N042T6"]).
Proof.
  intros self.
  apply (check_tile_covers_land_long_name (Some sample_data) self "GL600U_E012N042T6");
    vm_compute; reflexivity.
Defined.

(** A long T18 name has 18 characters and meets the same unbound variable. *)
Lemma check_tile_covers_land_T18 :
  exists self,
    GL_tilesys (Some sample_data) 0.01%float = Ok self /\
    is_ok (TilingSystem.decode_tilename self "GL010M_E072N036T18") = true /\
    TilingSystem.check_tile_covers_land (Some sample_data) self "GL010M_E072N036T18"
    = Raise (UnboundLocalError "shortform").
Proof.
  eexists. split; [vm_compute; reflexivity|]. split; vm_compute; reflexivity.
Qed.

(** ** The candidate tiles of a search *)

Section BoundingTiles.

Lemma int_of_Q_floor (x : Q) : (0 <= x)%Q -> Py.int_of_Q x = Qfloor x.
Proof.
  destruct x as [n p]. unfold Qle, Py.int_of_Q, Qfloor. cbn [Qnum Qden].
  intros Hn. apply Z.quot_div_nonneg; lia.
Qed.

Lemma int_of_Q_ge (x : Q) : (x <= 0)%Q -> (x <= inject_Z (Py.int_of_Q x))%Q.
Proof.
  destruct x as [n p]. unfold Qle, Py.int_of_Q, inject_Z. cbn [Qnum Qden].
  intros Hn. rewrite Z.mul_1_r in *.
  assert (Hq : n = Z.pos p * (n ÷ Z.pos p) + Z.rem n (Z.pos p))
    by (apply Z.quot_rem'; lia).
  assert (Hr : Z.rem n (Z.pos p) <= 0) by (apply Z.rem_nonpos; lia).
  nia.
Qed.

(** A multiple of the tile size at or below an integer. *)
Lemma floor_to_tile (z n : Z) : 0 < n -> z / n * n <= z < (z / n + 1) * n.
Proof.
  intros Hn. pose proof (Z.div_mod z n ltac:(lia)) as Hd.
  pose proof (Z.mod_pos_bound z n Hn) as Hm. nia.
Qed.

(** The upper corner always lies beyond the envelope; the lower corner lies
    at or below it when the envelope's minimum is not negative. *)
Lemma bounding_tiles_enclose (self : LatLonSubgrid) (e0 e1 e2 e3 : Q) :
  0 < tile_xsize_m (subgrid_core self) -> 0 < tile_ysize_m (subgrid_core self) ->
  let '(lon_min, lon_max, lat_min, lat_max) :=
    Subgrid.bounding_tiles self (e0, e1, e2, e3) in
  (e1 < inject_Z lon_max)%Q /\ (e3 < inject_Z lat_max)%Q /\
  ((0 <= e0)%Q -> (inject_Z lon_min <= e0)%Q) /\
  ((0 <= e2)%Q -> (inject_Z lat_min <= e2)%Q).
Proof.
  intros Hx Hy. unfold Subgrid.bounding_tiles.
  set (xs := tile_xsize_m (subgrid_core self)) in *.
  set (ys := tile_ysize_m (subgrid_core self)) in *.
  assert (Hup : forall (e : Q) (n : Z), 0 < n ->
            (e < inject_Z ((Py.int_of_Q e / n + 1) * n))%Q).
  { intros e n Hn. pose proof (floor_to_tile (Py.int_of_Q e) n Hn) as [_ Hlt].
    destruct (Qlt_le_dec e 0) as [Hneg|Hpos].
    - apply Qle_lt_trans with (inject_Z (Py.int_of_Q e)).
      + apply int_of_Q_ge, Qlt_le_weak, Hneg.
      + rewrite <- Zlt_Qlt. exact Hlt.
    - rewrite (int_of_Q_floor e Hpos) in *.
      apply Qlt_le_trans with (inject_Z (Qfloor e + 1)); [apply Qlt_floor|].
      rewrite <- Zle_Qle. lia. }
  assert (Hlow : forall (e : Q) (n : Z), 0 < n -> (0 <= e)%Q ->
            (inject_Z (Py.int_of_Q e / n * n) <= e)%Q).
  { intros e n Hn Hpos. pose proof (floor_to_tile (Py.int_of_Q e) n Hn) as [Hle _].
    rewrite (int_of_Q_floor e Hpos) in *.
    apply Qle_trans with (inject_Z (Qfloor e)); [| apply Qfloor_le].
    rewrite <- Zle_Qle. exact Hle. }
  repeat split; auto.
Qed.

End BoundingTiles.

(** C2, on the code: the corners are obtained with [int(...)], which cuts
    towards zero, before the floor division.  On the grid of sampling [0.0006]
    the rectangle with longitudes [-0.5 .. 0.5] and latitudes [0.5 .. 1.5] has
    [int(-0.5) = 0], so the candidates start at longitude 0; the tile
    [GL600U_E174N090T6], which the rectangle overlaps between the longitudes
    [-0.5] and [0], is neither a candidate nor returned. *)
Theorem search_tiles_in_geometry_misses_tile :
  let geom : Rectangle.t := (-1 # 2, 1 # 2, 1 # 2, 3 # 2)%Q in
  Py.int_of_Q (-1 # 2) = 0 /\ Qfloor (-1 # 2) = -1 /\
  exists self,
    GL (Some sample_data) 0.0006%float = Ok self /\
    Subgrid.candidates self (GetEnvelope geom) = [(0, 0); (0, 6); (6, 0); (6, 6)] /\
    Subgrid.search_tiles_in_geometry (Some sample_data) self geom false
    = Ok ["GL600U_E180N090T6"] /\
    Rectangle.overlaps (extent2polygon (-6, 0, 0, 6)) geom /\
    TilingSystem.point2tilename (tilesys self) (Py.Int (-6)) (Py.Int 0) false
    = Ok "GL600U_E174N090T6".
Proof.
  intros geom. split; [reflexivity|]. split; [reflexivity|].
  eexists. split; [vm_compute; reflexivity|].
  split; [vm_compute; reflexivity|].
  split; [vm_compute; reflexivity|].
  split; [|vm_compute; reflexivity].
  vm_compute. repeat split.
Qed.

(** ** Tile names there and back *)

Section Digits.

Lemma three_digits_checked :
  forallb three_digits_ok (map Z.of_nat (seq 0 1000)) = true.
Proof. vm_compute. reflexivity. Qed.

Lemma three_digits_spec (x : Z) :
  0 <= x < 1000 ->
  Py.format_03d x = three_digits x /\ Py.int (three_digits x) = Ok x.
Proof.
  intros Hx.
  assert (Hin : In x (map Z.of_nat (seq 0 1000))).
  { apply in_map_iff. exists (Z.to_nat x). split; [lia|]. apply in_seq. lia. }
  pose proof (proj1 (forallb_forall _ _) three_digits_checked x Hin) as Hok.
  unfold three_digits_ok in Hok. apply andb_true_iff in Hok as [Hf Hi].
  split; [apply String.eqb_eq, Hf|].
  destruct (Py.int (three_digits x)) as [y|]; [|discriminate Hi].
  apply Z.eqb_eq in Hi. congruence.
Qed.

End Digits.

Section Suffix.

Lemma after_last_absent (sep : ascii) (s : string) :
  Py.contains sep s = false -> Py.after_last sep s = None.
Proof.
  induction s as [|c r IH]; cbn [Py.contains Py.after_last]; [reflexivity|].
  intros H. apply orb_false_iff in H as [Hc Hr].
  rewrite (IH Hr), Hc. reflexivity.
Qed.

Lemma after_last_here (sep : ascii) (s : string) :
  Py.contains sep s = false -> Py.after_last sep (String sep s) = Some s.
Proof.
  intros H. cbn [Py.after_last]. rewrite (after_last_absent sep s H), Ascii.eqb_refl.
  reflexivity.
Qed.

Lemma after_last_later (sep c : ascii) (r t : string) :
  Py.after_last sep r = Some t -> Py.after_last sep (String c r) = Some t.
Proof. intros H. cbn [Py.after_last]. rewrite H. reflexivity. Qed.

End Suffix.

(** Finds the suffix after the last separator of a name spelt out character
    by character up to that separator. *)
Ltac find_suffix H :=
  unfold Py.split_last;
  match goal with
  | |- context [Py.after_last ?sep ?s] =>
      let E := fresh "E" in
      assert (E : Py.after_last sep s = Some _)
        by (repeat first [ apply (after_last_here sep _ H) | apply after_last_later ]);
      rewrite E; clear E
  end.

Section RoundTrip.

Variable self : LatLonTilingSystem.
Variables (a b c1 c2 c3 c4 : ascii) (sfx : string) (n : Z) (s' : float).

Local Abbreviation code := (String c1 (String c2 (String c3 (String c4 EmptyString)))).

Hypothesis self_tag : tag (core self) = String a (String b EmptyString).
Hypothesis self_code : Grid.encode_sampling (sampling (core self)) = Ok code.
Hypothesis code_back : Grid.decode_sampling code = Ok s'.
Hypothesis code_close : Py.isclose s' (sampling (core self)) = true.
Hypothesis self_type : tiletype (core self) = String "T" sfx.
Hypothesis sfx_plain : Py.contains "T" sfx = false.
Hypothesis sfx_size : Py.int sfx = Ok n.
Hypothesis self_xsize : TilingSystem.xsize self = n.
Hypothesis self_ysize : TilingSystem.ysize self = n.

Variables east north : Z.
Hypothesis east_range : -180 <= east < 180.
Hypothesis north_range : -90 <= north < 90.
Hypothesis east_aligned : east mod n = 0.
Hypothesis north_aligned : north mod n = 0.

Local Abbreviation short := (short_name sfx east north).
Local Abbreviation long := (long_name a b code sfx east north).

Lemma long_name_len : Py.len long = (16 + Py.len sfx)%nat.
Proof. reflexivity. Qed.

Lemma short_name_len : Py.len short = (9 + Py.len sfx)%nat.
Proof. reflexivity. Qed.

Lemma spelt_out :
  (tag (core self) ++ code ++ "_E" ++ Py.format_03d (east + 180)
     ++ "N" ++ Py.format_03d (north + 90)
     ++ tiletype (core self))%string = long.
Proof.
  rewrite self_tag, self_type.
  rewrite (proj1 (three_digits_spec (east + 180) ltac:(lia))).
  rewrite (proj1 (three_digits_spec (north + 90) ltac:(lia))).
  reflexivity.
Qed.

Lemma encode_long :
  TilingSystem.encode_tilename self (Py.Int east) (Py.Int north)
    (sampling (core self)) (tiletype (core self)) false = Ok long.
Proof.
  unfold TilingSystem.encode_tilename. rewrite self_code. cbn [bind Py.int_of_number].
  rewrite spelt_out. reflexivity.
Qed.

Lemma east_back : Py.int (three_digits (east + 180)) = Ok (east + 180).
Proof. apply three_digits_spec. lia. Qed.

Lemma north_back : Py.int (three_digits (north + 90)) = Ok (north + 90).
Proof. apply three_digits_spec. lia. Qed.

Lemma decode_long :
  (Py.len sfx = 1 \/ Py.len sfx = 2)%nat ->
  TilingSystem.decode_tilename self long
  = Ok (tag (core self), s', n, east, north, tiletype (core self)).
Proof.
  intros Hlen. unfold TilingSystem.decode_tilename.
  rewrite long_name_len.
  replace ((16 + Py.len sfx =? 10)%nat || (16 + Py.len sfx =? 11)%nat) with false
    by (destruct Hlen as [L|L]; rewrite L; reflexivity).
  replace ((16 + Py.len sfx =? 17)%nat || (16 + Py.len sfx =? 18)%nat) with true
    by (destruct Hlen as [L|L]; rewrite L; reflexivity).
  change (Py.slice 0 2 long) with (String a (String b EmptyString)).
  change (Py.slice 2 6 long) with code.
  change (Py.slice 8 11 long) with (three_digits (east + 180)).
  change (Py.slice 12 15 long) with (three_digits (north + 90)).
  rewrite <- self_tag, String.eqb_refl. cbn [negb].
  rewrite code_back. cbn [bind]. rewrite code_close. cbn [negb].
  unfold long_name, short_name, three_digits. cbn [append].
  find_suffix sfx_plain.
  rewrite sfx_size. cbn [bind].
  rewrite self_xsize, self_ysize, Z.eqb_refl. cbn [negb].
  fold (three_digits (east + 180)). fold (three_digits (north + 90)).
  rewrite east_back, north_back. cbn [bind].
  replace (east + 180 - 180) with east by lia.
  replace (north + 90 - 90) with north by lia.
  rewrite east_aligned, north_aligned. cbn [Z.eqb negb].
  rewrite <- self_type, String.eqb_refl. reflexivity.
Qed.

Lemma decode_short :
  (Py.len sfx = 1 \/ Py.len sfx = 2)%nat ->
  TilingSystem.decode_tilename self short
  = Ok (tag (core self), sampling (core self), n, east, north, tiletype (core self)).
Proof.
  intros Hlen. unfold TilingSystem.decode_tilename.
  rewrite short_name_len.
  replace ((9 + Py.len sfx =? 10)%nat || (9 + Py.len sfx =? 11)%nat) with true
    by (destruct Hlen as [L|L]; rewrite L; reflexivity).
  change (Py.slice 1 4 short) with (three_digits (east + 180)).
  change (Py.slice 5 8 short) with (three_digits (north + 90)).
  unfold short_name, three_digits. cbn [append].
  find_suffix sfx_plain.
  rewrite sfx_size. cbn [bind].
  rewrite self_xsize, self_ysize, Z.eqb_refl. cbn [negb].
  fold (three_digits (east + 180)). fold (three_digits (north + 90)).
  rewrite east_back, north_back. cbn [bind].
  replace (east + 180 - 180) with east by lia.
  replace (north + 90 - 90) with north by lia.
  rewrite east_aligned, north_aligned. cbn [Z.eqb negb].
  rewrite <- self_type, String.eqb_refl. reflexivity.
Qed.

(** With a one-character size the long name has 17 characters and
    [tilename2short] cuts its prefix off. *)
Lemma encode_short :
  Py.len sfx = 1%nat ->
  TilingSystem.encode_tilename self (Py.Int east) (Py.Int north)
    (sampling (core self)) (tiletype (core self)) true = Ok short.
Proof.
  intros Hlen. unfold TilingSystem.encode_tilename. rewrite self_code.
  cbn [bind Py.int_of_number]. rewrite spelt_out.
  unfold TilingSystem.tilename2short, TilingSystem.check_tilename.
  rewrite (decode_long (or_introl Hlen)). cbn [bind].
  rewrite long_name_len, Hlen. reflexivity.
Qed.

End RoundTrip.

Section WellNamed.

Variable self : LatLonTilingSystem.
Variable s' : float.
Hypothesis named : well_named self = Some s'.

(** The parts of a well-named system, as the lemmas on names want them. *)
Lemma well_named_parts :
  exists a b c1 c2 c3 c4 sfx n,
    tag (core self) = String a (String b EmptyString) /\
    Grid.encode_sampling (sampling (core self))
    = Ok (String c1 (String c2 (String c3 (String c4 EmptyString)))) /\
    Grid.decode_sampling (String c1 (String c2 (String c3 (String c4 EmptyString))))
    = Ok s' /\
    Py.isclose s' (sampling (core self)) = true /\
    tiletype (core self) = String "T" sfx /\
    Py.contains "T" sfx = false /\
    Py.int sfx = Ok n /\
    TilingSystem.xsize self = n /\ TilingSystem.ysize self = n /\
    (Py.len sfx = 1 \/ Py.len sfx = 2)%nat.
Proof.
  unfold well_named in named.
  destruct (tag (core self)) as [|a [|b [|]]]; try discriminate named.
  destruct (Grid.encode_sampling (sampling (core self)))
    as [[|c1 [|c2 [|c3 [|c4 [|]]]]]|]; try discriminate named.
  destruct (tiletype (core self)) as [|t sfx]; try discriminate named.
  destruct (Ascii.eqb_spec t "T") as [->|Ht];
    [| destruct t as [[] [] [] [] [] [] [] []]; try discriminate named;
       contradiction Ht; reflexivity ].
  destruct (Grid.decode_sampling _) as [x|] eqn:Hback; try discriminate named.
  destruct (Py.int sfx) as [n|] eqn:Hn; try discriminate named.
  destruct (_ && _) eqn:Hall; try discriminate named.
  injection named as <-.
  repeat match goal with
  | H : _ && _ = true |- _ => apply andb_true_iff in H as [H ?]
  end.
  exists a, b, c1, c2, c3, c4, sfx, n.
  repeat match goal with
  | H : negb _ = true |- _ => apply negb_true_iff in H
  | H : (_ =? _) = true |- _ => apply Z.eqb_eq in H
  | H : _ || _ = true |- _ => apply orb_true_iff in H; rewrite !Nat.eqb_eq in H
  end.
  repeat split; auto.
Qed.

Lemma well_named_close : Py.isclose s' (sampling (core self)) = true.
Proof.
  destruct well_named_parts as (a & b & c1 & c2 & c3 & c4 & sfx & n & H).
  apply H.
Qed.

Variables east north : Z.
Hypothesis east_range : -180 <= east < 180.
Hypothesis north_range : -90 <= north < 90.
Hypothesis east_aligned : east mod TilingSystem.xsize self = 0.
Hypothesis north_aligned : north mod TilingSystem.ysize self = 0.

Lemma round_trip_long :
  decode_of_encode self east north false
  = Ok (tag (core self), s', TilingSystem.xsize self, east, north, tiletype (core self)).
Proof.
  destruct well_named_parts as (a & b & c1 & c2 & c3 & c4 & sfx & n & Htag & Hcode &
    Hback & Hclose & Htype & Hplain & Hn & Hx & Hy & Hlen).
  rewrite Hx in *. rewrite Hy in *.
  unfold decode_of_encode.
  rewrite (encode_long self a b c1 c2 c3 c4 sfx Htag Hcode Htype east north
             east_range north_range).
  cbn [bind].
  apply (decode_long self a b c1 c2 c3 c4 sfx n s'); assumption.
Qed.

Lemma round_trip_short :
  Py.len (tiletype (core self)) = 2%nat ->
  decode_of_encode self east north true
  = Ok (tag (core self), sampling (core self), TilingSystem.xsize self, east, north,
        tiletype (core self)).
Proof.
  intros Hlen2.
  destruct well_named_parts as (a & b & c1 & c2 & c3 & c4 & sfx & n & Htag & Hcode &
    Hback & Hclose & Htype & Hplain & Hn & Hx & Hy & Hlen).
  assert (L : Py.len sfx = 1%nat) by (rewrite Htype in Hlen2; injection Hlen2; auto).
  rewrite Hx in *. rewrite Hy in *.
  unfold decode_of_encode.
  rewrite (encode_short self a b c1 c2 c3 c4 sfx n s' Htag Hcode Hback Hclose Htype
             Hplain Hn Hx Hy east north east_range north_range east_aligned
             north_aligned L).
  cbn [bind].
  apply (decode_short self sfx n); auto.
Qed.

End WellNamed.

(** Rewrites [GL_tilesys (Some d) s = Ok self], for a literal supported
    sampling [s], into the system that the constructor builds. *)
Ltac built_system Hd Hself :=
  match type of Hself with
  | GL_tilesys (Some ?d) ?s = Ok ?self =>
      let k := eval vm_compute in (Grid.sampling_scaled s) in
      match k with
      | Ok ?k =>
          let code := eval vm_compute in (Grid.tilecode k) in
          match code with
          | Ok ?code =>
              let n := eval vm_compute in (lookup code Grid.tilesizes) in
              let c := eval vm_compute in (Grid.encode_sampling s) in
              match constr:((n, c)) with
              | (Ok ?n, Ok ?c) =>
                  rewrite (GL_tilesys_built d _ Hd s k code n c) in Hself by literal_grid;
                  injection Hself as <-
              end
          end
      end
  end.

(** C3, as stated, fails.  On the grid of sampling [0.0001] the long name of
    the tile at [(14, 45)] decodes to a tuple whose sampling is the float
    below [0.0001], which [decode_tilename] accepts through [numpy.isclose].
    On the grid of sampling [0.01] (class T18) the short name cannot be
    encoded: the long name has 18 characters and [tilename2short] leaves its
    result unbound.  On the grid of sampling [0.0016] the long name carries
    the code [001M] and [decode_tilename] rejects it. *)
Lemma tilename_round_trip_fails :
  (exists self x,
     GL_tilesys (Some sample_data) 0.0001%float = Ok self /\
     decode_of_encode self 14 45 false = Ok ("GL", x, 1, 14, 45, "T1") /\
     (x =? sampling (core self))%float = false) /\
  (exists self,
     GL_tilesys (Some sample_data) 0.01%float = Ok self /\
     decode_of_encode self (-108) (-54) true = Raise (UnboundLocalError "shortform")) /\
  (exists self,
     GL_tilesys (Some sample_data) 0.0016%float = Ok self /\
     TilingSystem.encode_tilename self (Py.Int (-168)) (Py.Int (-48)) 0.0016%float "T6" false
     = Ok "GL001M_E012N042T6" /\
     decode_of_encode self (-168) (-48) false = Raise (ValueError msg1)).
Proof.
  split; [| split].
  - do 2 eexists. split; [vm_compute; reflexivity|]. split; vm_compute; reflexivity.
  - eexists. split; [vm_compute; reflexivity|]. vm_compute. reflexivity.
  - eexists. split; [vm_compute; reflexivity|]. split; vm_compute; reflexivity.
Qed.

(** C3, amended.  On the tiling system of every supported sampling other than
    [0.0016], for every lower-left corner in range that is aligned to the tile
    size: decoding the long name gives the tag, the tile size, the corner and
    the tile code of the system together with the decoded sampling code, a
    float that [numpy.isclose] accepts as the system's sampling; and, when the
    tile code is not T18, decoding the short name gives exactly the tuple of
    the system. *)
Theorem tilename_round_trip (d : static_data) (data : subgrid_data) (s : float)
  (self : LatLonTilingSystem) (east north : Z) :
  lookup "GL" d = Ok data ->
  In s Grid._static_sampling -> s <> 0.0016%float ->
  GL_tilesys (Some d) s = Ok self ->
  -180 <= east < 180 -> -90 <= north < 90 ->
  east mod TilingSystem.xsize self = 0 -> north mod TilingSystem.ysize self = 0 ->
  sampling (core self) = s /\
  (exists s', recode s = Ok s' /\ Py.isclose s' s = true /\
     decode_of_encode self east north false
     = Ok (tag (core self), s', TilingSystem.xsize self, east, north,
           tiletype (core self))) /\
  (tiletype (core self) <> "T18" ->
   decode_of_encode self east north true
   = Ok (tag (core self), s, TilingSystem.xsize self, east, north,
         tiletype (core self))).
Proof.
  intros Hd Hin Hs Hself He Hn Hea Hna.
  unfold Grid._static_sampling in Hin. cbn [In] in Hin.
  repeat (destruct Hin as [<- | Hin];
    [ first
        [ exfalso; apply Hs; reflexivity
        | built_system Hd Hself;
          split; [reflexivity|];
          split;
          [ eexists; split; [vm_compute; reflexivity|];
            split; [vm_compute; reflexivity|];
            apply round_trip_long; [vm_compute; reflexivity | assumption ..]
          | intros Ht;
            first
              [ exfalso; apply Ht; reflexivity
              | eapply round_trip_short;
                [vm_compute; reflexivity | assumption .. | reflexivity] ] ] ]
    | ]).
  contradiction.
Qed.

Lemma tilename_round_trip_witness :
  exists self,
    GL_tilesys (Some sample_data) 0.0006%float = Ok self /\
    decode_of_encode self (-168) (-48) false
    = Ok ("GL", 0.0006%float, 6, -168, -48, "T6") /\
    decode_of_encode self (-168) (-48) true
    = Ok ("GL", 0.0006%float, 6, -168, -48, "T6").
Proof.
  exists {| core := built_core "GL" 0.0006%float "T6" 6 |}.
  split; [vm_compute; reflexivity|].
  destruct (tilename_round_trip sample_data sample_GL
              0.0006%float {| core := built_core "GL" 0.0006%float "T6" 6 |} (-168) (-48))
    as (_ & (x & Hx & _ & Hlong) & Hshort).
  - reflexivity.
  - cbn. tauto.
  - intros E.
    assert (F : (0.0006 =? 0.0016)%float = (0.0016 =? 0.0016)%float) by (rewrite E; reflexivity).
    vm_compute in F. discriminate F.
  - vm_compute. reflexivity.
  - lia.
  - lia.
  - reflexivity.
  - reflexivity.
  - split.
    + rewrite Hlong. vm_compute in Hx. injection Hx as <-. reflexivity.
    + apply Hshort. cbn. discriminate.
Defined.

(** * Further properties of the code *)

(** ** Lengths of the strings the code builds *)

Section Lengths.

Lemma len_app (s t : string) : Py.len (s ++ t) = (Py.len s + Py.len t)%nat.
Proof.
  unfold Py.len. induction s as [|c s IH]; cbn [append String.length]; [reflexivity|].
  rewrite IH. reflexivity.
Qed.

Lemma len_repeat_char (c : ascii) (n : nat) : Py.len (Py.repeat_char c n) = n.
Proof.
  unfold Py.len. induction n as [|n IH]; cbn [Py.repeat_char String.length]; congruence.
Qed.

Lemma len_rjust (w : nat) (c : ascii) (s : string) :
  Py.len (Py.rjust w c s) = Nat.max w (Py.len s).
Proof. unfold Py.rjust. rewrite len_app, len_repeat_char. lia. Qed.

Lemma len_format_03d (z : Z) : (3 <= Py.len (Py.format_03d z))%nat.
Proof.
  unfold Py.format_03d. destruct (z <? 0).
  - change (Py.len (String "-" ?s)) with (S (Py.len s)). rewrite len_rjust. lia.
  - rewrite len_rjust. lia.
Qed.

Lemma len_slice_from (k : nat) (s : string) :
  Py.len (Py.slice_from k s) = (Py.len s - k)%nat.
Proof.
  unfold Py.len. revert s. induction k as [|k IH]; intros s; cbn [Py.slice_from].
  - lia.
  - destruct s as [|c r]; cbn [String.length]; [reflexivity | apply IH].
Qed.

End Lengths.

(** ** The sampling code *)

(** The code built from a scaled value [n] and a one-character tag [t],
    when it passes the length test. *)
Lemma coded_shape (n : Z) (t c : string) :
  Py.len t = 1%nat ->
  (if (4 <? Py.len (Py.rjust 3 "0" (Py.str n) ++ t))%nat
   then Raise (ValueError badly_defined)
   else Ok (Py.rjust 3 "0" (Py.str n) ++ t)%string) = Ok c ->
  Py.len c = 4%nat /\ exists body, Py.len body = 3%nat /\ c = (body ++ t)%string.
Proof.
  intros Ht E.
  destruct (Nat.ltb_spec 4 (Py.len (Py.rjust 3 "0" (Py.str n) ++ t))) as [|Hle];
    [discriminate E|].
  injection E as <-. rewrite len_app, len_rjust, Ht in *.
  split; [lia|]. exists (Py.rjust 3 "0" (Py.str n)).
  split; [rewrite len_rjust; lia | reflexivity].
Qed.

Lemma encode_sampling_len (sampling : float) (c : string) :
  Grid.encode_sampling sampling = Ok c -> Py.len c = 4%nat.
Proof.
  unfold Grid.encode_sampling. intros H.
  destruct (sampling <? 0.001)%float; [| destruct (sampling <? 1)%float];
    match type of H with
    | bind (bind ?r _) _ = _ => destruct r as [n|e]; [|discriminate H]
    end; cbn [bind] in H; (eapply coded_shape; [|exact H]; reflexivity).
Qed.

(** X1: whatever the sampling, a code that [encode_sampling] returns has four
    characters: three for the scaled value and the order tag chosen by the
    magnitude of the sampling. *)
Theorem encode_sampling_shape (sampling : float) (c : string) :
  Grid.encode_sampling sampling = Ok c ->
  Py.len c = 4%nat /\
  exists body, Py.len body = 3%nat /\ c = (body ++ order_tag sampling)%string.
Proof.
  unfold Grid.encode_sampling, order_tag. intros H.
  destruct (sampling <? 0.001)%float; [| destruct (sampling <? 1)%float];
    match type of H with
    | bind (bind ?r _) _ = _ => destruct r as [n|e]; [|discriminate H]
    end; cbn [bind] in H; (apply (coded_shape n); [reflexivity | exact H]).
Qed.

Lemma encode_sampling_shape_witness :
  Py.len "600U" = 4%nat /\
  exists body, Py.len body = 3%nat /\ "600U" = (body ++ order_tag 0.0006%float)%string.
Proof.
  apply (encode_sampling_shape 0.0006%float "600U"). vm_compute. reflexivity.
Defined.

(** ** Tile codes and tile sizes *)

Lemma tilecode_listed (s : Z) (c : string) :
  Grid.tilecode s = Ok c -> exists n, In (c, n) Grid.tilesizes /\ lookup c Grid.tilesizes = Ok n.
Proof.
  unfold Grid.tilecode. intros H.
  repeat match type of H with
  | (if ?b then _ else _) = _ => destruct b
  end; try discriminate H; injection H as <-;
  [exists 1 | exists 3 | exists 6 | exists 18]; (split; [cbn; tauto | reflexivity]).
Qed.

Lemma tilesize_of_tiletype (own : string) (sampling : float) (c : string) :
  Grid.get_tiletype own (Some sampling) = Ok c ->
  exists n, Grid.get_tilesize own sampling = Ok (n, n) /\
            In (c, n) [("T1", 1); ("T3", 3); ("T6", 6); ("T18", 18)].
Proof.
  intros E. unfold Grid.get_tilesize. rewrite E. cbn [bind].
  unfold Grid.get_tiletype in E.
  destruct (Grid.sampling_scaled sampling) as [s|]; [|discriminate E]. cbn [bind] in E.
  destruct (tilecode_listed s c E) as (n & Hin & Hn).
  exists n. rewrite Hn. cbn [bind]. split; [reflexivity|].
  unfold Grid.tilesizes in Hin. cbn [In] in *. intuition.
Qed.

(** X2: [get_tilesize] and [get_tiletype] agree: a sampling that has a tile code
    has the square tile size listed for that code, 1, 3, 6 or 18 degrees, and
    a sampling that has none fails in [get_tilesize] with the same exception;
    the look-up of the size never misses. *)
Theorem get_tilesize_agrees (own : string) (sampling : float) :
  match Grid.get_tiletype own (Some sampling) with
  | Ok c => exists n, Grid.get_tilesize own sampling = Ok (n, n) /\
                      In (c, n) [("T1", 1); ("T3", 3); ("T6", 6); ("T18", 18)]
  | Raise e => Grid.get_tilesize own sampling = Raise e
  end.
Proof.
  destruct (Grid.get_tiletype own (Some sampling)) as [c|e] eqn:E.
  - apply tilesize_of_tiletype, E.
  - unfold Grid.get_tilesize. rewrite E. reflexivity.
Qed.

(** ** Building a grid *)

(** The grid that [LatLonGrid(sampling)] returns, field by field. *)
Lemma new_parts (d : option static_data) (s : float) (grid : LatLonGrid) :
  Grid.new d s = Ok grid ->
  existsb (PrimFloat.eqb s) Grid._static_sampling = true /\
  exists c n code d' data,
    In (c, n) [("T1", 1); ("T3", 3); ("T6", 6); ("T18", 18)] /\
    Grid.get_tiletype "" (Some s) = Ok c /\
    Grid.encode_sampling s = Ok code /\
    d = Some d' /\ lookup "GL" d' = Ok data /\
    grid =
      {| grid_core := built_core "LatLon" s c n;
         subgrids :=
           [("GL", {| subgrid_core := built_core "GL" s c n;
                      name := ("LATLON_GL" ++ code)%string;
                      polygon_wkt := zone_extent data;
                      tilesys := {| core := built_core "GL" s c n |} |})] |}.
Proof.
  unfold Grid.new. intros H.
  destruct d as [d'|]; [|discriminate H].
  destruct (existsb (PrimFloat.eqb s) Grid._static_sampling); [|discriminate H].
  cbn [negb] in H. split; [reflexivity|].
  destruct (Grid.get_tiletype "" (Some s)) as [c|] eqn:Hc; [|discriminate H].
  destruct (tilesize_of_tiletype "" s c Hc) as (n & Hn & Hin).
  cbn [bind] in H. rewrite Hn in H. cbn [bind] in H.
  unfold Grid._static_subgrid_ids, Grid.define_subgrids, Grid.new_subgrid in H.
  destruct (lookup "GL" d') as [data|] eqn:Hd; [|discriminate H].
  cbn [bind sampling] in H.
  destruct (Grid.encode_sampling s) as [code|]; [|discriminate H].
  cbn [bind] in H. injection H as <-.
  exists c, n, code, d', data. repeat split; try reflexivity; assumption.
Qed.

(** X3: what a grid that [LatLonGrid(sampling)] returns looks like: the sampling
    is a supported one, the grid's core carries the tag [LatLon], and the
    only subgrid is [GL], whose core and whose tiling system carry the tag
    [GL], the sampling, its tile code and the square tile size of that code. *)
Theorem new_invariants (d : option static_data) (s : float) (grid : LatLonGrid) :
  Grid.new d s = Ok grid ->
  existsb (PrimFloat.eqb s) Grid._static_sampling = true /\
  exists c n code data,
    In (c, n) [("T1", 1); ("T3", 3); ("T6", 6); ("T18", 18)] /\
    Grid.get_tiletype "" (Some s) = Ok c /\
    Grid.encode_sampling s = Ok code /\
    (exists d', d = Some d' /\ lookup "GL" d' = Ok data) /\
    grid_core grid = built_core "LatLon" s c n /\
    subgrids grid =
      [("GL", {| subgrid_core := built_core "GL" s c n;
                 name := ("LATLON_GL" ++ code)%string;
                 polygon_wkt := zone_extent data;
                 tilesys := {| core := built_core "GL" s c n |} |})].
Proof.
  intros H.
  destruct (new_parts d s grid H) as (Hs & c & n & code & d' & data & Hin & Hc & Hcode & Hd & Hl & ->).
  split; [exact Hs|]. exists c, n, code, data.
  repeat split; try assumption. exists d'. split; assumption.
Qed.

Lemma new_invariants_witness :
  existsb (PrimFloat.eqb 0.0006%float) Grid._static_sampling = true /\
  exists c n code data,
    In (c, n) [("T1", 1); ("T3", 3); ("T6", 6); ("T18", 18)] /\
    Grid.get_tiletype "" (Some 0.0006%float) = Ok c /\
    Grid.encode_sampling 0.0006%float = Ok code /\
    (exists d', Some sample_data = Some d' /\ lookup "GL" d' = Ok data) /\
    grid_core {| grid_core := built_core "LatLon" 0.0006%float "T6" 6;
                 subgrids := [("GL", {| subgrid_core := built_core "GL" 0.0006%float "T6" 6;
                                        name := "LATLON_GL600U";
                                        polygon_wkt := zone_extent sample_GL;
                                        tilesys := {| core := built_core "GL" 0.0006%float "T6" 6 |} |})] |}
    = built_core "LatLon" 0.0006%float c n /\
    subgrids {| grid_core := built_core "LatLon" 0.0006%float "T6" 6;
                subgrids := [("GL", {| subgrid_core := built_core "GL" 0.0006%float "T6" 6;
                                       name := "LATLON_GL600U";
                                       polygon_wkt := zone_extent sample_GL;
                                       tilesys := {| core := built_core "GL" 0.0006%float "T6" 6 |} |})] |}
    = [("GL", {| subgrid_core := built_core "GL" 0.0006%float c n;
                 name := ("LATLON_GL" ++ code)%string;
                 polygon_wkt := zone_extent data;
                 tilesys := {| core := built_core "GL" 0.0006%float c n |} |})].
Proof.
  apply (new_invariants (Some sample_data) 0.0006%float). vm_compute. reflexivity.
Defined.

(** X4: how [LatLonGrid(sampling)] ends: without the ancillary data and for a
    sampling outside the supported list it raises [ValueError]; for a
    supported sampling it raises [KeyError] when the data has no [GL] entry
    and returns a grid when it has one. *)
Theorem new_outcome (d : static_data) (sampling : float) :
  Grid.new None sampling = Raise (ValueError ancillary_data) /\
  (existsb (PrimFloat.eqb sampling) Grid._static_sampling = false ->
   Grid.new (Some d) sampling = Raise (ValueError sampling_not_supported)) /\
  (In sampling Grid._static_sampling ->
   match lookup "GL" d with
   | Ok _ => is_ok (Grid.new (Some d) sampling) = true
   | Raise e => Grid.new (Some d) sampling = Raise (KeyError "GL")
   end).
Proof.
  split; [reflexivity|]. split.
  - intros H. unfold Grid.new. rewrite H. reflexivity.
  - intros Hin. unfold Grid._static_sampling in Hin. cbn [In] in Hin.
    destruct (lookup "GL" d) as [data|e] eqn:Hd.
    + repeat (destruct Hin as [<- | Hin];
        [ match goal with
          | |- is_ok (Grid.new _ ?s) = true =>
              let k := eval vm_compute in (Grid.sampling_scaled s) in
              let c := eval vm_compute in (Grid.get_tiletype "" (Some s)) in
              let code := eval vm_compute in (Grid.encode_sampling s) in
              match constr:((k, c, code)) with
              | (Ok ?k, Ok ?c, Ok ?code) =>
                  let n := eval vm_compute in (lookup c Grid.tilesizes) in
                  match n with
                  | Ok ?n => rewrite (new_built d data Hd s k c n code) by literal_grid;
                             reflexivity
                  end
              end
          end | ]).
      contradiction.
    + assert (He : e = KeyError "GL").
      { clear Hin. induction d as [|[k v] r IH]; cbn [lookup] in Hd.
        - congruence.
        - destruct (String.eqb k "GL"); [discriminate Hd | apply IH, Hd]. }
      subst e.
      repeat (destruct Hin as [<- | Hin];
        [ unfold Grid.new, Grid._static_subgrid_ids, Grid.define_subgrids, Grid.new_subgrid;
          rewrite Hd;
          match goal with
          | |- context [existsb ?f ?l] =>
              let b := eval vm_compute in (existsb f l) in change (existsb f l) with b
          end; cbn [negb];
          match goal with
          | |- context [Grid.get_tiletype ?o ?s] =>
              let c := eval vm_compute in (Grid.get_tiletype o s) in
              change (Grid.get_tiletype o s) with c
          end; cbn [bind];
          match goal with
          | |- context [Grid.get_tilesize ?o ?s] =>
              let c := eval vm_compute in (Grid.get_tilesize o s) in
              change (Grid.get_tilesize o s) with c
          end; reflexivity | ]).
      contradiction.
Qed.

Lemma new_outcome_witness :
  Grid.new (Some []) 0.0006%float = Raise (KeyError "GL") /\
  is_ok (Grid.new (Some sample_data) 0.0006%float) = true /\
  Grid.new (Some sample_data) 0.00025%float = Raise (ValueError sampling_not_supported).
Proof.
  split; [| split].
  - apply (proj2 (proj2 (new_outcome [] 0.0006%float))). cbn. tauto.
  - apply (proj2 (proj2 (new_outcome sample_data 0.0006%float))). cbn. tauto.
  - apply (proj1 (proj2 (new_outcome sample_data 0.00025%float))). vm_compute. reflexivity.
Defined.

(** ** The tile around a point, once more *)

Section LowerLeftUnique.

(** A multiple of the size whose tile holds [x] is the multiple found. *)
Lemma multiple_unique (k a n : Z) (x : Q) :
  0 < n ->
  (inject_Z (k * n) <= x)%Q -> (x < inject_Z (k * n + n))%Q ->
  (inject_Z (a * n) <= x)%Q -> (x < inject_Z (a * n + n))%Q ->
  k = a.
Proof.
  intros Hn Hk1 Hk2 Ha1 Ha2.
  assert (H1 : k * n < a * n + n).
  { rewrite Zlt_Qlt. eapply Qle_lt_trans; eassumption. }
  assert (H2 : a * n < k * n + n).
  { rewrite Zlt_Qlt. eapply Qle_lt_trans; eassumption. }
  nia.
Qed.

(** The square of an aligned corner in range lies within the shifted range. *)
Lemma aligned_below (z n bound : Z) (x : Q) :
  0 < n -> (n | bound) -> z mod n = 0 -> 0 <= z < bound ->
  (inject_Z z <= x)%Q -> (x < inject_Z (z + n))%Q ->
  (0 <= x)%Q /\ (x < inject_Z bound)%Q /\ exists a, z = a * n.
Proof.
  intros Hn [b Hb] Hz Hr Hlo Hhi.
  apply Z.mod_divide in Hz as [a Ha]; [|lia].
  split; [|split; [|exists a; exact Ha]].
  - apply Qle_trans with (inject_Z z); [|exact Hlo].
    change 0%Q with (inject_Z 0). rewrite <- Zle_Qle. lia.
  - apply Qlt_le_trans with (inject_Z (z + n)); [exact Hhi|].
    rewrite <- Zle_Qle. subst z bound.
    assert (a + 1 <= b) by nia. nia.
Qed.

End LowerLeftUnique.

(** X5: a tile is found from any of its points: when the corner [(east, north)]
    is in range and on the tile lattice and the shifted point, as the code
    computes it, lies in the tile of that corner, [round_lonlat2lowerleft]
    answers that corner; in particular it maps a corner given as integers
    to itself. *)
Theorem round_lonlat2lowerleft_finds (self : LatLonTilingSystem) (lon lat : Py.number)
  (x y : Q) (east north : Z) :
  In (TilingSystem.xsize self) [1; 3; 6; 18] -> In (TilingSystem.ysize self) [1; 3; 6; 18] ->
  -180 <= east < 180 -> -90 <= north < 90 ->
  (east + 180) mod TilingSystem.xsize self = 0 ->
  (north + 90) mod TilingSystem.ysize self = 0 ->
  shifted lon 180 = Some x ->
  (inject_Z (east + 180) <= x)%Q ->
  (x < inject_Z (east + 180 + TilingSystem.xsize self))%Q ->
  shifted lat 90 = Some y ->
  (inject_Z (north + 90) <= y)%Q ->
  (y < inject_Z (north + 90 + TilingSystem.ysize self))%Q ->
  (exists ll_lon ll_lat,
     TilingSystem.round_lonlat2lowerleft self lon lat = Ok (ll_lon, ll_lat) /\
     is_integer ll_lon east /\ is_integer ll_lat north) /\
  TilingSystem.round_lonlat2lowerleft self (Py.Int east) (Py.Int north)
  = Ok (Py.Int east, Py.Int north).
Proof.
  intros Hxs Hys He Hn Hea Hna Hsx Hx1 Hx2 Hsy Hy1 Hy2.
  assert (Hdx : 0 < TilingSystem.xsize self /\ (TilingSystem.xsize self | 360)).
  { cbn [In] in Hxs. destruct Hxs as [<-|[<-|[<-|[<-|[]]]]]; (split; [lia|]);
      match goal with |- (?a | ?b) => exists (b / a); reflexivity end. }
  assert (Hdy : 0 < TilingSystem.ysize self /\ (TilingSystem.ysize self | 180)).
  { cbn [In] in Hys. destruct Hys as [<-|[<-|[<-|[<-|[]]]]]; (split; [lia|]);
      match goal with |- (?a | ?b) => exists (b / a); reflexivity end. }
  destruct Hdx as [Hxp Hxd]. destruct Hdy as [Hyp Hyd].
  destruct (aligned_below (east + 180) _ 360 x Hxp Hxd Hea ltac:(lia) Hx1 Hx2)
    as (Hx0 & Hx360 & a & Ha).
  destruct (aligned_below (north + 90) _ 180 y Hyp Hyd Hna ltac:(lia) Hy1 Hy2)
    as (Hy0 & Hy180 & b & Hb).
  split.
  - destruct (corner_of_point self lon lat x y Hxs Hys Hsx Hx0 Hx360 Hsy Hy0 Hy180)
      as (ll_lon & ll_lat & kx & ky & Hr & _ & Hix & _ & Hiy & Hlx & Hux & Hly & Huy).
    exists ll_lon, ll_lat. split; [exact Hr|].
    rewrite Ha in Hx1, Hx2. rewrite Hb in Hy1, Hy2.
    pose proof (multiple_unique kx a _ x Hxp Hlx Hux Hx1 Hx2) as ->.
    pose proof (multiple_unique ky b _ y Hyp Hly Huy Hy1 Hy2) as ->.
    replace east with (a * TilingSystem.xsize self - 180) by lia.
    replace north with (b * TilingSystem.ysize self - 90) by lia.
    split; assumption.
  - unfold TilingSystem.round_lonlat2lowerleft, Py.add, Py.sub, Py.mul, Py.floordiv, Py.arith.
    cbn [bind].
    replace (TilingSystem.xsize self =? 0) with false by (symmetry; apply Z.eqb_neq; lia).
    replace (TilingSystem.ysize self =? 0) with false by (symmetry; apply Z.eqb_neq; lia).
    cbn [bind]. rewrite Ha, Hb, !Z.div_mul by lia. rewrite <- Ha, <- Hb.
    do 2 f_equal; f_equal; lia.
Qed.

Lemma round_lonlat2lowerleft_finds_witness :
  let self := {| core := built_core "GL" 0.0006%float "T6" 6 |} in
  let lon := Py.Float (-71.3456)%float in
  let lat := Py.Float (-1.5432)%float in
  exists x y,
    shifted lon 180 = Some x /\ shifted lat 90 = Some y /\
    (exists ll_lon ll_lat,
       TilingSystem.round_lonlat2lowerleft self lon lat = Ok (ll_lon, ll_lat) /\
       is_integer ll_lon (-72) /\ is_integer ll_lat (-6)) /\
    TilingSystem.round_lonlat2lowerleft self (Py.Int (-72)) (Py.Int (-6))
    = Ok (Py.Int (-72), Py.Int (-6)).
Proof.
  intros self lon lat.
  set (x := match shifted lon 180 with Some v => v | None => 0%Q end).
  set (y := match shifted lat 90 with Some v => v | None => 0%Q end).
  exists x, y. split; [vm_compute; reflexivity|]. split; [vm_compute; reflexivity|].
  apply (round_lonlat2lowerleft_finds self lon lat x y (-72) (-6)).
  - cbn. tauto.
  - cbn. tauto.
  - lia.
  - lia.
  - reflexivity.
  - reflexivity.
  - vm_compute. reflexivity.
  - vm_compute. discriminate.
  - vm_compute. reflexivity.
  - vm_compute. reflexivity.
  - vm_compute. discriminate.
  - vm_compute. reflexivity.
Defined.

(** ** What a decoded name guarantees *)

(** One step through [decode_tilename] under the assumption that it
    succeeds: a call that returned, or a test that passed. *)
Ltac decoded_step H :=
  match type of H with
  | bind ?r _ = Ok _ =>
      let E := fresh "E" in destruct r eqn:E; [cbn [bind] in H | discriminate H]
  | (if negb ?b then _ else _) = Ok _ =>
      let E := fresh "E" in destruct b eqn:E; [cbn [negb] in H | discriminate H]
  end.

(** Everything the tests of [decode_tilename] establish on the way to a
    result, with the slices of the name they were established on. *)
Lemma decoded_parts (self : LatLonTilingSystem) (tilename : string)
  (id : string) (s : float) (size east north : Z) (c : string) :
  TilingSystem.decode_tilename self tilename = Ok (id, s, size, east, north, c) ->
  id = tag (core self) /\
  size = TilingSystem.xsize self /\
  c = tiletype (core self) /\
  c = String "T" (Py.split_last "T" tilename) /\
  Py.int (Py.split_last "T" tilename) = Ok size /\
  east mod TilingSystem.ysize self = 0 /\
  north mod TilingSystem.ysize self = 0 /\
  ((In (Py.len tilename) [10; 11]%nat /\ s = sampling (core self) /\
    Py.int (Py.slice 1 4 tilename) = Ok (east + 180) /\
    Py.int (Py.slice 5 8 tilename) = Ok (north + 90)) \/
   (In (Py.len tilename) [17; 18]%nat /\ Py.slice 0 2 tilename = id /\
    Grid.decode_sampling (Py.slice 2 6 tilename) = Ok s /\
    Py.isclose s (sampling (core self)) = true /\
    Py.int (Py.slice 8 11 tilename) = Ok (east + 180) /\
    Py.int (Py.slice 12 15 tilename) = Ok (north + 90))).
Proof.
  unfold TilingSystem.decode_tilename. intros H. cbn zeta in H.
  destruct ((Py.len tilename =? 10)%nat || (Py.len tilename =? 11)%nat) eqn:Eshort;
    [| destruct ((Py.len tilename =? 17)%nat || (Py.len tilename =? 18)%nat) eqn:Elong;
       [| discriminate H]];
    repeat decoded_step H; injection H as <- <- <- <- <- <-;
    repeat match goal with
    | E : (_ =? _) = true |- _ => apply Z.eqb_eq in E
    | E : String.eqb _ _ = true |- _ => apply String.eqb_eq in E
    end.
  - repeat split; try congruence; try assumption.
    left. repeat split; try (f_equal; lia).
    apply orb_true_iff in Eshort as [L|L]; apply Nat.eqb_eq in L; rewrite L; cbn; tauto.
  - repeat split; try congruence; try assumption.
    right. repeat split; try assumption; try (f_equal; lia);
      try (match goal with E : ?x = Ok ?z |- ?x = Ok _ => rewrite E; f_equal; lia end).
    apply orb_true_iff in Elong as [L|L]; apply Nat.eqb_eq in L; rewrite L; cbn; tauto.
Qed.

(** X6: a name that [decode_tilename] accepts agrees with the tiling system: it
    has 10 or 11 characters, or 17 or 18; the tag, the tile size and the tile
    code returned are the system's; both corner coordinates are multiples of
    the tile size; and the sampling returned is the system's own for a short
    name, and the decoded sampling code, close to the system's sampling, for
    a long name. *)
Theorem decode_tilename_sound (self : LatLonTilingSystem) (tilename : string)
  (id : string) (s : float) (size east north : Z) (c : string) :
  TilingSystem.decode_tilename self tilename = Ok (id, s, size, east, north, c) ->
  id = tag (core self) /\
  size = TilingSystem.xsize self /\
  c = tiletype (core self) /\
  east mod TilingSystem.ysize self = 0 /\
  north mod TilingSystem.ysize self = 0 /\
  ((In (Py.len tilename) [10; 11]%nat /\ s = sampling (core self)) \/
   (In (Py.len tilename) [17; 18]%nat /\
    Grid.decode_sampling (Py.slice 2 6 tilename) = Ok s /\
    Py.isclose s (sampling (core self)) = true)).
Proof.
  intros H.
  destruct (decoded_parts self _ _ _ _ _ _ _ H)
    as (Hid & Hsize & Hc & _ & _ & He & Hn & [(Hin & Hs & _) | (Hin & _ & Hd & Hclose & _)]).
  - repeat split; try assumption. left. split; assumption.
  - repeat split; try assumption. right. repeat split; assumption.
Qed.

Lemma decode_tilename_sound_witness :
  let self := {| core := built_core "GL" 0.01%float "T18" 18 |} in
  let tilename := "GL010M_E072N036T18" in
  "GL" = tag (core self) /\
  18 = TilingSystem.xsize self /\
  "T18" = tiletype (core self) /\
  (-108) mod TilingSystem.ysize self = 0 /\
  (-54) mod TilingSystem.ysize self = 0 /\
  ((In (Py.len tilename) [10; 11]%nat /\ 0.01%float = sampling (core self)) \/
   (In (Py.len tilename) [17; 18]%nat /\
    Grid.decode_sampling (Py.slice 2 6 tilename) = Ok 0.01%float /\
    Py.isclose 0.01%float (sampling (core self)) = true)).
Proof.
  intros self tilename.
  apply (decode_tilename_sound self tilename "GL" 0.01%float 18 (-108) (-54) "T18").
  vm_compute. reflexivity.
Defined.

(** ** Tiles and land *)

(** X7: how [check_tile_covers_land] ends.  The land tiles are fetched first, so
    a data set without the system's entries fails before the name is looked
    at; then a name that does not decode fails as in [decode_tilename]; a name
    that decodes gives a boolean, membership of its last ten characters, when
    it has 17 characters, and [UnboundLocalError] otherwise.  The function
    never returns [None]. *)
Theorem check_tile_covers_land_outcome (d : option static_data)
  (self : LatLonTilingSystem) (tilename : string) :
  TilingSystem.check_tile_covers_land d self tilename <> Ok None /\
  match TilingSystem.list_tiles_covering_land d self with
  | Raise e => TilingSystem.check_tile_covers_land d self tilename = Raise e
  | Ok land_tiles =>
      match TilingSystem.decode_tilename self tilename with
      | Raise e => TilingSystem.check_tile_covers_land d self tilename = Raise e
      | Ok _ =>
          if (Py.len tilename =? 17)%nat
          then TilingSystem.check_tile_covers_land d self tilename
               = Ok (Some (TilingSystem.member (Py.slice_from 7 tilename) land_tiles)) /\
               Py.len (Py.slice_from 7 tilename) = 10%nat
          else TilingSystem.check_tile_covers_land d self tilename
               = Raise (UnboundLocalError "shortform")
      end
  end.
Proof.
  unfold TilingSystem.check_tile_covers_land, TilingSystem.tilename2short,
    TilingSystem.check_tilename.
  destruct (TilingSystem.list_tiles_covering_land d self) as [land|e]; cbn [bind];
    [| split; [discriminate | reflexivity]].
  destruct (TilingSystem.decode_tilename self tilename) as [r|e]; cbn [bind];
    [| split; [discriminate | reflexivity]].
  destruct (Nat.eqb_spec (Py.len tilename) 17) as [L|L].
  - split; [discriminate|]. split; [reflexivity|]. rewrite len_slice_from, L. reflexivity.
  - split; [discriminate | reflexivity].
Qed.

(** How [create_tile] arrives at a tile: the corner it settled on, the long
    name encoded from the corner, which has 17 characters and decodes, and the
    land tiles the last ten characters of the name were looked up in. *)
Lemma created_parts (d : option static_data) (self : LatLonTilingSystem)
  (name : option string) (lon lat : option Py.number) (tile : LatLonTile) :
  TilingSystem.create_tile d self name lon lat = Ok tile ->
  exists x y n land r,
    TilingSystem._encode_tilename self x y false = Ok n /\
    Py.len n = 17%nat /\
    TilingSystem.decode_tilename self n = Ok r /\
    TilingSystem.list_tiles_covering_land d self = Ok land /\
    tile = {| tile_core := core self; tile_name := n; ll_lon := x; ll_lat := y;
              covers_land := Some (TilingSystem.member (Py.slice_from 7 n) land) |}.
Proof.
  unfold TilingSystem.create_tile. intros H.
  destruct (match lon, lat, name with
            | Some lon0, Some lat0, None => _
            | _, _, _ => _ end) as [[x y]|]; [|discriminate H].
  cbn [bind] in H.
  destruct (TilingSystem._encode_tilename self x y false) as [n|] eqn:En; [|discriminate H].
  cbn [bind] in H.
  unfold TilingSystem.check_tile_covers_land, TilingSystem.tilename2short,
    TilingSystem.check_tilename in H.
  destruct (TilingSystem.list_tiles_covering_land d self) as [land|]; [|discriminate H].
  cbn [bind] in H.
  destruct (TilingSystem.decode_tilename self n) as [r|] eqn:Ed; [|discriminate H].
  cbn [bind] in H.
  destruct (Nat.eqb_spec (Py.len n) 17) as [L|L]; [|discriminate H].
  cbn [bind] in H. injection H as <-.
  exists x, y, n, land, r. repeat split; assumption.
Qed.

(** X8: what a tile that [create_tile] returns carries: the core of the tiling
    system; a long name of 17 characters that is the encoding of the tile's
    corner and decodes on the system; and a land flag that is a boolean,
    membership of the tile's short name in the land tiles of the system. *)
Theorem create_tile_result (d : option static_data) (self : LatLonTilingSystem)
  (name : option string) (lon lat : option Py.number) (tile : LatLonTile) :
  TilingSystem.create_tile d self name lon lat = Ok tile ->
  tile_core tile = core self /\
  TilingSystem._encode_tilename self (ll_lon tile) (ll_lat tile) false = Ok (tile_name tile) /\
  Py.len (tile_name tile) = 17%nat /\
  is_ok (TilingSystem.decode_tilename self (tile_name tile)) = true /\
  Py.len (shortname tile) = 10%nat /\
  exists land_tiles,
    TilingSystem.list_tiles_covering_land d self = Ok land_tiles /\
    covers_land tile = Some (TilingSystem.member (shortname tile) land_tiles).
Proof.
  intros H.
  destruct (created_parts d self name lon lat tile H)
    as (x & y & n & land & r & Henc & Hlen & Hdec & Hland & ->).
  unfold shortname. cbn [tile_core tile_name ll_lon ll_lat covers_land].
  rewrite Hdec, len_slice_from, Hlen.
  repeat split; try assumption.
  exists land. split; [assumption | reflexivity].
Qed.

Lemma create_tile_result_witness :
  let self := {| core := built_core "GL" 0.0006%float "T6" 6 |} in
  let tile := {| tile_core := core self; tile_name := "GL600U_E012N042T6";
                 ll_lon := Py.Int (-168); ll_lat := Py.Int (-48);
                 covers_land := Some true |} in
  tile_core tile = core self /\
  TilingSystem._encode_tilename self (ll_lon tile) (ll_lat tile) false = Ok (tile_name tile) /\
  Py.len (tile_name tile) = 17%nat /\
  is_ok (TilingSystem.decode_tilename self (tile_name tile)) = true /\
  Py.len (shortname tile) = 10%nat /\
  exists land_tiles,
    TilingSystem.list_tiles_covering_land (Some sample_data) self = Ok land_tiles /\
    covers_land tile = Some (TilingSystem.member (shortname tile) land_tiles).
Proof.
  intros self tile.
  apply (create_tile_result (Some sample_data) self (Some "E012N042T6") None None tile).
  vm_compute. reflexivity.
Defined.

(** The names of [encode_tilename] are long: with a tag of at least two
    characters the long form has at least 15 characters besides the tile
    code. *)
Lemma encode_tilename_long_length (self : LatLonTilingSystem) (x y : Py.number)
  (s : float) (c n : string) :
  TilingSystem.encode_tilename self x y s c false = Ok n ->
  (Py.len (tag (core self)) + 13 + Py.len c <= Py.len n)%nat.
Proof.
  unfold TilingSystem.encode_tilename. intros H.
  destruct (Grid.encode_sampling s) as [code|] eqn:Ec; [|discriminate H].
  cbn [bind] in H.
  destruct (Py.int_of_number x) as [east|]; [|discriminate H]. cbn [bind] in H.
  destruct (Py.int_of_number y) as [north|]; [|discriminate H]. cbn [bind] in H.
  injection H as <-.
  pose proof (encode_sampling_len s code Ec) as Hc.
  pose proof (len_format_03d (east + 180)).
  pose proof (len_format_03d (north + 90)).
  rewrite !len_app, Hc.
  repeat (change (Py.len (String ?a ?r)) with (S (Py.len r)); rewrite ?len_app).
  lia.
Qed.

Lemma len_slice_0_2 (s : string) : (2 <= Py.len s)%nat -> Py.len (Py.slice 0 2 s) = 2%nat.
Proof.
  destruct s as [|a [|b r]]; cbn; intros H; try lia. destruct r; reflexivity.
Qed.

(** A system on which [create_tile] returns a tile has a tag of two
    characters and a tile code of two at most: its long names have 17
    characters. *)
Lemma created_code_length (d : option static_data) (self : LatLonTilingSystem)
  (name : option string) (lon lat : option Py.number) (tile : LatLonTile) :
  TilingSystem.create_tile d self name lon lat = Ok tile ->
  (Py.len (tiletype (core self)) <= 2)%nat.
Proof.
  intros H.
  destruct (created_parts d self name lon lat tile H)
    as (x & y & n & land & [[[[[id s] size] east] north] c] & Henc & Hlen & Hdec & _).
  apply encode_tilename_long_length in Henc.
  destruct (decoded_parts self _ _ _ _ _ _ _ Hdec)
    as (Hid & _ & _ & _ & _ & _ & _ & [(Hin & _) | (_ & Hslice & _)]).
  - rewrite Hlen in Hin. cbn in Hin. intuition discriminate.
  - assert (Py.len (tag (core self)) = 2%nat).
    { rewrite <- Hid, <- Hslice. apply len_slice_0_2. lia. }
    lia.
Qed.

(** X9: on a tiling system whose tile code has three characters or more, as T18
    has, [create_tile] returns no tile, whatever its arguments: the long name
    of such a system has 18 characters at least, and the land look-up shortens
    only names of 17. *)
Theorem create_tile_never_on_T18 (d : option static_data) (self : LatLonTilingSystem)
  (name : option string) (lon lat : option Py.number) :
  (3 <= Py.len (tiletype (core self)))%nat ->
  is_ok (TilingSystem.create_tile d self name lon lat) = false.
Proof.
  intros Hcode.
  destruct (TilingSystem.create_tile d self name lon lat) as [tile|] eqn:E; [|reflexivity].
  apply created_code_length in E. lia.
Qed.

Lemma create_tile_never_on_T18_witness :
  is_ok (TilingSystem.create_tile (Some sample_data)
           {| core := built_core "GL" 0.01%float "T18" 18 |}
           (Some "GL010M_E072N036T18") None None) = false.
Proof.
  apply create_tile_never_on_T18. cbn. lia.
Defined.

(** ** From the long name to the short name *)

Section Shortening.

Lemma after_last_none (sep : ascii) (s : string) :
  Py.after_last sep s = None -> Py.contains sep s = false.
Proof.
  induction s as [|c r IH]; cbn [Py.after_last Py.contains]; [reflexivity|].
  destruct (Py.after_last sep r); [discriminate|].
  destruct (Ascii.eqb c sep); [discriminate|]. intros _. apply IH. reflexivity.
Qed.

(** The text after the last separator, and what is before it. *)
Lemma after_last_split (sep : ascii) (s u : string) :
  Py.after_last sep s = Some u ->
  exists p, s = (p ++ String sep u)%string /\ Py.contains sep u = false.
Proof.
  revert u. induction s as [|c r IH]; cbn [Py.after_last]; intros u H; [discriminate H|].
  destruct (Py.after_last sep r) as [t|] eqn:E.
  - injection H as <-. destruct (IH t eq_refl) as (p & -> & Hu).
    exists (String c p). split; [reflexivity | exact Hu].
  - destruct (Ascii.eqb_spec c sep) as [->|]; [|discriminate H].
    injection H as <-. exists EmptyString. split; [reflexivity | apply after_last_none, E].
Qed.

Lemma after_last_app (sep : ascii) (p u : string) :
  Py.contains sep u = false -> Py.after_last sep (p ++ String sep u) = Some u.
Proof.
  intros Hu. induction p as [|c p IH]; cbn [append].
  - apply after_last_here, Hu.
  - apply after_last_later, IH.
Qed.

Lemma slice_from_app (k : nat) (p q : string) :
  (k <= Py.len p)%nat -> Py.slice_from k (p ++ q) = (Py.slice_from k p ++ q)%string.
Proof.
  unfold Py.len. revert p. induction k as [|k IH]; intros p Hk; [reflexivity|].
  destruct p as [|c p]; cbn [String.length] in Hk; [lia|].
  cbn [append Py.slice_from]. apply IH. lia.
Qed.

Lemma substring_empty (a m : nat) : substring a m EmptyString = EmptyString.
Proof. destruct a, m; reflexivity. Qed.

Lemma substring_slice_from (k a m : nat) (s : string) :
  substring a m (Py.slice_from k s) = substring (k + a) m s.
Proof.
  revert s. induction k as [|k IH]; intros s; [reflexivity|].
  destruct s as [|c r]; cbn [Py.slice_from Nat.add].
  - rewrite !substring_empty. reflexivity.
  - rewrite IH. reflexivity.
Qed.

(** Cutting seven characters off a name of 17 keeps what follows its last
    separator, as long as that is short enough to lie in the part kept. *)
Lemma split_last_slice_from (sep : ascii) (s : string) :
  Py.len s = 17%nat -> (Py.len (Py.split_last sep s) <= 9)%nat ->
  Py.split_last sep (Py.slice_from 7 s) = Py.split_last sep s.
Proof.
  unfold Py.split_last. intros Hlen Hu.
  destruct (Py.after_last sep s) as [u|] eqn:E; [|lia].
  destruct (after_last_split sep s u E) as (p & -> & Hplain).
  rewrite len_app in Hlen. change (Py.len (String sep u)) with (S (Py.len u)) in Hlen.
  rewrite slice_from_app by lia.
  rewrite (after_last_app sep _ u Hplain). reflexivity.
Qed.

End Shortening.

(** The last ten characters of a long name of 17 that decodes, decoded on
    their own. *)
Lemma shortened_decodes (self : LatLonTilingSystem) (longform : string)
  (id : string) (s : float) (size east north : Z) (c : string) :
  (Py.len (tiletype (core self)) <= 10)%nat ->
  Py.len longform = 17%nat ->
  TilingSystem.decode_tilename self longform = Ok (id, s, size, east, north, c) ->
  TilingSystem.decode_tilename self (Py.slice_from 7 longform)
  = Ok (tag (core self), sampling (core self), size, east, north, c).
Proof.
  intros Hcode L Ed.
  destruct (decoded_parts self _ _ _ _ _ _ _ Ed)
    as (Hid & Hsize & Hc & Hsfx & Hint & He & Hn & [(Hin & _) | (_ & _ & _ & _ & Hx & Hy)]).
  { rewrite L in Hin. cbn in Hin. intuition discriminate. }
  assert (Hsame : Py.split_last "T" (Py.slice_from 7 longform) = Py.split_last "T" longform).
  { apply split_last_slice_from; [exact L|].
    rewrite Hc in Hsfx. rewrite Hsfx in Hcode.
    change (Py.len (String "T" ?r)) with (S (Py.len r)) in Hcode. lia. }
  unfold TilingSystem.decode_tilename.
  rewrite len_slice_from, L. cbn [Nat.sub Nat.eqb orb].
  rewrite Hsame, Hint. cbn [bind].
  rewrite <- Hsize, Z.eqb_refl. cbn [negb].
  change (Py.slice 1 4 (Py.slice_from 7 longform))
    with (substring 1 3 (Py.slice_from 7 longform)).
  change (Py.slice 5 8 (Py.slice_from 7 longform))
    with (substring 5 3 (Py.slice_from 7 longform)).
  rewrite !substring_slice_from.
  change (substring (7 + 1) 3 longform) with (Py.slice 8 11 longform).
  change (substring (7 + 5) 3 longform) with (Py.slice 12 15 longform).
  rewrite Hx, Hy. cbn [bind].
  replace (east + 180 - 180) with east by lia.
  replace (north + 90 - 90) with north by lia.
  rewrite He, Hn. cbn [Z.eqb negb].
  rewrite <- Hsfx, Hc, String.eqb_refl. reflexivity.
Qed.

(** X10: the short name that [tilename2short] cuts from a long name is the same
    tile: it has ten characters, and on a system whose tile code has at most
    ten characters it decodes to the tile size, the corner and the tile code
    that the long name decodes to, with the tag and the sampling of the
    system. *)
Theorem tilename2short_same_tile (self : LatLonTilingSystem) (longform short : string) :
  (Py.len (tiletype (core self)) <= 10)%nat ->
  TilingSystem.tilename2short self longform = Ok short ->
  short = Py.slice_from 7 longform /\ Py.len short = 10%nat /\
  exists id s size east north c,
    TilingSystem.decode_tilename self longform = Ok (id, s, size, east, north, c) /\
    TilingSystem.decode_tilename self short
    = Ok (tag (core self), sampling (core self), size, east, north, c).
Proof.
  intros Hcode H.
  unfold TilingSystem.tilename2short, TilingSystem.check_tilename in H.
  destruct (TilingSystem.decode_tilename self longform)
    as [[[[[[id s] size] east] north] c]|] eqn:Ed; [|discriminate H].
  cbn [bind] in H.
  destruct (Nat.eqb_spec (Py.len longform) 17) as [L|L]; [|discriminate H].
  cbv beta iota zeta in H.
  assert (Hs : Py.slice_from 7 longform = short) by congruence.
  clear H. subst short.
  split; [reflexivity|]. split; [rewrite len_slice_from, L; reflexivity|].
  exists id, s, size, east, north, c. split; [reflexivity|].
  apply (shortened_decodes self longform id s size east north c Hcode L Ed).
Qed.

Lemma tilename2short_same_tile_witness :
  let self := {| core := built_core "GL" 0.0006%float "T6" 6 |} in
  "E012N042T6" = Py.slice_from 7 "GL600U_E012N042T6" /\ Py.len "E012N042T6" = 10%nat /\
  exists id s size east north c,
    TilingSystem.decode_tilename self "GL600U_E012N042T6" = Ok (id, s, size, east, north, c) /\
    TilingSystem.decode_tilename self "E012N042T6"
    = Ok (tag (core self), sampling (core self), size, east, north, c).
Proof.
  intros self.
  apply (tilename2short_same_tile self "GL600U_E012N042T6" "E012N042T6").
  - cbn. lia.
  - vm_compute. reflexivity.
Defined.

(** X11: both names of a tile that [create_tile] returns decode to the same tile
    size, corner and tile code: the short name is a name of the tile too. *)
Theorem created_tile_names_agree (d : option static_data) (self : LatLonTilingSystem)
  (name : option string) (lon lat : option Py.number) (tile : LatLonTile) :
  TilingSystem.create_tile d self name lon lat = Ok tile ->
  exists id s size east north c,
    TilingSystem.decode_tilename self (tile_name tile) = Ok (id, s, size, east, north, c) /\
    TilingSystem.decode_tilename self (shortname tile)
    = Ok (tag (core self), sampling (core self), size, east, north, c).
Proof.
  intros H.
  pose proof (created_code_length d self name lon lat tile H) as Hcode.
  destruct (created_parts d self name lon lat tile H)
    as (x & y & n & land & [[[[[id s] size] east] north] c] & _ & Hlen & Hdec & _ & ->).
  unfold shortname. cbn [tile_name].
  exists id, s, size, east, north, c. split; [exact Hdec|].
  apply (shortened_decodes self n id s size east north c); [lia | exact Hlen | exact Hdec].
Qed.

Lemma created_tile_names_agree_witness :
  let self := {| core := built_core "GL" 0.0006%float "T6" 6 |} in
  let tile := {| tile_core := core self; tile_name := "GL600U_E012N042T6";
                 ll_lon := Py.Int (-168); ll_lat := Py.Int (-48);
                 covers_land := Some true |} in
  exists id s size east north c,
    TilingSystem.decode_tilename self (tile_name tile) = Ok (id, s, size, east, north, c) /\
    TilingSystem.decode_tilename self (shortname tile)
    = Ok (tag (core self), sampling (core self), size, east, north, c).
Proof.
  intros self tile.
  apply (created_tile_names_agree (Some sample_data) self (Some "E012N042T6") None None tile).
  vm_compute. reflexivity.
Defined.

(** ** Points, corners and tiles on a well-named system *)

Section Corners.

Variable self : LatLonTilingSystem.
Variable s' : float.
Hypothesis named : well_named self = Some s'.

Variables east north : Z.
Hypothesis east_range : -180 <= east < 180.
Hypothesis north_range : -90 <= north < 90.
Hypothesis east_aligned : east mod TilingSystem.xsize self = 0.
Hypothesis north_aligned : north mod TilingSystem.ysize self = 0.

(** The names of the tile at an aligned corner: the long one always, the
    short one when the tile code has two characters. *)
Lemma names_of_corner :
  exists long short,
    TilingSystem.encode_tilename self (Py.Int east) (Py.Int north)
      (sampling (core self)) (tiletype (core self)) false = Ok long /\
    TilingSystem.decode_tilename self long
    = Ok (tag (core self), s', TilingSystem.xsize self, east, north, tiletype (core self)) /\
    Py.len long = (15 + Py.len (tiletype (core self)))%nat /\
    short = Py.slice_from 7 long /\
    (Py.len (tiletype (core self)) = 2%nat ->
     TilingSystem.encode_tilename self (Py.Int east) (Py.Int north)
       (sampling (core self)) (tiletype (core self)) true = Ok short /\
     TilingSystem.decode_tilename self short
     = Ok (tag (core self), sampling (core self), TilingSystem.xsize self, east, north,
           tiletype (core self))).
Proof.
  destruct (well_named_parts self s' named)
    as (a & b & c1 & c2 & c3 & c4 & sfx & n & Htag & Hcode & Hback & Hclose & Htype &
        Hplain & Hn & Hx & Hy & Hlen).
  rewrite Hx in *. rewrite Hy in *.
  exists (long_name a b (String c1 (String c2 (String c3 (String c4 EmptyString)))) sfx
            east north),
         (short_name sfx east north).
  split; [apply (encode_long self a b c1 c2 c3 c4 sfx); assumption|].
  split; [apply (decode_long self a b c1 c2 c3 c4 sfx n s'); assumption|].
  split; [rewrite Htype; reflexivity|].
  split; [reflexivity|].
  intros Hcode2.
  assert (L : Py.len sfx = 1%nat) by (rewrite Htype in Hcode2; injection Hcode2; auto).
  split.
  - apply (encode_short self a b c1 c2 c3 c4 sfx n s'); assumption.
  - apply (decode_short self sfx n); auto.
Qed.

End Corners.

Section Points.

(** [encode_tilename] reads its corner through [int(...)] only. *)
Lemma encode_tilename_int (self : LatLonTilingSystem) (x y : Py.number) (east north : Z)
  (s : float) (c : string) (shortform : bool) :
  Py.int_of_number x = Ok east -> Py.int_of_number y = Ok north ->
  TilingSystem.encode_tilename self x y s c shortform
  = TilingSystem.encode_tilename self (Py.Int east) (Py.Int north) s c shortform.
Proof.
  intros Hx Hy. unfold TilingSystem.encode_tilename.
  cbn [Py.int_of_number]. rewrite Hx, Hy. reflexivity.
Qed.

(** The corner found under a shifted coordinate below [2 * off]: in range
    and aligned when the size divides the shift. *)
Lemma corner_in_range (k n off : Z) (x : Q) :
  0 < n -> (n | off) -> 0 <= k ->
  (inject_Z (k * n) <= x)%Q -> (x < inject_Z (2 * off))%Q ->
  - off <= k * n - off < off /\ (k * n - off) mod n = 0.
Proof.
  intros Hn [b Hb] Hk Hlo Hhi.
  assert (H : k * n < 2 * off).
  { rewrite Zlt_Qlt. eapply Qle_lt_trans; eassumption. }
  split; [nia|]. apply Z.mod_divide; [lia|]. exists (k - b). lia.
Qed.

End Points.

Section TileAtCorner.

Variable d : option static_data.
Variable self : LatLonTilingSystem.
Variable s' : float.
Variable land_tiles : list string.
Hypothesis named : well_named self = Some s'.
Hypothesis two : Py.len (tiletype (core self)) = 2%nat.
Hypothesis land : TilingSystem.list_tiles_covering_land d self = Ok land_tiles.

Variables east north : Z.
Hypothesis east_range : -180 <= east < 180.
Hypothesis north_range : -90 <= north < 90.
Hypothesis east_aligned : east mod TilingSystem.xsize self = 0.
Hypothesis north_aligned : north mod TilingSystem.ysize self = 0.

(** The second half of [create_tile], from the corner on. *)
Lemma tile_at_corner (x y : Py.number) :
  Py.int_of_number x = Ok east -> Py.int_of_number y = Ok north ->
  exists long,
    TilingSystem._encode_tilename self x y false = Ok long /\
    TilingSystem.decode_tilename self long
    = Ok (tag (core self), s', TilingSystem.xsize self, east, north, tiletype (core self)) /\
    TilingSystem.decode_tilename self (Py.slice_from 7 long)
    = Ok (tag (core self), sampling (core self), TilingSystem.xsize self, east, north,
          tiletype (core self)) /\
    (do name <- TilingSystem._encode_tilename self x y false ;;
     do covers_land <- TilingSystem.check_tile_covers_land d self name ;;
     Ok {| tile_core := core self; tile_name := name; ll_lon := x; ll_lat := y;
           covers_land := covers_land |})
    = Ok {| tile_core := core self; tile_name := long; ll_lon := x; ll_lat := y;
            covers_land := Some (TilingSystem.member (Py.slice_from 7 long) land_tiles) |}.
Proof.
  intros Hx Hy.
  destruct (names_of_corner self s' named east north east_range north_range
              east_aligned north_aligned)
    as (long & short & Henc & Hdec & Hlen & Hshort & Htwo).
  destruct (Htwo two) as [_ Hdshort]. subst short.
  exists long. unfold TilingSystem._encode_tilename.
  rewrite (encode_tilename_int self x y east north _ _ _ Hx Hy), Henc.
  split; [reflexivity|]. split; [exact Hdec|]. split; [exact Hdshort|].
  cbn [bind].
  unfold TilingSystem.check_tile_covers_land, TilingSystem.tilename2short,
    TilingSystem.check_tilename.
  rewrite land. cbn [bind]. rewrite Hdec. cbn [bind]. rewrite Hlen, two. reflexivity.
Qed.

End TileAtCorner.

(** What the tiling system of a supported sampling other than [0.0016] is:
    well named, with the tag [GL], the sampling, and a tile code and a square
    tile size that belong together. *)
Lemma built_system_named (d : static_data) (data : subgrid_data) (s : float)
  (self : LatLonTilingSystem) :
  lookup "GL" d = Ok data ->
  In s Grid._static_sampling -> s <> 0.0016%float ->
  GL_tilesys (Some d) s = Ok self ->
  exists s' n,
    well_named self = Some s' /\ recode s = Ok s' /\
    tag (core self) = "GL" /\ sampling (core self) = s /\
    TilingSystem.xsize self = n /\ TilingSystem.ysize self = n /\
    In (tiletype (core self), n) [("T1", 1); ("T3", 3); ("T6", 6); ("T18", 18)].
Proof.
  intros Hd Hin Hs Hself.
  unfold Grid._static_sampling in Hin. cbn [In] in Hin.
  repeat (destruct Hin as [<- | Hin];
    [ first
        [ exfalso; apply Hs; reflexivity
        | built_system Hd Hself;
          eexists; eexists;
          split; [vm_compute; reflexivity|];
          split; [vm_compute; reflexivity|];
          repeat (split; [reflexivity|]);
          cbn; tauto ]
    | ]).
  contradiction.
Qed.

Lemma size_divides (c : string) (n : Z) :
  In (c, n) [("T1", 1); ("T3", 3); ("T6", 6); ("T18", 18)] ->
  0 < n /\ (n | 180) /\ (n | 90) /\ (c = "T18" \/ Py.len c = 2%nat).
Proof.
  cbn [In]. intros [H|[H|[H|[H|[]]]]]; injection H as <- <-;
    (split; [lia|]);
    (split; [match goal with |- (?a | ?b) => exists (b / a); reflexivity end|]);
    (split; [match goal with |- (?a | ?b) => exists (b / a); reflexivity end|]);
    solve [left; reflexivity | right; reflexivity].
Qed.

(** The land tiles of a system with the tag [GL]. *)
Lemma land_of_GL (d : static_data) (data : subgrid_data) (self : LatLonTilingSystem) :
  lookup "GL" d = Ok data -> tag (core self) = "GL" ->
  TilingSystem.list_tiles_covering_land (Some d) self
  = lookup (tiletype (core self)) (coverland data).
Proof.
  intros Hd Htag. unfold TilingSystem.list_tiles_covering_land. rewrite Htag, Hd. reflexivity.
Qed.

(** X12: on the tiling system of every supported sampling other than [0.0016],
    for a point whose shifts [lon + 180] and [lat + 90], as the code computes
    them, are [x] in [[0, 360)] and [y] in [[0, 180)]: the name that
    [point2tilename] gives the point decodes to the tile whose square holds
    the shifted point; it holds the point itself when the point is given in
    integers. *)
Theorem point2tilename_names_enclosing_tile (d : static_data) (data : subgrid_data)
  (s : float) (self : LatLonTilingSystem) (lon lat : Py.number) (x y : Q) :
  lookup "GL" d = Ok data ->
  In s Grid._static_sampling -> s <> 0.0016%float ->
  GL_tilesys (Some d) s = Ok self ->
  shifted lon 180 = Some x -> (0 <= x)%Q -> (x < 360 # 1)%Q ->
  shifted lat 90 = Some y -> (0 <= y)%Q -> (y < 180 # 1)%Q ->
  exists name s' east north,
    TilingSystem.point2tilename self lon lat false = Ok name /\
    TilingSystem.decode_tilename self name
    = Ok ("GL", s', TilingSystem.xsize self, east, north, tiletype (core self)) /\
    (inject_Z (east + 180) <= x)%Q /\
    (x < inject_Z (east + 180 + TilingSystem.xsize self))%Q /\
    (inject_Z (north + 90) <= y)%Q /\
    (y < inject_Z (north + 90 + TilingSystem.ysize self))%Q /\
    (forall a b, lon = Py.Int a -> lat = Py.Int b ->
       east <= a < east + TilingSystem.xsize self /\
       north <= b < north + TilingSystem.ysize self).
Proof.
  intros Hd Hin Hs Hself Hsx Hx0 Hx Hsy Hy0 Hy.
  destruct (built_system_named d data s self Hd Hin Hs Hself)
    as (s' & n & Hnamed & _ & Htag & _ & Hxn & Hyn & Hsize).
  destruct (size_divides _ _ Hsize) as (Hn & H180 & H90 & _).
  assert (Htab : In n [1; 3; 6; 18]).
  { cbn [In] in *. destruct Hsize as [H|[H|[H|[H|[]]]]]; injection H as _ <-; tauto. }
  destruct (corner_of_point self lon lat x y) as
    (ll_lon & ll_lat & kx & ky & Hr & Hkx & [Hix _] & Hky & [Hiy _] & Hlx & Hux & Hly & Huy);
    try assumption; try (rewrite ?Hxn, ?Hyn; exact Htab).
  rewrite Hxn, Hyn in *.
  destruct (corner_in_range kx n 180 x Hn H180 Hkx Hlx Hx) as [Hr1 Ha1].
  destruct (corner_in_range ky n 90 y Hn H90 Hky Hly Hy) as [Hr2 Ha2].
  set (east := kx * n - 180) in *. set (north := ky * n - 90) in *.
  rewrite <- Hxn in Ha1. rewrite <- Hyn in Ha2.
  destruct (names_of_corner self s' Hnamed east north Hr1 Hr2 Ha1 Ha2)
    as (long & short & Henc & Hdec & _).
  exists long, s', east, north.
  split.
  { unfold TilingSystem.point2tilename. rewrite Hr. cbn [bind].
    unfold TilingSystem._encode_tilename.
    rewrite (encode_tilename_int self _ _ east north _ _ _ Hix Hiy). exact Henc. }
  split; [rewrite Hxn in Hdec; rewrite <- Htag; exact Hdec|].
  replace (east + 180) with (kx * n) by (unfold east; lia).
  replace (north + 90) with (ky * n) by (unfold north; lia).
  repeat (split; [assumption|]).
  intros a b -> ->. unfold shifted in Hsx, Hsy. cbn in Hsx, Hsy.
  injection Hsx as <-. injection Hsy as <-.
  rewrite <- Zle_Qle in Hlx, Hly. rewrite <- Zlt_Qlt in Hux, Huy.
  unfold east, north. lia.
Qed.

(** Discharges [s <> 0.0016] for a literal sampling. *)
Ltac not_0016 :=
  let E := fresh "E" in
  intros E;
  match type of E with
  | ?s = ?t =>
      assert (F : PrimFloat.eqb s t = PrimFloat.eqb t t) by (rewrite E; reflexivity);
      vm_compute in F; discriminate F
  end.

Lemma point2tilename_names_enclosing_tile_witness :
  let self := {| core := built_core "GL" 0.0006%float "T6" 6 |} in
  let lon := Py.Float (-71.3456)%float in
  let lat := Py.Float (-1.5432)%float in
  exists x y,
    shifted lon 180 = Some x /\ shifted lat 90 = Some y /\
    exists name s' east north,
      TilingSystem.point2tilename self lon lat false = Ok name /\
      TilingSystem.decode_tilename self name
      = Ok ("GL", s', TilingSystem.xsize self, east, north, tiletype (core self)) /\
      (inject_Z (east + 180) <= x)%Q /\
      (x < inject_Z (east + 180 + TilingSystem.xsize self))%Q /\
      (inject_Z (north + 90) <= y)%Q /\
      (y < inject_Z (north + 90 + TilingSystem.ysize self))%Q /\
      (forall a b, lon = Py.Int a -> lat = Py.Int b ->
         east <= a < east + TilingSystem.xsize self /\
         north <= b < north + TilingSystem.ysize self).
Proof.
  intros self lon lat.
  set (x := match shifted lon 180 with Some v => v | None => 0%Q end).
  set (y := match shifted lat 90 with Some v => v | None => 0%Q end).
  exists x, y. split; [vm_compute; reflexivity|]. split; [vm_compute; reflexivity|].
  apply (point2tilename_names_enclosing_tile sample_data sample_GL 0.0006%float self
           lon lat x y).
  - reflexivity.
  - cbn. tauto.
  - not_0016.
  - vm_compute. reflexivity.
  - vm_compute. reflexivity.
  - vm_compute. discriminate.
  - vm_compute. reflexivity.
  - vm_compute. reflexivity.
  - vm_compute. discriminate.
  - vm_compute. reflexivity.
Defined.

(** X13: on the tiling system of every supported sampling of the classes T1,
    T3 and T6 other than [0.0016], with the land tiles of the class in the
    data set, for a point whose shifts [lon + 180] and [lat + 90], as the code
    computes them, are [x] in [[0, 360)] and [y] in [[0, 180)]:
    [create_tile(lon=..., lat=...)] returns the tile whose square holds the
    shifted point, with an integer corner, named as [point2tilename] names
    it, and with the land flag of its short name; the tile holds the point
    itself when the point is given in integers. *)
Theorem create_tile_by_point (d : static_data) (data : subgrid_data) (s : float)
  (self : LatLonTilingSystem) (land_tiles : list string) (lon lat : Py.number) (x y : Q) :
  lookup "GL" d = Ok data ->
  In s Grid._static_sampling -> s <> 0.0016%float ->
  GL_tilesys (Some d) s = Ok self ->
  tiletype (core self) <> "T18" ->
  lookup (tiletype (core self)) (coverland data) = Ok land_tiles ->
  shifted lon 180 = Some x -> (0 <= x)%Q -> (x < 360 # 1)%Q ->
  shifted lat 90 = Some y -> (0 <= y)%Q -> (y < 180 # 1)%Q ->
  exists tile east north,
    TilingSystem.create_tile (Some d) self None (Some lon) (Some lat) = Ok tile /\
    TilingSystem.point2tilename self lon lat false = Ok (tile_name tile) /\
    is_integer (ll_lon tile) east /\ is_integer (ll_lat tile) north /\
    (inject_Z (east + 180) <= x)%Q /\
    (x < inject_Z (east + 180 + TilingSystem.xsize self))%Q /\
    (inject_Z (north + 90) <= y)%Q /\
    (y < inject_Z (north + 90 + TilingSystem.ysize self))%Q /\
    (forall a b, lon = Py.Int a -> lat = Py.Int b ->
       east <= a < east + TilingSystem.xsize self /\
       north <= b < north + TilingSystem.ysize self) /\
    covers_land tile = Some (TilingSystem.member (shortname tile) land_tiles).
Proof.
  intros Hd Hin Hs Hself Hnot18 Hland Hsx Hx0 Hx Hsy Hy0 Hy.
  destruct (built_system_named d data s self Hd Hin Hs Hself)
    as (s' & n & Hnamed & _ & Htag & _ & Hxn & Hyn & Hsize).
  destruct (size_divides _ _ Hsize) as (Hn & H180 & H90 & [H18|Htwo]); [contradiction|].
  rewrite <- (land_of_GL d data self Hd Htag) in Hland.
  assert (Htab : In n [1; 3; 6; 18]).
  { cbn [In] in *. destruct Hsize as [H|[H|[H|[H|[]]]]]; injection H as _ <-; tauto. }
  destruct (corner_of_point self lon lat x y) as
    (cx & cy & kx & ky & Hr & Hkx & Hix & Hky & Hiy & Hlx & Hux & Hly & Huy);
    try assumption; try (rewrite ?Hxn, ?Hyn; exact Htab).
  rewrite Hxn, Hyn in *.
  destruct (corner_in_range kx n 180 x Hn H180 Hkx Hlx Hx) as [Hr1 Ha1].
  destruct (corner_in_range ky n 90 y Hn H90 Hky Hly Hy) as [Hr2 Ha2].
  set (east := kx * n - 180) in *. set (north := ky * n - 90) in *.
  rewrite <- Hxn in Ha1. rewrite <- Hyn in Ha2.
  destruct (tile_at_corner (Some d) self s' land_tiles Hnamed Htwo Hland east north
              Hr1 Hr2 Ha1 Ha2 cx cy (proj1 Hix) (proj1 Hiy))
    as (long & Henc & _ & _ & Htile).
  unfold TilingSystem.create_tile, TilingSystem.point2tilename.
  rewrite Hr. cbn [bind]. rewrite Htile, Henc.
  eexists. exists east, north. split; [reflexivity|].
  cbn [tile_name ll_lon ll_lat covers_land]. unfold shortname. cbn [tile_name].
  split; [reflexivity|].
  replace (east + 180) with (kx * n) by (unfold east; lia).
  replace (north + 90) with (ky * n) by (unfold north; lia).
  repeat (split; [assumption|]).
  split; [|reflexivity].
  intros a b -> ->. unfold shifted in Hsx, Hsy. cbn in Hsx, Hsy.
  injection Hsx as <-. injection Hsy as <-.
  rewrite <- Zle_Qle in Hlx, Hly. rewrite <- Zlt_Qlt in Hux, Huy.
  unfold east, north. lia.
Qed.

Lemma create_tile_by_point_witness :
  let self := {| core := built_core "GL" 0.0001%float "T1" 1 |} in
  let lon := Py.Float (-71.3456)%float in
  let lat := Py.Float (-1.5432)%float in
  exists x y,
    shifted lon 180 = Some x /\ shifted lat 90 = Some y /\
    exists tile east north,
      TilingSystem.create_tile (Some sample_data) self None (Some lon) (Some lat) = Ok tile /\
      TilingSystem.point2tilename self lon lat false = Ok (tile_name tile) /\
      is_integer (ll_lon tile) east /\ is_integer (ll_lat tile) north /\
      (inject_Z (east + 180) <= x)%Q /\
      (x < inject_Z (east + 180 + TilingSystem.xsize self))%Q /\
      (inject_Z (north + 90) <= y)%Q /\
      (y < inject_Z (north + 90 + TilingSystem.ysize self))%Q /\
      (forall a b, lon = Py.Int a -> lat = Py.Int b ->
         east <= a < east + TilingSystem.xsize self /\
         north <= b < north + TilingSystem.ysize self) /\
      covers_land tile = Some (TilingSystem.member (shortname tile) ["E194N135T1"]).
Proof.
  intros self lon lat.
  set (x := match shifted lon 180 with Some v => v | None => 0%Q end).
  set (y := match shifted lat 90 with Some v => v | None => 0%Q end).
  exists x, y. split; [vm_compute; reflexivity|]. split; [vm_compute; reflexivity|].
  apply (create_tile_by_point sample_data sample_GL 0.0001%float self ["E194N135T1"]
           lon lat x y).
  - reflexivity.
  - cbn. tauto.
  - not_0016.
  - vm_compute. reflexivity.
  - cbn. discriminate.
  - reflexivity.
  - vm_compute. reflexivity.
  - vm_compute. discriminate.
  - vm_compute. reflexivity.
  - vm_compute. reflexivity.
  - vm_compute. discriminate.
  - vm_compute. reflexivity.
Defined.

(** X14: on the same systems, for every corner in range that is aligned to the
    tile size: [create_tile] given the long name of the tile and
    [create_tile] given its short name return the same tile, which carries
    the long name, the corner and the land flag of the short name. *)
Theorem create_tile_by_name (d : static_data) (data : subgrid_data) (s : float)
  (self : LatLonTilingSystem) (land_tiles : list string) (east north : Z) :
  lookup "GL" d = Ok data ->
  In s Grid._static_sampling -> s <> 0.0016%float ->
  GL_tilesys (Some d) s = Ok self ->
  tiletype (core self) <> "T18" ->
  lookup (tiletype (core self)) (coverland data) = Ok land_tiles ->
  -180 <= east < 180 -> -90 <= north < 90 ->
  east mod TilingSystem.xsize self = 0 -> north mod TilingSystem.ysize self = 0 ->
  exists long short,
    TilingSystem._encode_tilename self (Py.Int east) (Py.Int north) false = Ok long /\
    TilingSystem._encode_tilename self (Py.Int east) (Py.Int north) true = Ok short /\
    TilingSystem.create_tile (Some d) self (Some long) None None
    = Ok {| tile_core := core self; tile_name := long;
            ll_lon := Py.Int east; ll_lat := Py.Int north;
            covers_land := Some (TilingSystem.member short land_tiles) |} /\
    TilingSystem.create_tile (Some d) self (Some short) None None
    = TilingSystem.create_tile (Some d) self (Some long) None None.
Proof.
  intros Hd Hin Hs Hself Hnot18 Hland Hr1 Hr2 Ha1 Ha2.
  destruct (built_system_named d data s self Hd Hin Hs Hself)
    as (s' & n & Hnamed & _ & Htag & _ & Hx & Hy & Hsize).
  destruct (size_divides _ _ Hsize) as (Hn & H180 & H90 & [H18|Htwo]); [contradiction|].
  rewrite <- (land_of_GL d data self Hd Htag) in Hland.
  destruct (tile_at_corner (Some d) self s' land_tiles Hnamed Htwo Hland east north
              Hr1 Hr2 Ha1 Ha2 (Py.Int east) (Py.Int north) eq_refl eq_refl)
    as (long & Henc & Hdlong & Hdshort & Htile).
  destruct (names_of_corner self s' Hnamed east north Hr1 Hr2 Ha1 Ha2)
    as (long' & short & Henc' & _ & _ & Hshort & Htwo').
  destruct (Htwo' Htwo) as [Hencs _].
  unfold TilingSystem._encode_tilename in Henc. rewrite Henc' in Henc.
  injection Henc as ->. subst short.
  exists long, (Py.slice_from 7 long).
  unfold TilingSystem._encode_tilename at 1 2. rewrite Henc', Hencs.
  split; [reflexivity|]. split; [reflexivity|].
  unfold TilingSystem.create_tile, TilingSystem.tilename2lowerleft.
  rewrite Hdlong, Hdshort. cbn [bind]. rewrite Htile. split; reflexivity.
Qed.

Lemma create_tile_by_name_witness :
  let self := {| core := built_core "GL" 0.0006%float "T6" 6 |} in
  exists long short,
    TilingSystem._encode_tilename self (Py.Int (-168)) (Py.Int (-48)) false = Ok long /\
    TilingSystem._encode_tilename self (Py.Int (-168)) (Py.Int (-48)) true = Ok short /\
    TilingSystem.create_tile (Some sample_data) self (Some long) None None
    = Ok {| tile_core := core self; tile_name := long;
            ll_lon := Py.Int (-168); ll_lat := Py.Int (-48);
            covers_land := Some (TilingSystem.member short ["E012N042T6"]) |} /\
    TilingSystem.create_tile (Some sample_data) self (Some short) None None
    = TilingSystem.create_tile (Some sample_data) self (Some long) None None.
Proof.
  intros self.
  apply (create_tile_by_name sample_data sample_GL 0.0006%float self).
  - reflexivity.
  - cbn. tauto.
  - not_0016.
  - vm_compute. reflexivity.
  - cbn. discriminate.
  - reflexivity.
  - lia.
  - lia.
  - reflexivity.
  - reflexivity.
Defined.

(** ** The tiles a search returns *)

Section SearchLoop.

Context {G : Type} `{Geometry G}.

Variable d : option static_data.
Variable self : LatLonSubgrid.
Variable intersect : G.
Variable coverland : bool.

Lemma found_later (c : Z * Z) (todo : list (Z * Z)) (n : string) :
  found d self intersect coverland todo n ->
  found d self intersect coverland (c :: todo) n.
Proof.
  intros (lon & lat & Hin & Hrest). exists lon, lat. split; [right; exact Hin | exact Hrest].
Qed.

(** The loop appends to the list it was given, and what it appends are the
    names found among the corners it visits. *)
Lemma visit_appends (todo : list (Z * Z)) :
  forall acc names,
    Subgrid.visit d self intersect coverland todo acc = Ok names ->
    exists new, names = (acc ++ new)%list /\
                Forall (found d self intersect coverland todo) new.
Proof.
  induction todo as [|[lon lat] rest IH]; intros acc names Hv; cbn [Subgrid.visit] in Hv.
  - injection Hv as <-. exists []. split; [symmetry; apply app_nil_r | constructor].
  - cbv zeta in Hv.
    destruct (Intersects _ intersect) eqn:Hi.
    + destruct (TilingSystem.point2tilename (tilesys self) (Py.Int lon) (Py.Int lat) false)
        as [ftile|] eqn:Hp; [|discriminate Hv].
      cbn [bind] in Hv.
      destruct (if negb coverland then Ok true
                else bind (TilingSystem.check_tile_covers_land d (tilesys self) ftile)
                       (fun land => Ok (match land with Some b => b | None => false end)))
        as [keep|] eqn:Hk; [|discriminate Hv].
      cbn [bind] in Hv.
      destruct keep.
      * destruct (IH _ _ Hv) as (new & -> & Hnew).
        exists (ftile :: new). split; [rewrite <- app_assoc; reflexivity|].
        constructor.
        -- exists lon, lat. split; [left; reflexivity|]. split; [exact Hi|].
           split; [exact Hp|]. intros ->. cbn [negb] in Hk.
           destruct (TilingSystem.check_tile_covers_land d (tilesys self) ftile)
             as [[[|]|]|]; cbn [bind] in Hk; congruence.
        -- eapply Forall_impl; [|exact Hnew]. intros n. apply found_later.
      * destruct (IH _ _ Hv) as (new & -> & Hnew).
        exists new. split; [reflexivity|].
        eapply Forall_impl; [|exact Hnew]. intros n. apply found_later.
    + destruct (IH _ _ Hv) as (new & -> & Hnew).
      exists new. split; [reflexivity|].
      eapply Forall_impl; [|exact Hnew]. intros n. apply found_later.
Qed.

(** The loop leaves out no name found among the corners it visits. *)
Lemma visit_keeps (todo : list (Z * Z)) :
  forall acc names n,
    Subgrid.visit d self intersect coverland todo acc = Ok names ->
    found d self intersect coverland todo n -> In n names.
Proof.
  induction todo as [|[lon lat] rest IH]; intros acc names n Hv Hf.
  - destruct Hf as (? & ? & [] & _).
  - destruct Hf as (lon' & lat' & [Heq|Hin] & Hi' & Hp' & Hland).
    + injection Heq as <- <-. cbn [Subgrid.visit] in Hv. cbv zeta in Hv.
      rewrite Hi', Hp' in Hv. cbn [bind] in Hv.
      assert (Hk : (if negb coverland then Ok true
                    else bind (TilingSystem.check_tile_covers_land d (tilesys self) n)
                           (fun land => Ok (match land with Some b => b | None => false end)))
                   = Ok true).
      { destruct coverland; [|reflexivity]. cbn [negb]. rewrite (Hland eq_refl). reflexivity. }
      rewrite Hk in Hv. cbn [bind] in Hv.
      destruct (visit_appends _ _ _ Hv) as (new & -> & _).
      apply in_or_app. left. apply in_or_app. right. left. reflexivity.
    + assert (Hrest : found d self intersect coverland rest n).
      { exists lon', lat'. repeat split; assumption. }
      cbn [Subgrid.visit] in Hv. cbv zeta in Hv.
      destruct (Intersects _ intersect).
      * destruct (TilingSystem.point2tilename (tilesys self) (Py.Int lon) (Py.Int lat) false)
          as [ftile|]; [|discriminate Hv].
        cbn [bind] in Hv.
        destruct (if negb coverland then Ok true
                  else bind (TilingSystem.check_tile_covers_land d (tilesys self) ftile)
                         (fun land => Ok (match land with Some b => b | None => false end)))
          as [keep|]; [|discriminate Hv].
        cbn [bind] in Hv. apply (IH _ _ _ Hv Hrest).
      * apply (IH _ _ _ Hv Hrest).
Qed.

End SearchLoop.

(** X15: what [search_tiles_in_geometry] returns, whatever the geometry service:
    nothing when the region does not meet the zone of the subgrid; otherwise
    the region lies in a geographic reference, and the names returned are
    exactly the names found among the candidate corners of the envelope of
    the intersection, the tiles that meet the intersection and, if land is
    asked for, cover land. *)
Theorem search_tiles_in_geometry_exact {G : Type} `{Geometry G}
  (d : option static_data) (self : LatLonSubgrid) (geom : G) (coverland : bool)
  (names : list string) :
  Subgrid.search_tiles_in_geometry d self geom coverland = Ok names ->
  if Intersects geom (Subgrid.polygon_geog self) then
    let intersect :=
      transform_geometry (Intersection geom (Subgrid.polygon_geog self)) (1 # 2)%Q in
    IsProjected (Intersection geom (Subgrid.polygon_geog self)) = 0 /\
    forall n, In n names <->
              found d self intersect coverland
                (Subgrid.candidates self (GetEnvelope intersect)) n
  else names = [].
Proof.
  unfold Subgrid.search_tiles_in_geometry. intros Hs. cbv zeta in Hs.
  destruct (Intersects geom (Subgrid.polygon_geog self)); cbn [negb] in Hs;
    [| injection Hs as <-; reflexivity].
  destruct (Z.eqb_spec (IsProjected (Intersection geom (Subgrid.polygon_geog self))) 0)
    as [Hp|Hp]; cbn [negb] in Hs; [|discriminate Hs].
  cbv zeta. split; [exact Hp|]. intros n. split.
  - intros Hin. destruct (visit_appends _ _ _ _ _ _ _ Hs) as (new & -> & Hnew).
    cbn [app] in Hin. rewrite Forall_forall in Hnew. apply Hnew, Hin.
  - apply (visit_keeps _ _ _ _ _ _ _ _ Hs).
Qed.

Lemma search_tiles_in_geometry_exact_witness :
  let self := {| subgrid_core := built_core "GL" 0.0006%float "T6" 6;
                 name := "LATLON_GL600U";
                 polygon_wkt := zone_extent sample_GL;
                 tilesys := {| core := built_core "GL" 0.0006%float "T6" 6 |} |} in
  let geom : Rectangle.t := (1 # 2, 1 # 2, 3 # 2, 3 # 2)%Q in
  if Intersects geom (Subgrid.polygon_geog self) then
    let intersect :=
      transform_geometry (Intersection geom (Subgrid.polygon_geog self)) (1 # 2)%Q in
    IsProjected (Intersection geom (Subgrid.polygon_geog self)) = 0 /\
    forall n, In n ["GL600U_E180N090T6"] <->
              found (Some sample_data) self intersect false
                (Subgrid.candidates self (GetEnvelope intersect)) n
  else ["GL600U_E180N090T6"] = [].
Proof.
  intros self geom.
  apply (search_tiles_in_geometry_exact (Some sample_data) self geom false).
  vm_compute. reflexivity.
Defined.

(** ** Which corners a search visits *)

Section Candidates.

(** [numpy.arange] with a positive step: the values from [start] on, a step
    apart, that lie below [stop]. *)
Lemma arange_In (start stop step z : Z) :
  0 < step ->
  In z (Subgrid.arange start stop step) <->
  exists k, 0 <= k /\ z = start + k * step /\ z < stop.
Proof.
  intros Hs. unfold Subgrid.arange. rewrite in_map_iff. split.
  - intros (i & <- & Hi). apply in_seq in Hi. exists (Z.of_nat i).
    split; [lia|]. split; [reflexivity|].
    destruct (Z.le_gt_cases ((stop - start + step - 1) / step) 0) as [Hle|Hgt]; [lia|].
    assert (Hlt : Z.of_nat i < (stop - start + step - 1) / step) by lia.
    pose proof (Z.mul_div_le (stop - start + step - 1) step Hs). nia.
  - intros (k & Hk & -> & Hlt). exists (Z.to_nat k). split; [f_equal; lia|].
    apply in_seq. split; [lia|]. cbn [Nat.add].
    assert (k + 1 <= (stop - start + step - 1) / step); [|lia].
    apply Z.div_le_lower_bound; [exact Hs | nia].
Qed.

Lemma product_In {A B : Type} (a : list A) (b : list B) (x : A) (y : B) :
  In (x, y) (TilingSystem.product a b) <-> In x a /\ In y b.
Proof.
  unfold TilingSystem.product. rewrite in_flat_map. split.
  - intros (x' & Hx & Hin). apply in_map_iff in Hin as (y' & Heq & Hy).
    injection Heq as -> ->. split; assumption.
  - intros [Hx Hy]. exists x. split; [exact Hx|]. apply in_map_iff. exists y. split; auto.
Qed.

(** A multiple of the step between two bounds is a value of the range. *)
Lemma aligned_in_arange (lo hi n z : Z) :
  0 < n -> lo mod n = 0 -> z mod n = 0 -> lo < z + n -> z < hi ->
  In z (Subgrid.arange lo hi n).
Proof.
  intros Hn Hlo Hz Hge Hlt. apply arange_In; [exact Hn|].
  apply Z.mod_divide in Hlo as [a ->]; [|lia].
  apply Z.mod_divide in Hz as [b ->]; [|lia].
  exists (b - a). split; [nia|]. split; [ring | exact Hlt].
Qed.

End Candidates.

(** X16: for an envelope whose minima are not negative, the corners the search
    visits include every corner aligned to the tile size whose tile reaches
    beyond the minima of the envelope and starts at or before its maxima:
    with such an envelope no tile that overlaps it is left out. *)
Theorem candidates_cover (self : LatLonSubgrid) (e0 e1 e2 e3 : Q) (lon lat : Z) :
  0 < tile_xsize_m (subgrid_core self) -> 0 < tile_ysize_m (subgrid_core self) ->
  (0 <= e0)%Q -> (0 <= e2)%Q ->
  lon mod tile_xsize_m (subgrid_core self) = 0 ->
  lat mod tile_ysize_m (subgrid_core self) = 0 ->
  (e0 < inject_Z (lon + tile_xsize_m (subgrid_core self)))%Q -> (inject_Z lon <= e1)%Q ->
  (e2 < inject_Z (lat + tile_ysize_m (subgrid_core self)))%Q -> (inject_Z lat <= e3)%Q ->
  In (lon, lat) (Subgrid.candidates self (e0, e1, e2, e3)).
Proof.
  intros Hx Hy H0 H2 Hlon Hlat Hl0 Hl1 Hb0 Hb1.
  pose proof (bounding_tiles_enclose self e0 e1 e2 e3 Hx Hy) as Hb.
  unfold Subgrid.candidates.
  destruct (Subgrid.bounding_tiles self (e0, e1, e2, e3))
    as [[[lon_min lon_max] lat_min] lat_max] eqn:Eb.
  destruct Hb as (Hu1 & Hu3 & Hm0 & Hm2). specialize (Hm0 H0). specialize (Hm2 H2).
  unfold Subgrid.bounding_tiles in Eb. injection Eb as E1 E2 E3 E4.
  cbv zeta. apply product_In. split.
  - apply aligned_in_arange; try assumption.
    + rewrite <- E1. apply Z.mod_mul. lia.
    + rewrite Zlt_Qlt. eapply Qle_lt_trans; eassumption.
    + assert (lon < lon_max); [|lia].
      rewrite Zlt_Qlt. eapply Qle_lt_trans; eassumption.
  - apply aligned_in_arange; try assumption.
    + rewrite <- E3. apply Z.mod_mul. lia.
    + rewrite Zlt_Qlt. eapply Qle_lt_trans; eassumption.
    + assert (lat < lat_max); [|lia].
      rewrite Zlt_Qlt. eapply Qle_lt_trans; eassumption.
Qed.

Lemma candidates_cover_witness :
  let self := {| subgrid_core := built_core "GL" 0.0006%float "T6" 6;
                 name := "LATLON_GL600U";
                 polygon_wkt := zone_extent sample_GL;
                 tilesys := {| core := built_core "GL" 0.0006%float "T6" 6 |} |} in
  In (6, 12) (Subgrid.candidates self (23 # 2, 25 # 2, 35 # 2, 37 # 2)%Q).
Proof.
  intros self.
  apply (candidates_cover self (23 # 2) (25 # 2) (35 # 2) (37 # 2) 6 12);
    vm_compute; solve [reflexivity | discriminate].
Defined.

(** ** The family of a tile *)

Section Loops.

Lemma range_In (n i : Z) : In i (TilingSystem.range n) <-> 0 <= i < n.
Proof.
  unfold TilingSystem.range. rewrite in_map_iff. split.
  - intros (k & <- & Hk). apply in_seq in Hk. lia.
  - intros Hi. exists (Z.to_nat i). split; [lia|]. apply in_seq. lia.
Qed.

Lemma range_length (n : Z) : List.length (TilingSystem.range n) = Z.to_nat n.
Proof. unfold TilingSystem.range. rewrite length_map, length_seq. reflexivity. Qed.

Lemma product_length {A B : Type} (a : list A) (b : list B) :
  List.length (TilingSystem.product a b) = (List.length a * List.length b)%nat.
Proof.
  unfold TilingSystem.product. induction a as [|x a IH]; [reflexivity|].
  cbn [flat_map List.length]. rewrite length_app, length_map, IH. lia.
Qed.

(** A loop that ran to its end gave one result per item, the results of
    the items and no others. *)
Lemma for_each_results {A B : Type} (body : A -> result B) (l : list A) :
  forall ys, TilingSystem.for_each body l = Ok ys ->
    List.length ys = List.length l /\
    forall y, In y ys <-> exists x, In x l /\ body x = Ok y.
Proof.
  induction l as [|x r IH]; intros ys Hf; cbn [TilingSystem.for_each] in Hf.
  - injection Hf as <-. split; [reflexivity|]. intros y. split; [intros []|].
    intros (? & [] & _).
  - destruct (body x) as [y0|] eqn:Hx; [|discriminate Hf]. cbn [bind] in Hf.
    destruct (TilingSystem.for_each body r) as [ys0|]; [|discriminate Hf].
    cbn [bind] in Hf. injection Hf as <-.
    destruct (IH ys0 eq_refl) as [Hlen Hin].
    split; [cbn [List.length]; lia|]. intros y. cbn [In]. rewrite Hin. split.
    + intros [<-|(x' & Hx' & Hy)]; [exists x; auto | exists x'; auto].
    + intros (x' & [<-|Hx'] & Hy); [left; congruence | right; exists x'; auto].
Qed.

End Loops.

(** X17: what [find_overlapping_tilenames] returns.  The target sampling has a
    tile code and a tile size, and the name given decodes to a corner.  When
    the target code is not before the code of the system in string order, the
    result is one name, encoded on the target system from the corner rounded
    down to the target size.  Otherwise, with [n] the size of the system
    divided by the target size, rounded down, the result has [n * n] names:
    exactly the names encoded on the target system from the corners [i] and
    [j] target tiles east and north of the corner, for [0 <= i, j < n]. *)
Theorem find_overlapping_tilenames_family (d : option static_data)
  (self : LatLonTilingSystem) (tilename : string) (target_sampling : option float)
  (target_tiletype : option string) (names : list string) :
  TilingSystem.find_overlapping_tilenames d self tilename target_sampling target_tiletype
  = Ok names ->
  exists s c size east north,
    TilingSystem.check_search_input target_sampling target_tiletype = Ok (Some s) /\
    Grid.get_tiletype "" (Some s) = Ok c /\
    In (c, size) [("T1", 1); ("T3", 3); ("T6", 6); ("T18", 18)] /\
    TilingSystem.tilename2lowerleft self tilename = Ok (east, north) /\
    let target := {| core := built_core "GL" s c size |} in
    let shortform := match target_sampling with None => true | Some _ => false end in
    if Py.str_ge c (tiletype (core self)) then
      exists name,
        names = [name] /\
        TilingSystem.encode_tilename target
          (Py.Int ((east + 180) / size * size - 180))
          (Py.Int ((north + 90) / size * size - 90)) s c shortform = Ok name
    else
      let n := TilingSystem.xsize self / size in
      List.length names = (Z.to_nat n * Z.to_nat n)%nat /\
      forall name,
        In name names <->
        exists i j,
          0 <= i < n /\ 0 <= j < n /\
          TilingSystem.encode_tilename target
            (Py.Int (east + i * size)) (Py.Int (north + j * size)) s c shortform
          = Ok name.
Proof.
  unfold TilingSystem.find_overlapping_tilenames. intros H. cbv zeta in H.
  destruct (TilingSystem.check_search_input target_sampling target_tiletype)
    as [[s|]|] eqn:Hc; try discriminate H.
  cbn [bind] in H.
  destruct (Grid.new d s) as [grid|] eqn:Hg; [|discriminate H]. cbn [bind] in H.
  destruct (new_parts d s grid Hg)
    as (_ & c & size & code & d' & data & Hin & Htype & _ & _ & _ & ->).
  cbn [grid_core subgrids tiletype tile_xsize_m built_core] in H.
  destruct (TilingSystem.decode_tilename self tilename)
    as [[[[[[id s0] size0] east] north] c0]|] eqn:Hd; [|discriminate H].
  cbn [bind] in H.
  destruct (decoded_parts self _ _ _ _ _ _ _ Hd) as (_ & Hsize & Hc0 & _).
  subst c0 size0.
  exists s, c, size, east, north.
  split; [reflexivity|]. split; [exact Htype|]. split; [exact Hin|].
  split; [unfold TilingSystem.tilename2lowerleft; rewrite Hd; reflexivity|].
  cbv zeta.
  destruct (Py.str_ge c (tiletype (core self))).
  - cbn [lookup] in H.
    destruct (String.eqb "GL" (tag (core self))); [|discriminate H].
    cbn [bind tilesys] in H.
    match type of H with
    | bind ?e _ = _ => destruct e as [name|] eqn:He; [|discriminate H]
    end.
    cbn [bind] in H. injection H as <-. exists name. split; reflexivity.
  - destruct (for_each_results _ _ _ H) as [Hlen Hnames].
    rewrite product_length, !range_length in Hlen. split; [exact Hlen|].
    intros name. rewrite Hnames. split.
    + intros ([i j] & Hij & Hbody). apply product_In in Hij as [Hi Hj].
      apply range_In in Hi, Hj. exists i, j. split; [exact Hi|]. split; [exact Hj|].
      cbn [lookup] in Hbody.
      destruct (String.eqb "GL" (tag (core self))); [|discriminate Hbody].
      exact Hbody.
    + intros (i & j & Hi & Hj & Henc). exists (i, j).
      split; [apply product_In; split; apply range_In; assumption|].
      cbn [lookup].
      destruct (String.eqb "GL" (tag (core self))) eqn:Htag; [exact Henc|].
      exfalso.
      destruct (TilingSystem.range (TilingSystem.xsize self / size)) as [|k r] eqn:Hr.
      { assert (Hk : In i (TilingSystem.range (TilingSystem.xsize self / size)))
          by (apply range_In; exact Hi).
        rewrite Hr in Hk. destruct Hk. }
      unfold TilingSystem.product in H.
      cbn [flat_map map app TilingSystem.for_each lookup] in H.
      rewrite Htag in H. discriminate H.
Qed.

Lemma find_overlapping_tilenames_family_witness :
  let self := {| core := built_core "GL" 0.0006%float "T6" 6 |} in
  exists s c size east north,
    TilingSystem.check_search_input (Some 0.0003%float) None = Ok (Some s) /\
    Grid.get_tiletype "" (Some s) = Ok c /\
    In (c, size) [("T1", 1); ("T3", 3); ("T6", 6); ("T18", 18)] /\
    TilingSystem.tilename2lowerleft self "GL600U_E012N042T6" = Ok (east, north) /\
    let target := {| core := built_core "GL" s c size |} in
    let shortform := false in
    if Py.str_ge c (tiletype (core self)) then
      exists name,
        ["GL300U_E012N042T3"; "GL300U_E012N045T3"; "GL300U_E015N042T3"; "GL300U_E015N045T3"]
        = [name] /\
        TilingSystem.encode_tilename target
          (Py.Int ((east + 180) / size * size - 180))
          (Py.Int ((north + 90) / size * size - 90)) s c shortform = Ok name
    else
      let n := TilingSystem.xsize self / size in
      List.length
        ["GL300U_E012N042T3"; "GL300U_E012N045T3"; "GL300U_E015N042T3"; "GL300U_E015N045T3"]
      = (Z.to_nat n * Z.to_nat n)%nat /\
      forall name,
        In name
          ["GL300U_E012N042T3"; "GL300U_E012N045T3"; "GL300U_E015N042T3"; "GL300U_E015N045T3"]
        <->
        exists i j,
          0 <= i < n /\ 0 <= j < n /\
          TilingSystem.encode_tilename target
            (Py.Int (east + i * size)) (Py.Int (north + j * size)) s c shortform
          = Ok name.
Proof.
  intros self.
  apply (find_overlapping_tilenames_family (Some sample_data) self "GL600U_E012N042T6"
           (Some 0.0003%float) None).
  vm_compute. reflexivity.
Defined.

(** ** Tiles made through the grid *)

Section Letters.

Lemma lstrip_last (l : list ascii) (c : ascii) :
  Py.is_space c = false -> exists m, Py.lstrip (l ++ [c]) = (m ++ [c])%list.
Proof.
  intros Hc. induction l as [|a l IH]; cbn [app Py.lstrip].
  - rewrite Hc. exists []. reflexivity.
  - destruct (Py.is_space a); [exact IH | exists (a :: l); reflexivity].
Qed.

(** [int] reads no text that starts with the letter [L]. *)
Lemma int_of_L (r : string) : Py.int (String "L" r) = Raise (ValueError invalid_literal).
Proof.
  unfold Py.int, Py.strip. cbn [list_ascii_of_string].
  change (Py.lstrip ("L"%char :: list_ascii_of_string r))
    with ("L"%char :: list_ascii_of_string r).
  cbn [rev].
  destruct (lstrip_last (rev (list_ascii_of_string r)) "L" eq_refl) as (m & ->).
  rewrite rev_app_distr. reflexivity.
Qed.

(** A name that starts with [GL] has no number after its first character. *)
Lemma int_after_GL (name : string) (b : nat) :
  Py.slice 0 2 name = "GL" -> (1 < b)%nat ->
  Py.int (Py.slice 1 b name) = Raise (ValueError invalid_literal).
Proof.
  intros Hgl Hb. destruct name as [|g [|l r]]; try discriminate Hgl.
  unfold Py.slice in Hgl. cbn [Nat.sub substring] in Hgl.
  assert (Hl : l = "L"%char) by (destruct r; congruence). subst l.
  unfold Py.slice. destruct (b - 1)%nat as [|k] eqn:Hk; [lia|].
  cbn [substring]. apply int_of_L.
Qed.

End Letters.

(** X18: [LatLonGrid.create_tile(name)] on a grid that was built: a name whose
    first two characters are [GL] is passed on to [create_tile] of the
    tiling system, and any other name ends in [KeyError].  A short name that
    the tiling system decodes is such a name: through the grid only long
    names make tiles. *)
Theorem grid_create_tile_long_names_only (d : option static_data) (s : float)
  (grid : LatLonGrid) (name : string) :
  Grid.new d s = Ok grid ->
  exists self,
    GL_tilesys d s = Ok self /\
    grid_create_tile d grid name
    = (if String.eqb "GL" (Py.slice 0 2 name)
       then TilingSystem.create_tile d self (Some name) None None
       else Raise (KeyError (Py.slice 0 2 name))) /\
    (In (Py.len name) [10; 11]%nat ->
     is_ok (TilingSystem.decode_tilename self name) = true ->
     grid_create_tile d grid name = Raise (KeyError (Py.slice 0 2 name))).
Proof.
  intros Hg.
  destruct (new_parts d s grid Hg)
    as (_ & c & size & code & d' & data & _ & _ & _ & _ & _ & Hgrid).
  exists {| core := built_core "GL" s c size |}.
  assert (Hrun : grid_create_tile d grid name
    = (if String.eqb "GL" (Py.slice 0 2 name)
       then TilingSystem.create_tile d {| core := built_core "GL" s c size |}
              (Some name) None None
       else Raise (KeyError (Py.slice 0 2 name)))).
  { unfold grid_create_tile. rewrite Hgrid. cbn [subgrids lookup].
    destruct (String.eqb "GL" (Py.slice 0 2 name)); reflexivity. }
  split; [|split; [exact Hrun|]].
  - unfold GL_tilesys, GL. rewrite Hg. cbn [bind]. rewrite Hgrid. reflexivity.
  - intros Hlen Hdec. rewrite Hrun.
    destruct (String.eqb_spec "GL" (Py.slice 0 2 name)) as [Hgl|]; [|reflexivity].
    exfalso.
    destruct (TilingSystem.decode_tilename _ name)
      as [[[[[[id s0] size0] east] north] c0]|] eqn:Hd; [|discriminate Hdec].
    destruct (decoded_parts _ _ _ _ _ _ _ _ Hd)
      as (_ & _ & _ & _ & _ & _ & _ & [(_ & _ & Hx & _) | (Hl & _)]).
    + rewrite (int_after_GL name 4) in Hx; [discriminate Hx | congruence | lia].
    + cbn [In] in Hlen, Hl. lia.
Qed.

Lemma grid_create_tile_long_names_only_witness :
  let grid :=
    {| grid_core := built_core "LatLon" 0.0006%float "T6" 6;
       subgrids := [("GL", {| subgrid_core := built_core "GL" 0.0006%float "T6" 6;
                              name := "LATLON_GL600U";
                              polygon_wkt := zone_extent sample_GL;
                              tilesys := {| core := built_core "GL" 0.0006%float "T6" 6 |} |})] |} in
  exists self,
    GL_tilesys (Some sample_data) 0.0006%float = Ok self /\
    grid_create_tile (Some sample_data) grid "E012N042T6"
    = (if String.eqb "GL" (Py.slice 0 2 "E012N042T6")
       then TilingSystem.create_tile (Some sample_data) self (Some "E012N042T6") None None
       else Raise (KeyError (Py.slice 0 2 "E012N042T6"))) /\
    (In (Py.len "E012N042T6") [10; 11]%nat ->
     is_ok (TilingSystem.decode_tilename self "E012N042T6") = true ->
     grid_create_tile (Some sample_data) grid "E012N042T6"
     = Raise (KeyError (Py.slice 0 2 "E012N042T6"))).
Proof.
  intros grid.
  apply (grid_create_tile_long_names_only (Some sample_data) 0.0006%float grid "E012N042T6").
  vm_compute. reflexivity.
Defined.

(** ** The scenarios of the test suite *)

Section Scenarios.

Let coarse := GL_tilesys (Some sample_data) 0.01%float.
Let fine := GL_tilesys (Some sample_data) 0.0001%float.
Let six := GL_tilesys (Some sample_data) 0.0006%float.
Let three := GL_tilesys (Some sample_data) 0.0003%float.

Example test_decode_tilename :
  (do t <- coarse ;; TilingSystem.decode_tilename t "GL010M_E072N036T18")
  = Ok ("GL", 0.01%float, 18, -108, -54, "T18") /\
  (exists x, (do t <- fine ;; TilingSystem.decode_tilename t "GL100U_E194N135T1")
             = Ok ("GL", x, 1, 14, 45, "T1") /\ Py.isclose x 0.0001%float = true) /\
  (do t <- fine ;; TilingSystem.decode_tilename t "E018N018T18")
  = Raise (ValueError msg1).
Proof.
  split; [vm_compute; reflexivity|]. split; [|vm_compute; reflexivity].
  eexists. split; [vm_compute; reflexivity|]. vm_compute. reflexivity.
Qed.

Example test_find_overlapping_tilenames :
  (do t <- six ;; TilingSystem.find_overlapping_tilenames (Some sample_data) t
                    "GL600U_E012N042T6" (Some 0.0003%float) None)
  = Ok ["GL300U_E012N042T3"; "GL300U_E012N045T3";
        "GL300U_E015N042T3"; "GL300U_E015N045T3"] /\
  (do t <- six ;; TilingSystem.find_overlapping_tilenames (Some sample_data) t
                    "E012N042T6" None (Some "T3"))
  = Ok ["E012N042T3"; "E012N045T3"; "E015N042T3"; "E015N045T3"] /\
  (do t <- three ;; TilingSystem.find_overlapping_tilenames (Some sample_data) t
                      "E015N042T3" (Some 0.0006%float) None)
  = Ok ["GL600U_E012N042T6"] /\
  (do t <- three ;; TilingSystem.find_overlapping_tilenames (Some sample_data) t
                      "E015N045T3" None (Some "T6"))
  = Ok ["E012N042T6"].
Proof. repeat split; vm_compute; reflexivity. Qed.

Example test_search_tiles_lon_lat_extent :
  (do sg <- GL (Some sample_data) 0.0006%float ;;
   Subgrid.search_tiles_in_geometry (Some sample_data) sg
     ((0 # 1, 30 # 1, 10 # 1, 40 # 1)%Q : Rectangle.t) false)
  = Ok ["GL600U_E180N120T6"; "GL600U_E180N126T6";
        "GL600U_E186N120T6"; "GL600U_E186N126T6"].
Proof. vm_compute. reflexivity. Qed.

End Scenarios.
